(** * CodeInPython mode: the path resolver and the archive installer

    A shallow embedding of the core of [mu/modes/codeinpython.py]:
    [path_clean], [xml_get_with_lang], the methods [valid_path],
    [path_get], [__path_create], [update_data_from_zip], [zip_get_version],
    [xml_get_version] and [zip_check_content] of [CodeInPython_Settings],
    and [recursive_overwrite], together with the functions of Python's
    [posixpath], [os], [shutil] and [zipfile] they call; and of what uses
    them: [path_for_codeinpython_add], [remove_empty_folders],
    [show_comparision_of_zip_files], [example_check_correctness], the loop
    of [initial_preparation] that creates the folders and the update check
    of [workspace_dir].

    Python strings are lists of Unicode code points.  Stateful code runs in
    a state-and-exception monad over a world made of a file system (a finite
    map from canonical absolute paths to nodes, without symbolic links) and
    the list of warning dialogs the program has shown; what the program
    writes to its log is left out. *)

From Stdlib Require Import String Ascii NArith ZArith Lia Bool.
From stdpp Require Import base option list gmap.

Set Warnings "-register-all".

Local Open Scope Z_scope.

(** ** Python strings *)

(** A [str] is a sequence of code points. *)
Abbreviation char := N (only parsing).
Abbreviation str := (list N) (only parsing).

(** The code points of an ASCII literal. *)
Definition py (s : string) : str :=
  map N_of_ascii (list_ascii_of_string s).

Definition str_eqb (a b : str) : bool := bool_decide (a = b).

(** [s.startswith(p)] *)
Fixpoint startswith (s p : str) {struct p} : bool :=
  match p, s with
  | [], _ => true
  | _ :: _, [] => false
  | c :: p', d :: s' => N.eqb c d && startswith s' p'
  end.

(** [s.endswith(p)] *)
Definition endswith (s p : str) : bool := startswith (rev s) (rev p).

(** [s.split(sep)] for a separator of one character: the pieces between
    the occurrences of [sep], empty pieces included. *)
Fixpoint str_split (sep : char) (s : str) : list str :=
  match s with
  | [] => [[]]
  | c :: s' =>
      if N.eqb c sep then [] :: str_split sep s'
      else match str_split sep s' with
           | [] => [[c]]
           | w :: ws => (c :: w) :: ws
           end
  end.

(** [sep.join(parts)] *)
Fixpoint str_join (sep : str) (parts : list str) : str :=
  match parts with
  | [] => []
  | [w] => w
  | w :: ws => w ++ sep ++ str_join sep ws
  end.

(** [s.rfind(c)] for one character: the highest index of [c], or -1. *)
Fixpoint rfind_from (c : char) (s : str) (i : Z) (found : Z) : Z :=
  match s with
  | [] => found
  | d :: s' => rfind_from c s' (i + 1) (if N.eqb d c then i else found)
  end.

Definition rfind (c : char) (s : str) : Z := rfind_from c s 0 (-1).

(** [s.find(c, start)] for one character: the lowest index at or after
    [start], or -1. *)
Fixpoint find_from (c : char) (s : str) (i : Z) (start : Z) : Z :=
  match s with
  | [] => -1
  | d :: s' =>
      if (start <=? i) && N.eqb d c then i
      else find_from c s' (i + 1) start
  end.

Definition find (c : char) (s : str) (start : Z) : Z := find_from c s 0 start.

(** Slices [s[:i]] and [s[i:]] for an index [0 <= i]. *)
Definition slice_to (s : str) (i : Z) : str := take (Z.to_nat i) s.
Definition slice_from (s : str) (i : Z) : str := drop (Z.to_nat i) s.

Definition len (s : str) : Z := Z.of_nat (length s).

(** [s.rstrip(c)] for one character. *)
Fixpoint lstrip_char (c : char) (s : str) : str :=
  match s with
  | d :: s' => if N.eqb d c then lstrip_char c s' else s
  | [] => []
  end.

Definition rstrip_char (c : char) (s : str) : str :=
  rev (lstrip_char c (rev s)).

(** [str.isspace] of one character: the code points Python counts as
    white space. *)
Definition isspace (c : char) : bool :=
  ((9 <=? c) && (c <=? 13) || (28 <=? c) && (c <=? 32)
   || (c =? 133) || (c =? 160) || (c =? 5760)
   || (8192 <=? c) && (c <=? 8202)
   || (c =? 8232) || (c =? 8233) || (c =? 8239) || (c =? 8287)
   || (c =? 12288))%N.

Fixpoint lstrip (s : str) : str :=
  match s with
  | d :: s' => if isspace d then lstrip s' else s
  | [] => []
  end.

(** [s.strip()] *)
Definition strip (s : str) : str := rev (lstrip (rev (lstrip s))).

(** [s.replace(old, new)] where [old] and [new] are one character each. *)
Definition replace (old new : char) (s : str) : str :=
  map (fun c => if N.eqb c old then new else c) s.

(** Characters by name. *)
Definition SLASH : char := 47%N.
Definition DOT : char := 46%N.
Definition TILDE : char := 126%N.
Definition SPACE : char := 32%N.
Definition UNDERSCORE : char := 95%N.
Definition HYPHEN : char := 45%N.

(** ** posixpath *)

(** [os.sep] *)
Definition os_sep : char := SLASH.

Definition curdir : str := [DOT].
Definition pardir : str := [DOT; DOT].

(** [os.path.isabs] *)
Definition isabs (p : str) : bool := startswith p [SLASH].

(** One round of [os.path.join(path, b)]. *)
Definition join2 (path b : str) : str :=
  if startswith b [SLASH] then b
  else if str_eqb path [] || endswith path [SLASH] then path ++ b
  else path ++ [SLASH] ++ b.

(** [os.path.join(a, *p)] *)
Definition os_path_join (a : str) (p : list str) : str :=
  fold_left join2 p a.

(** [os.path.split]: the part up to the last slash (without trailing
    slashes unless it is all slashes) and the part after it. *)
Definition os_path_split (p : str) : str * str :=
  let i := rfind SLASH p + 1 in
  let head := slice_to p i in
  let tail := slice_from p i in
  let head :=
    if negb (str_eqb head []) && negb (str_eqb head (repeat SLASH (length head)))
    then rstrip_char SLASH head else head in
  (head, tail).

(** [os.path.dirname] *)
Definition dirname (p : str) : str := fst (os_path_split p).

(** [os.path.splitext] ([genericpath._splitext] with [sep = "/"] and
    [extsep = "."]): the loop looks for a character of the file name,
    before the last dot, that is not a dot. *)
Fixpoint splitext_scan (p : str) (n : nat) (filenameIndex dotIndex : Z)
  : bool :=
  match n with
  | O => false
  | S n' =>
      if filenameIndex <? dotIndex then
        if negb (str_eqb (take 1 (slice_from p filenameIndex)) [DOT])
        then true
        else splitext_scan p n' (filenameIndex + 1) dotIndex
      else false
  end.

Definition splitext (p : str) : str * str :=
  let sepIndex := rfind SLASH p in
  let dotIndex := rfind DOT p in
  if (sepIndex <? dotIndex)
     && splitext_scan p (length p) (sepIndex + 1) dotIndex
  then (slice_to p dotIndex, slice_from p dotIndex)
  else (p, []).

(** The body of the loop of [os.path.normpath].  [new_comps] is kept with
    its last element first, so [append] is a cons and [pop] a tail. *)
Definition normpath_step (initial_slashes : nat) (new_comps : list str)
    (comp : str) : list str :=
  if str_eqb comp [] || str_eqb comp curdir then new_comps
  else if negb (str_eqb comp pardir)
          || (Nat.eqb initial_slashes 0 && bool_decide (new_comps = []))
          || match new_comps with
             | last :: _ => str_eqb last pardir
             | [] => false
             end
       then comp :: new_comps
       else match new_comps with
            | _ :: rest => rest
            | [] => new_comps
            end.

(** [os.path.normpath] *)
Definition normpath (path : str) : str :=
  if str_eqb path [] then curdir
  else
    let initial_slashes :=
      if startswith path [SLASH] then
        if startswith path [SLASH; SLASH]
           && negb (startswith path [SLASH; SLASH; SLASH])
        then 2%nat else 1%nat
      else 0%nat in
    let comps := str_split SLASH path in
    let new_comps := fold_left (normpath_step initial_slashes) comps [] in
    let path := str_join [SLASH] (rev new_comps) in
    let path := repeat SLASH initial_slashes ++ path in
    if str_eqb path [] then curdir else path.

(** ** Exceptions *)

(** A raised exception: the name of its class and its message; for an
    [OSError] that a call of the operating system raises, the file name it
    carries in place of a message. *)
Record exn := Exn { exn_name : string; exn_msg : str }.

(** The result of a call: a value, or an exception that escapes it. *)
Inductive outcome (A : Type) : Type :=
| Ok (a : A)
| Raise (e : exn).

Arguments Ok {A} a.
Arguments Raise {A} e.

Definition outcome_bind {A B : Type} (m : outcome A) (k : A -> outcome B)
  : outcome B :=
  match m with
  | Ok a => k a
  | Raise e => Raise e
  end.

Notation "'let!' x := m 'in' k" := (outcome_bind m (fun x => k))
  (at level 10, x name, m at level 100, k at level 200).

(** ** The process environment *)

(** What the functions below read from outside the program: the working
    directory, the home directories [os.path.expanduser] looks up, the
    Unicode tables behind the regular expression class [\w] and behind
    [str.isprintable], which [repr] goes by, for code points above ASCII,
    the translation function [_] the host editor installs, and the
    interpreter's recursion limit.  The file system has no symbolic links. *)
Record OsEnv := {
  getcwd : str;
  env_HOME : option str;
  getpwnam : str -> option str;
  unicode_isalnum : char -> bool;
  unicode_isprintable : char -> bool;
  gettext : str -> str;
  recursion_limit : nat
}.

(** A number in [width] hexadecimal digits, as [%0<width>x] writes it. *)
Definition hex_digit (d : N) : char :=
  (if d <? 10 then 48 + d else 87 + d)%N.

Fixpoint hex (width : nat) (n : N) : str :=
  match width with
  | O => []
  | S width' => hex width' (n / 16)%N ++ [hex_digit (n mod 16)%N]
  end.

Definition BACKSLASH : char := 92%N.
Definition APOSTROPHE : char := 39%N.

(** What [repr] writes for one character of a string that it puts between
    [quote]s. *)
Definition repr_char (env : OsEnv) (quote c : char) : str :=
  (if (c =? quote) || (c =? BACKSLASH) then [BACKSLASH; c]
   else if c =? 9 then [BACKSLASH; 116]
   else if c =? 10 then [BACKSLASH; 110]
   else if c =? 13 then [BACKSLASH; 114]
   else if (c <? 32) || (c =? 127) then [BACKSLASH; 120] ++ hex 2 c
   else if c <? 127 then [c]
   else if unicode_isprintable env c then [c]
   else if c <=? 255 then [BACKSLASH; 120] ++ hex 2 c
   else if c <=? 65535 then [BACKSLASH; 117] ++ hex 4 c
   else [BACKSLASH; 85] ++ hex 8 c)%N.

(** [repr(s)] of a string: between apostrophes, or between double quotes
    when it holds an apostrophe and no double quote. *)
Definition repr (env : OsEnv) (s : str) : str :=
  let quote :=
    if bool_decide (APOSTROPHE ∈ s) && negb (bool_decide (34%N ∈ s))
    then 34%N else APOSTROPHE in
  [quote] ++ flat_map (repr_char env quote) s ++ [quote].

(** The strings the calls of the file system take: no U+0000 and no
    surrogate code point in them.  On a string with one of these
    [os.path.expanduser], when it looks up a user, and [os.path.realpath]
    raise [ValueError] or [UnicodeEncodeError]; the two are modelled on the
    other strings. *)
Definition fs_encodable (s : str) : Prop :=
  Forall (fun c => c <> 0%N /\ ~ (55296 <= c <= 57343)%N) s.

(** [os.path.expanduser] *)
Definition expanduser (env : OsEnv) (path : str) : str :=
  if negb (startswith path [TILDE]) then path
  else
    let i := find SLASH path 1 in
    let i := if i <? 0 then len path else i in
    let userhome :=
      if i =? 1 then env_HOME env
      else getpwnam env (slice_to (slice_from path 1) (i - 1)) in
    match userhome with
    | None => path
    | Some userhome =>
        let userhome := rstrip_char SLASH userhome in
        let r := userhome ++ slice_from path i in
        if str_eqb r [] then [SLASH] else r
    end.

(** The loop of [posixpath._joinrealpath] on a file system without
    symbolic links: no component is ever replaced by a link's target. *)
Definition joinrealpath_step (path name : str) : str :=
  if str_eqb name [] || str_eqb name curdir then path
  else if str_eqb name pardir then
    if negb (str_eqb path []) then
      let '(path', name') := os_path_split path in
      if str_eqb name' pardir then os_path_join path' [pardir; pardir]
      else path'
    else pardir
  else os_path_join path [name].

Definition joinrealpath (path rest : str) : str :=
  let '(path, rest) :=
    if isabs rest then ([SLASH], slice_from rest 1) else (path, rest) in
  fold_left joinrealpath_step (str_split SLASH rest) path.

(** [os.path.abspath] *)
Definition abspath (env : OsEnv) (path : str) : str :=
  let path := if negb (isabs path) then os_path_join (getcwd env) [path]
              else path in
  normpath path.

(** [os.path.realpath] *)
Definition realpath (env : OsEnv) (filename : str) : str :=
  abspath env (joinrealpath [] filename).

(** ** Module-level helpers of the mode *)

(** [path_clean(path_to_clean, lowercase=False, real=True)]; on POSIX
    [os.path.normcase] returns its argument. *)
Definition path_clean_with (env : OsEnv) (path_to_clean : str)
    (lowercase real : bool) : str :=
  if str_eqb path_to_clean [] then []
  else
    let clean_path := normpath path_to_clean in
    let clean_path := if lowercase then clean_path else clean_path in
    let clean_path := expanduser env clean_path in
    let clean_path := if real then realpath env clean_path else clean_path in
    clean_path.

Definition path_clean (env : OsEnv) (path_to_clean : str) : str :=
  path_clean_with env path_to_clean false true.

(** ** CodeInPython_Settings: the path resolver *)

(** The class constants. *)
Definition ZIP_FILENAME : str := py "codeinpython_update.zip".
Definition CONFIG_FILENAME : str := py "codeinpython_config.xml".
Definition SUBPATH_MAIN : str := normpath (py "codeinpython_env").
Definition SUBPATH_WORKSPACE : str := normpath (py "workspace").
Definition SUBPATH_ARCHIVE : str := normpath (py "archive").
Definition SUBPATH_EXAMPLES : str := normpath (py "examples").
Definition SUBPATH_CUSTOM_EXAMPLES : str := normpath (py "custom_examples").
Definition SUBPATH_PRIVATE_EXAMPLES : str := normpath (py "private").
Definition SUBPATH_TRASH : str := normpath (py "trash").
Definition SUBPATH_TEMP : str := normpath (py "temp").
Definition SUBPATH_LIBRARIES : str := normpath (py "code_lib").
Definition SUBPATH_MU_MODULE : str := normpath (py "mu_modules").
Definition SUBPATH_FIRMWARE : str := normpath (py "firmware").

(** The fields of the settings object the resolver and the installer read.
    [SUBPATH_MU_CODE] is [get_default_workspace()], a function of the host
    editor. *)
Record Settings := {
  SUBPATH_MU_CODE : str;
  subpath_class : str;
  user_name : str;
  language : str
}.

(** The class [[-\w.]] of the regular expression in [__path_create], with
    the flag [(?u)]: a hyphen, a dot, or a word character (an underscore or
    an alphanumeric code point). *)
Definition ascii_isalnum (c : char) : bool :=
  ((48 <=? c) && (c <=? 57) || (65 <=? c) && (c <=? 90)
   || (97 <=? c) && (c <=? 122))%N.

Definition is_word_char (env : OsEnv) (c : char) : bool :=
  if (c <? 128)%N then ascii_isalnum c || N.eqb c UNDERSCORE
  else unicode_isalnum env c.

Definition keeps (env : OsEnv) (c : char) : bool :=
  N.eqb c HYPHEN || is_word_char env c || N.eqb c DOT.

(** [re.sub(r"(?u)[^-\w.]", "", s)] *)
Definition re_sub_not_name (env : OsEnv) (s : str) : str :=
  filter (fun c => keeps env c = true) s.

(** The literal that stands for the derived file name in a template. *)
Definition APPEND_PY_FILE : str := py "append py file".

Section Resolver.

Variable env : OsEnv.
Variable self : Settings.

(** The first loop of [__path_create]: every parameter that is not [None]
    is normalised and cut at the separator. *)
Definition params_separate (parameters : list (option str)) : list str :=
  flat_map
    (fun element =>
       match element with
       | None => []
       | Some element => str_split os_sep (normpath element)
       end)
    parameters.

(** The body of the second loop. *)
Definition clean_name (element : str) : str :=
  let s := replace SPACE UNDERSCORE (strip element) in
  re_sub_not_name env s.

(** The dictionary [path_struct], in the order it is written. *)
Definition path_struct (params : list str) : list (str * list str) :=
  let MU := SUBPATH_MU_CODE self in
  [ (py "main", [MU; SUBPATH_MAIN] ++ params);
    (py "workspace", [MU; SUBPATH_MAIN; SUBPATH_WORKSPACE] ++ params);
    (py "class",
      [MU; SUBPATH_MAIN; SUBPATH_WORKSPACE; subpath_class self] ++ params);
    (py "student",
      [MU; SUBPATH_MAIN; SUBPATH_WORKSPACE; subpath_class self;
       user_name self] ++ params);
    (py "student file",
      [MU; SUBPATH_MAIN; SUBPATH_WORKSPACE; subpath_class self;
       user_name self] ++ params ++ [APPEND_PY_FILE]);
    (py "student private",
      [MU; SUBPATH_MAIN; SUBPATH_WORKSPACE; subpath_class self;
       user_name self; SUBPATH_PRIVATE_EXAMPLES] ++ params);
    (py "student private file",
      [MU; SUBPATH_MAIN; SUBPATH_WORKSPACE; subpath_class self;
       user_name self; SUBPATH_PRIVATE_EXAMPLES] ++ params
      ++ [APPEND_PY_FILE]);
    (py "examples", [MU; SUBPATH_MAIN; SUBPATH_EXAMPLES] ++ params);
    (py "custom examples",
      [MU; SUBPATH_MAIN; SUBPATH_CUSTOM_EXAMPLES] ++ params);
    (py "zip install", [MU; SUBPATH_MAIN] ++ params);
    (py "zip install default file", [MU; SUBPATH_MAIN; ZIP_FILENAME]);
    (py "zip_archive", [MU; SUBPATH_MAIN; SUBPATH_ARCHIVE] ++ params);
    (py "zip archive file",
      [MU; SUBPATH_MAIN; SUBPATH_ARCHIVE; ZIP_FILENAME]);
    (py "temp", [MU; SUBPATH_MAIN; SUBPATH_TEMP] ++ params);
    (py "libraries", [MU; SUBPATH_MAIN; SUBPATH_LIBRARIES] ++ params);
    (py "firmware", [MU; SUBPATH_MAIN; SUBPATH_FIRMWARE] ++ params);
    (py "mu_modules", [MU; SUBPATH_MAIN; SUBPATH_MU_MODULE] ++ params) ].

(** [dict.get] *)
Fixpoint dict_get {V : Type} (d : list (str * V)) (key : str) : option V :=
  match d with
  | [] => None
  | (k, v) :: d' => if str_eqb k key then Some v else dict_get d' key
  end.

(** The body of the loop that assembles the path. *)
Definition assemble_step (path element : str) : str :=
  if str_eqb element APPEND_PY_FILE
  then os_path_join path [snd (os_path_split path) ++ py ".py"]
  else os_path_join path [element].

(** [__path_create(place, *parameters)] *)
Definition path_create (place : str) (parameters : list (option str))
  : outcome str :=
  let params := map clean_name (params_separate parameters) in
  match dict_get (path_struct params) place with
  | Some path_subelements =>
      Ok (path_clean env (fold_left assemble_step path_subelements []))
  | None =>
      Raise (Exn "ValueError"
               (py "Can't find method to assembly path for command: "
                ++ place))
  end.

(** [valid_path(path_input, allow_main)]; the error it logs when the
    answer is [False] is not part of the model. *)
Definition valid_path (path_input : str) (allow_main : bool) : outcome bool :=
  let! path_limit := path_create (py "main") [] in
  let path_to_check := path_clean env path_input in
  Ok (if allow_main then startswith path_to_check path_limit
      else startswith (fst (os_path_split path_to_check)) path_limit).

(** [path_get(place, *parameters)] *)
Definition path_get (place : str) (parameters : list (option str))
  : outcome str :=
  let! path_created := path_create place parameters in
  let! valid := valid_path path_created true in
  Ok (if valid then path_created else []).

End Resolver.

(** ** XML elements *)

(** An [xml.etree.ElementTree.Element]: tag, attributes, text (absent for
    an element without character data) and children in document order. *)
Inductive Element : Type :=
| Elem (tag : str) (attrib : list (str * str)) (text : option str)
       (children : list Element).

Definition tag (e : Element) : str := let 'Elem t _ _ _ := e in t.
Definition attrib (e : Element) : list (str * str) :=
  let 'Elem _ a _ _ := e in a.
Definition text (e : Element) : option str := let 'Elem _ _ x _ := e in x.
Definition children (e : Element) : list Element :=
  let 'Elem _ _ _ c := e in c.

(** [element.get(key)] *)
Definition get (e : Element) (key : str) : option str :=
  dict_get (attrib e) key.

Definition opt_eqb (a b : option str) : bool := bool_decide (a = b).

(** What [str.format] writes for a value that is a string or [None]. *)
Definition format_value (v : option str) : str :=
  match v with
  | Some s => s
  | None => py "None"
  end.

(** The first loop of [xml_get_with_lang]; [break] returns, [continue]
    goes on with the rest. *)
Fixpoint best_fit_loop (child : list Element) (name : str)
    (lang : option str) (default : str) (lang_best_fit : option str)
  : option str :=
  match child with
  | [] => lang_best_fit
  | element :: rest =>
      if str_eqb (tag element) name then
        let which_lang := get element (py "lang") in
        if opt_eqb which_lang lang then lang
        else if opt_eqb which_lang (Some default)
        then best_fit_loop rest name lang default (Some default)
        else match lang_best_fit with
             | None => best_fit_loop rest name lang default which_lang
             | Some _ => best_fit_loop rest name lang default lang_best_fit
             end
      else best_fit_loop rest name lang default lang_best_fit
  end.

(** The second loop. *)
Fixpoint collect_loop (child : list Element) (name : str)
    (lang_best_fit : option str) (separator : str) (result : option str)
  : option str :=
  match child with
  | [] => result
  | element :: rest =>
      if str_eqb (tag element) name
         && opt_eqb (get element (py "lang")) lang_best_fit
      then
        match result with
        | None =>
            collect_loop rest name lang_best_fit separator (text element)
        | Some r =>
            collect_loop rest name lang_best_fit separator
              (Some (r ++ separator ++ format_value (text element)))
        end
      else collect_loop rest name lang_best_fit separator result
  end.

(** [xml_get_with_lang(child, name, lang=None, default="en", separator="")]:
    [child] is iterated, so only its children are looked at. *)
Definition xml_get_with_lang (child : Element) (name : str)
    (lang : option str) (default : str) (separator : str) : option str :=
  let lang_best_fit :=
    best_fit_loop (children child) name lang default None in
  collect_loop (children child) name lang_best_fit separator None.

(** ** The world: a file system and the dialogs shown *)

(** What the program can observe of a regular file's content: whether it
    is a zip container, and then its members by name in archive order, or
    else what [ET.parse] makes of it ([None]: a [ParseError]). *)
Inductive content : Type :=
| Data (xml : option Element)
| Zip (members : list (str * content)).

Inductive node : Type :=
| Dir
| File (c : content).

(** The file system maps canonical absolute paths to nodes; [shown] holds
    the title and text of every [QMessageBox.warning], oldest first. *)
Record World := {
  fs : gmap (list N) node;
  shown : list (list N * list N)
}.

Definition with_fs (w : World) (m : gmap (list N) node) : World :=
  {| fs := m; shown := shown w |}.

(** Computations that read and change the world and may raise. *)
Definition M (A : Type) : Type := World -> outcome A * World.

Definition ret {A : Type} (a : A) : M A := fun w => (Ok a, w).

Definition raise {A : Type} (e : exn) : M A := fun w => (Raise e, w).

Definition bind {A B : Type} (m : M A) (k : A -> M B) : M B :=
  fun w =>
    match m w with
    | (Ok a, w') => k a w'
    | (Raise e, w') => (Raise e, w')
    end.

Notation "x <- m ;; k" := (bind m (fun x => k))
  (at level 100, m at next level, right associativity).
Notation "m ;; k" := (bind m (fun _ => k))
  (at level 100, right associativity).

(** A call of a function that only computes. *)
Definition lift {A : Type} (o : outcome A) : M A := fun w => (o, w).

(** [try: body except Exception as err: handler(err)] *)
Definition try_except {A : Type} (body : M A) (handler : exn -> M A) : M A :=
  fun w =>
    match body w with
    | (Ok a, w') => (Ok a, w')
    | (Raise e, w') => handler e w'
    end.

(** [try: body finally: final]: [final] runs whatever [body] did, and an
    exception of [final] replaces the result of [body]. *)
Definition try_finally {A : Type} (body : M A) (final : M unit) : M A :=
  fun w =>
    match body w with
    | (r, w') =>
        match final w' with
        | (Ok _, w'') => (r, w'')
        | (Raise e, w'') => (Raise e, w'')
        end
    end.

(** [for x in l: body(x)] *)
Fixpoint for_each {A : Type} (l : list A) (body : A -> M unit) : M unit :=
  match l with
  | [] => ret tt
  | x :: rest => body x ;; for_each rest body
  end.

(** A loop whose body updates one local variable. *)
Fixpoint for_acc {A S : Type} (l : list A) (body : A -> S -> M S) (s : S)
  : M S :=
  match l with
  | [] => ret s
  | x :: rest => s' <- body x s ;; for_acc rest body s'
  end.

(** [QMessageBox.warning(None, title, text, QMessageBox.Ok)] *)
Definition QMessageBox_warning (title text : str) : M unit :=
  fun w => (Ok tt, {| fs := fs w; shown := shown w ++ [(title, text)] |}).

(** ** os, shutil and zipfile on the model file system *)

Definition FileNotFoundError (p : str) : exn := Exn "FileNotFoundError" p.
Definition FileExistsError (p : str) : exn := Exn "FileExistsError" p.
Definition IsADirectoryError (p : str) : exn := Exn "IsADirectoryError" p.
Definition NotADirectoryError (p : str) : exn := Exn "NotADirectoryError" p.
Definition SameFileError (p : str) : exn := Exn "SameFileError" p.
Definition RecursionError : exn :=
  Exn "RecursionError" (py "maximum recursion depth exceeded").

Definition is_exn (name : string) (e : exn) : bool :=
  bool_decide (exn_name e = name).

Section FileSystem.

Variable env : OsEnv.

(** The key of the node a path names: relative paths start at the working
    directory, the empty path names nothing. *)
Definition fs_key (p : str) : option str :=
  if str_eqb p [] then None else Some (abspath env p).

(** The node at a path, if any. *)
Definition stat (w : World) (p : str) : option node :=
  match fs_key p with
  | Some k => fs w !! k
  | None => None
  end.

(** [os.path.exists], [os.path.isfile], [os.path.isdir] *)
Definition os_path_exists (p : str) : M bool :=
  fun w => (Ok (bool_decide (is_Some (stat w p))), w).

Definition os_path_isfile (p : str) : M bool :=
  fun w => (Ok match stat w p with Some (File _) => true | _ => false end, w).

Definition os_path_isdir (p : str) : M bool :=
  fun w => (Ok match stat w p with Some Dir => true | _ => false end, w).

(** [os.path.samefile]: both paths are looked up, and name the same file
    when they have the same key. *)
Definition os_path_samefile (a b : str) : M bool :=
  fun w =>
    match stat w a, stat w b with
    | None, _ => (Raise (FileNotFoundError a), w)
    | _, None => (Raise (FileNotFoundError b), w)
    | Some _, Some _ => (Ok (bool_decide (fs_key a = fs_key b)), w)
    end.

(** [os.remove] *)
Definition os_remove (p : str) : M unit :=
  fun w =>
    match fs_key p with
    | None => (Raise (FileNotFoundError p), w)
    | Some k =>
        match fs w !! k with
        | Some (File _) => (Ok tt, with_fs w (delete k (fs w)))
        | Some Dir => (Raise (IsADirectoryError p), w)
        | None => (Raise (FileNotFoundError p), w)
        end
    end.

(** [k] is the directory [d] or lies below it. *)
Definition under (d k : str) : bool :=
  str_eqb k d || startswith k (join2 d []).

(** [shutil.rmtree(p, ignore_errors=True)]: a directory goes with all that
    is below it; anything else is an error, which is ignored. *)
Definition shutil_rmtree_ignore_errors (p : str) : M unit :=
  fun w =>
    match fs_key p with
    | None => (Ok tt, w)
    | Some k =>
        match fs w !! k with
        | Some Dir =>
            (Ok tt,
             with_fs w (filter (fun kv => under k (fst kv) = false) (fs w)))
        | _ => (Ok tt, w)
        end
    end.

(** The check every call that creates an entry makes of its parent. *)
Definition parent_error (w : World) (k p : str) : option exn :=
  match fs w !! dirname k with
  | Some Dir => None
  | Some (File _) => Some (NotADirectoryError p)
  | None => Some (FileNotFoundError p)
  end.

(** [os.mkdir] *)
Definition os_mkdir (p : str) : M unit :=
  fun w =>
    match fs_key p with
    | None => (Raise (FileNotFoundError p), w)
    | Some k =>
        match fs w !! k with
        | Some _ => (Raise (FileExistsError p), w)
        | None =>
            match parent_error w k p with
            | Some e => (Raise e, w)
            | None => (Ok tt, with_fs w (<[k := Dir]> (fs w)))
            end
        end
    end.

(** [os.makedirs(name)] with [exist_ok=False]; the recursion is that of
    the library function, cut at the interpreter's limit. *)
Fixpoint makedirs_rec (fuel : nat) (name : str) : M unit :=
  match fuel with
  | O => raise RecursionError
  | S fuel' =>
      let '(head, tail) := os_path_split name in
      let '(head, tail) :=
        if str_eqb tail [] then os_path_split head else (head, tail) in
      if negb (str_eqb head []) && negb (str_eqb tail []) then
        ex <- os_path_exists head ;;
        if negb ex then
          try_except (makedirs_rec fuel' head)
            (fun e => if is_exn "FileExistsError" e then ret tt else raise e) ;;
          if str_eqb tail curdir then ret tt else os_mkdir name
        else os_mkdir name
      else os_mkdir name
  end.

Definition os_makedirs (name : str) : M unit :=
  makedirs_rec (recursion_limit env) name.

(** [open(p, "wb")] followed by writing [c] and closing. *)
Definition write_file (p : str) (c : content) : M unit :=
  fun w =>
    match fs_key p with
    | None => (Raise (FileNotFoundError p), w)
    | Some k =>
        match fs w !! k with
        | Some Dir => (Raise (IsADirectoryError p), w)
        | Some (File _) => (Ok tt, with_fs w (<[k := File c]> (fs w)))
        | None =>
            match parent_error w k p with
            | Some e => (Raise e, w)
            | None => (Ok tt, with_fs w (<[k := File c]> (fs w)))
            end
        end
    end.

(** [open(p, "rb")] followed by reading all of it. *)
Definition read_file (p : str) : M content :=
  fun w =>
    match stat w p with
    | Some (File c) => (Ok c, w)
    | Some Dir => (Raise (IsADirectoryError p), w)
    | None => (Raise (FileNotFoundError p), w)
    end.

(** [shutil.copy2(src, dst)]: into [dst] when it is a directory; refuses
    to copy a file onto itself. *)
Definition shutil_copy2 (src dst : str) : M unit :=
  d <- os_path_isdir dst ;;
  let dst := if d then os_path_join dst [snd (os_path_split src)] else dst in
  fun w =>
    if bool_decide (is_Some (stat w src)) && bool_decide (is_Some (stat w dst))
       && bool_decide (fs_key src = fs_key dst)
    then (Raise (SameFileError (repr env src ++ py " and " ++ repr env dst
                                ++ py " are the same file")), w)
    else (c <- read_file src ;; write_file dst c) w.

(** [os.listdir(p)] of a directory: the names of the entries whose parent
    it is. *)
Definition os_listdir (p : str) : M (list str) :=
  fun w =>
    match fs_key p with
    | None => (Raise (FileNotFoundError p), w)
    | Some k =>
        match fs w !! k with
        | Some Dir =>
            (Ok (map (fun kv => snd (os_path_split (fst kv)))
                   (filter (fun kv => fst kv <> k /\ dirname (fst kv) = k)
                      (map_to_list (fs w)))), w)
        | Some (File _) => (Raise (NotADirectoryError p), w)
        | None => (Raise (FileNotFoundError p), w)
        end
    end.

(** [zipfile.is_zipfile] *)
Definition zipfile_is_zipfile (p : str) : M bool :=
  fun w =>
    (Ok match stat w p with Some (File (Zip _)) => true | _ => false end, w).

(** [zipfile.ZipFile(p, "r")]: the members of the archive. *)
Definition zipfile_ZipFile (p : str) : M (list (str * content)) :=
  fun w =>
    match stat w p with
    | Some (File (Zip members)) => (Ok members, w)
    | Some (File (Data _)) =>
        (Raise (Exn "BadZipFile" (py "File is not a zip file")), w)
    | Some Dir => (Raise (IsADirectoryError p), w)
    | None => (Raise (FileNotFoundError p), w)
    end.

(** [zip_ref.namelist()] *)
Definition namelist (zip_ref : list (str * content)) : list str :=
  map fst zip_ref.

(** [zip_ref.getinfo(name)]: the last member of that name. *)
Definition getinfo (zip_ref : list (str * content)) (name : str)
  : outcome content :=
  match dict_get (rev zip_ref) name with
  | Some c => Ok c
  | None => Raise (Exn "KeyError" name)
  end.

(** [ZipFile._extract_member(name, targetpath, pwd)] *)
Definition extract_member (zip_ref : list (str * content)) (name : str)
    (targetpath : str) : M unit :=
  member <- lift (getinfo zip_ref name) ;;
  let arcname :=
    str_join [os_sep]
      (filter (fun x => x <> [] /\ x <> curdir /\ x <> pardir)
         (str_split os_sep name)) in
  let targetpath := normpath (os_path_join targetpath [arcname]) in
  let upperdirs := dirname targetpath in
  ex <- os_path_exists upperdirs ;;
  (if negb (str_eqb upperdirs []) && negb ex
   then os_makedirs upperdirs else ret tt) ;;
  if endswith name [SLASH] then
    d <- os_path_isdir targetpath ;;
    if negb d then os_mkdir targetpath else ret tt
  else write_file targetpath member.

(** [zip_ref.extractall(path)] *)
Definition extractall (zip_ref : list (str * content)) (path : str)
  : M unit :=
  for_each (namelist zip_ref) (fun name => extract_member zip_ref name path).

(** [ET.parse(config).getroot()] for a stream opened on content [c]. *)
Definition ET_parse (c : content) : M Element :=
  match c with
  | Data (Some root) => ret root
  | _ => raise (Exn "ParseError" (py "not well-formed"))
  end.

(** [recursive_overwrite(src, dest)] with [ignore=None]; the recursion is
    cut at the interpreter's limit.  [src.replace(dest)] in the handler is
    a call of [str.replace] with one argument, a [TypeError]. *)
Fixpoint recursive_overwrite_rec (fuel : nat) (src dest : str) : M unit :=
  match fuel with
  | O => raise RecursionError
  | S fuel' =>
      d <- os_path_isdir src ;;
      if d then
        dd <- os_path_isdir dest ;;
        (if negb dd then os_makedirs dest else ret tt) ;;
        files <- os_listdir src ;;
        for_each files
          (fun f =>
             recursive_overwrite_rec fuel'
               (os_path_join src [f]) (os_path_join dest [f]))
      else
        try_except
          (dd <- os_path_isdir (dirname dest) ;;
           (if negb dd then os_makedirs (dirname dest) else ret tt) ;;
           shutil_copy2 src dest)
          (fun e =>
             if is_exn "SameFileError" e
             then raise (Exn "TypeError"
                           (py "replace expected at least 2 arguments, got 1"))
             else raise e)
  end.

Definition recursive_overwrite (src dest : str) : M unit :=
  recursive_overwrite_rec (recursion_limit env) src dest.

End FileSystem.

(** ** CodeInPython_Settings: the archive installer *)

(** The dictionary [xml_get_version] returns. *)
Record version := {
  release : option str;
  date : option str;
  description : option str
}.

Definition NEWLINE : char := 10%N.
Definition QUOTE : char := 34%N.

(** [str(err)]: for an [OSError] that a call of the operating system
    raises, the number and the text of the error (those of Linux) and the
    [repr] of the file name; for a [KeyError] the [repr] of its message; for
    the other exceptions of the model the message. *)
Definition str_of_exn (env : OsEnv) (err : exn) : str :=
  if is_exn "FileNotFoundError" err
  then py "[Errno 2] No such file or directory: " ++ repr env (exn_msg err)
  else if is_exn "FileExistsError" err
  then py "[Errno 17] File exists: " ++ repr env (exn_msg err)
  else if is_exn "NotADirectoryError" err
  then py "[Errno 20] Not a directory: " ++ repr env (exn_msg err)
  else if is_exn "IsADirectoryError" err
  then py "[Errno 21] Is a directory: " ++ repr env (exn_msg err)
  else if is_exn "KeyError" err
  then repr env (py "There is no item named " ++ repr env (exn_msg err)
                 ++ py " in the archive")
  else exn_msg err.

Section Installer.

Variable env : OsEnv.
Variable self : Settings.

(** The loop of [xml_get_version] over the children of the root. *)
Definition version_step (result : version) (child : Element) : version :=
  let result :=
    if str_eqb (tag child) (py "release")
    then {| release := text child; date := date result;
            description := description result |}
    else result in
  if str_eqb (tag child) (py "release_date")
  then {| release := release result; date := text child;
          description := description result |}
  else result.

(** [xml_get_version(source)]: [source] is the empty string ([None] here)
    or a stream opened on a member of an archive. *)
Definition xml_get_version (source : option content) : M (bool * version) :=
  let result :=
    {| release := Some (py "----"); date := Some (py "----");
       description := Some (py "----") |} in
  match source with
  | None => ret (false, result)
  | Some config =>
      root <- ET_parse config ;;
      let result := fold_left version_step (children root) result in
      ret (true,
           {| release := release result; date := date result;
              description :=
                xml_get_with_lang root (py "description")
                  (Some (language self)) (py "en") [NEWLINE] |})
  end.

(** [zip_get_version(source)] *)
Definition zip_get_version (source : str) : M (bool * version) :=
  f <- os_path_isfile env source ;;
  if f then
    if str_eqb (snd (splitext source)) (py ".zip") then
      zip_ref <- zipfile_ZipFile env source ;;
      if bool_decide (CONFIG_FILENAME ∈ namelist zip_ref) then
        config <- lift (getinfo zip_ref CONFIG_FILENAME) ;;
        xml_get_version (Some config)
      else xml_get_version None
    else xml_get_version None
  else xml_get_version None.

(** [zip_check_content(input_path)].  The assignment [valid, _ = ...]
    makes [_] a local variable of the whole function, so the call
    [_("This does not seems ...")] in the last branch, where nothing has
    been assigned to it, raises [UnboundLocalError]. *)
Definition zip_check_content (input_path : str) : M bool :=
  src <- (if negb (str_eqb input_path []) then ret (path_clean env input_path)
          else lift (path_get env self (py "zip install default file") [])) ;;
  f <- os_path_isfile env src ;;
  if negb f then ret false
  else
    z <- zipfile_is_zipfile env src ;;
    if z then
      r <- zip_get_version src ;;
      if fst r then ret true else ret false
    else
      raise (Exn "UnboundLocalError"
               (py "cannot access local variable '_' where it is not associated with a value")).

(** The body of the first loop over an [update] element. *)
Definition remove_element (destination : str) (element : Element)
    (list_of_errors : str) : M str :=
  if str_eqb (tag element) (py "remove") then
    path_to_remove <-
      lift (path_get env self (py "main") [Some destination; text element]) ;;
    valid <- lift (valid_path env self path_to_remove false) ;;
    if valid then
      d <- os_path_isdir env path_to_remove ;;
      (if d then shutil_rmtree_ignore_errors env path_to_remove
       else (f <- os_path_isfile env path_to_remove ;;
             if f then os_remove env path_to_remove else ret tt)) ;;
      ret list_of_errors
    else
      ret (list_of_errors ++ py "- removing: " ++ format_value (text element)
           ++ [NEWLINE])
  else ret list_of_errors.

(** The body of the second loop. *)
Definition copy_element (destination : str) (element : Element)
    (list_of_errors : str) : M str :=
  if str_eqb (tag element) (py "copy") then
    src <- lift (path_get env self (py "temp") [text element]) ;;
    dest <-
      lift (path_get env self (py "main") [Some destination; text element]) ;;
    ex <- os_path_exists env src ;;
    if negb ex then
      ret (list_of_errors ++ py "- copying: " ++ format_value (text element)
           ++ [NEWLINE])
    else
      recursive_overwrite env src dest ;;
      ret list_of_errors
  else ret list_of_errors.

(** What is done for one child of the root of the manifest. *)
Definition update_element (destination : str) (child : Element)
    (list_of_errors : str) : M str :=
  if str_eqb (tag child) (py "update") then
    list_of_errors <-
      for_acc (children child) (remove_element destination) list_of_errors ;;
    for_acc (children child) (copy_element destination) list_of_errors
  else ret list_of_errors.

(** The end of the [try] block: the report, or the copy to the archive. *)
Definition report_or_archive (zip_file_path list_of_errors : str) : M unit :=
  if negb (str_eqb list_of_errors []) then
    QMessageBox_warning (gettext env (py "Error"))
      (gettext env (py "List of installation errors:" ++ [NEWLINE])
       ++ list_of_errors)
  else
    archive_file_path <-
      lift (path_get env self (py "zip archive file") []) ;;
    ex <- os_path_exists env archive_file_path ;;
    same <- (if ex then os_path_samefile env zip_file_path archive_file_path
             else ret false) ;;
    if negb ex || negb same
    then shutil_copy2 env zip_file_path archive_file_path
    else ret tt.

(** The [try] block of [update_data_from_zip]. *)
Definition install (destination zip_file_path temp_path : str)
  : M (option bool) :=
  zip_ref <- zipfile_ZipFile env zip_file_path ;;
  extractall env zip_ref temp_path ;;
  config <- lift (getinfo zip_ref CONFIG_FILENAME) ;;
  root <- ET_parse config ;;
  list_of_errors <- for_acc (children root) (update_element destination) [] ;;
  report_or_archive zip_file_path list_of_errors ;;
  ret (Some true).

(** The [except Exception as err] block. *)
Definition install_failed (err : exn) : M (option bool) :=
  let label_text :=
    gettext env (py "Cannot install from this zip file")
    ++ py ":" ++ [NEWLINE] ++ py (exn_name err) ++ py ": " ++ [QUOTE]
    ++ str_of_exn env err ++ [QUOTE] in
  QMessageBox_warning (gettext env (py "Info")) label_text ;;
  ret (Some false).

(** The [finally] block. *)
Definition cleanup (zip_file_path temp_path : str) : M unit :=
  default <- lift (path_get env self (py "zip install default file") []) ;;
  (if str_eqb zip_file_path default then os_remove env zip_file_path
   else ret tt) ;;
  shutil_rmtree_ignore_errors env temp_path.

(** [update_data_from_zip(source)]: [None] is the bare [return] after the
    failed check of the content, [Some True] and [Some False] the values
    returned from the [try] statement. *)
Definition update_data_from_zip (source : str) : M (option bool) :=
  let destination : str := [] in
  destinantion_path <- lift (path_get env self (py "main") [Some destination]) ;;
  zip_file_path <-
    (if str_eqb source []
     then lift (path_get env self (py "zip install default file") [])
     else ret (path_clean env source)) ;;
  temp_path <- lift (path_get env self (py "temp") []) ;;
  shutil_rmtree_ignore_errors env temp_path ;;
  ok <- zip_check_content zip_file_path ;;
  if negb ok then
    QMessageBox_warning (gettext env (py "Info"))
      (gettext env (py "Invalid data in zip file")) ;;
    ret None
  else
    ex <- os_path_exists env destinantion_path ;;
    (if negb ex then os_makedirs env destinantion_path else ret tt) ;;
    try_finally
      (try_except (install destination zip_file_path temp_path)
         install_failed)
      (cleanup zip_file_path temp_path).

End Installer.

(** ** The mode: sys.path, folders, examples and the update dialog *)

Definition EXAMPLE_DESC_FILENAME : str := py "description.xml".

(** The places [initial_preparation] makes sure of, in its order. *)
Definition required_folders : list str :=
  [ py "main"; py "workspace"; py "libraries"; py "examples";
    py "custom examples"; py "firmware"; py "zip_archive"; py "mu_modules" ].

Section Mode.

Variable env : OsEnv.
Variable self : Settings.

(** The button the user presses in a [QMessageBox.question] with the given
    title and text: [true] for Yes. *)
Variable pressed_yes : str -> str -> bool.

Definition QMessageBox_question (title text : str) : M bool :=
  ret (pressed_yes title text).

(** [path_for_codeinpython_add(path_to_add)] as a function of [sys.path];
    [get_default_workspace()] is the workspace of the settings. *)
Definition path_for_codeinpython_add (path_to_add : str)
    (sys_path : list str) : list str :=
  if str_eqb path_to_add [] then
    if bool_decide (SUBPATH_MU_CODE self ∈ sys_path) then sys_path
    else sys_path ++ [SUBPATH_MU_CODE self]
  else
    let path_cleaned := path_clean env path_to_add in
    if bool_decide (path_cleaned ∈ sys_path) then sys_path
    else sys_path ++ [path_cleaned].

(** The text of the question in [show_comparision_of_zip_files], before
    it is handed to the translation function. *)
Definition comparision_text (present_version new_version : version) : str :=
  py "Present software: " ++ format_value (release present_version)
  ++ py ", date: " ++ format_value (date present_version) ++ [NEWLINE]
  ++ py "New software: " ++ format_value (release new_version)
  ++ py ", date: " ++ format_value (date new_version) ++ [NEWLINE; NEWLINE]
  ++ format_value (description new_version) ++ [NEWLINE; NEWLINE]
  ++ py "Do you wish to install it?".

(** [show_comparision_of_zip_files(source)] *)
Definition show_comparision_of_zip_files (source : str) : M bool :=
  source_path <-
    (if str_eqb source []
     then lift (path_get env self (py "zip install default file") [])
     else ret (path_clean env source)) ;;
  ok <- zip_check_content env self source_path ;;
  if ok then
    new <- zip_get_version env self source_path ;;
    archive_file_path <- lift (path_get env self (py "zip archive file") []) ;;
    present <- zip_get_version env self archive_file_path ;;
    if fst new then
      let label_text := gettext env (comparision_text (snd present) (snd new)) in
      question <- QMessageBox_question (gettext env (py "Question")) label_text ;;
      if question then ret true else ret false
    else ret false
  else
    QMessageBox_warning (gettext env (py "Error"))
      (py "This is not proper archive from CodeInPython") ;;
    ret false.

(** The part of [workspace_dir] that looks for an update in the default
    place: a checked archive is installed when the user agrees and deleted
    when not. *)
Definition workspace_dir_update : M unit :=
  ok <- zip_check_content env self [] ;;
  if ok then
    yes <- show_comparision_of_zip_files [] ;;
    if yes then (update_data_from_zip env self [] ;; ret tt)
    else
      (default <- lift (path_get env self (py "zip install default file") []) ;;
       os_remove env default)
  else ret tt.

(** The loop of [initial_preparation] that creates the folders that are
    missing. *)
Definition initial_preparation_folders : M unit :=
  for_each required_folders
    (fun element =>
       check_path <- lift (path_get env self element []) ;;
       d <- os_path_isdir env check_path ;;
       if negb d then os_makedirs env check_path else ret tt).

(** [example_check_correctness(dir)]: [None] is the end of the function
    reached without a [return], when [dir] is no directory.  [open] is where
    a description that cannot be opened raises, outside the [try]. *)
Definition example_check_correctness (dir : str) : M (option (bool * str)) :=
  d <- os_path_isdir env dir ;;
  if d then
    let desc_file := os_path_join dir [EXAMPLE_DESC_FILENAME] in
    ex <- os_path_exists env desc_file ;;
    found <-
      (if ex then
         desc_xml <- read_file env desc_file ;;
         try_except
           (root <- ET_parse desc_xml ;;
            let start_file :=
              xml_get_with_lang root (py "start_file") (Some (language self))
                (py "en") [] in
            let locked_result :=
              xml_get_with_lang root (py "locked") None (py "en") [] in
            ret (opt_eqb locked_result (Some (py "True")), start_file))
           (fun _ => ret (true, None))
       else ret (false, None)) ;;
    let locked := fst found in
    let start_file :=
      match snd found with
      | None => snd (os_path_split dir) ++ py ".py"
      | Some start_file => start_file
      end in
    let start_file := snd (os_path_split start_file) in
    let full_dir := os_path_join dir [start_file] in
    if locked then ret (Some (false, full_dir))
    else
      (ex <- os_path_exists env full_dir ;;
       if negb ex then ret (Some (false, full_dir))
       else ret (Some (true, full_dir)))
  else ret None.

(** [entry.is_dir()] of an entry that [os.scandir] found at [p]. *)
Definition is_dir (w : World) (p : str) : bool :=
  match stat env w p with
  | Some Dir => true
  | _ => false
  end.

(** [list(os.walk(top))], of which [remove_empty_folders] reads the paths
    only: [top], then the walk of each of its entries that is a directory,
    in the order of the listing.  A directory that cannot be listed yields
    nothing; the recursion is that of the library function, cut at the
    interpreter's limit. *)
Fixpoint os_walk (fuel : nat) (top : str) : M (list str) :=
  match fuel with
  | O => raise RecursionError
  | S fuel' =>
      fun w =>
        match os_listdir env top w with
        | (Ok names, _) =>
            let dirs :=
              filter (fun name => is_dir w (os_path_join top [name]) = true)
                names in
            (below <-
               for_acc dirs
                 (fun dirname walked =>
                    sub <- os_walk fuel' (os_path_join top [dirname]) ;;
                    ret (walked ++ sub)) [] ;;
             ret (top :: below)) w
        | (Raise _, _) => (Ok [], w)
        end
  end.

(** [remove_empty_folders(path_abs, files_to_ignore)] *)
Definition remove_empty_folders (path_abs : str) (files_to_ignore : list str)
  : M unit :=
  walk <- os_walk (recursion_limit env) path_abs ;;
  for_each (rev walk)
    (fun path =>
       names <- os_listdir env path ;;
       if forallb (fun name => bool_decide (name ∈ files_to_ignore)) names
       then shutil_rmtree_ignore_errors env path
       else ret tt).

End Mode.

(** ** The specification's reading of the operations *)

(** Sanitizing as the specification words it: strip, then every white
    space character left becomes an underscore, then the characters outside
    the class are removed. *)
Definition spec_sanitize_all_whitespace (env : OsEnv) (s : str) : str :=
  filter (fun c => keeps env c = true)
    (map (fun c => if isspace c then UNDERSCORE else c) (strip s)).

(** Sanitizing one segment, by characters: of the stripped segment, a
    space gives an underscore, a hyphen, a dot or a word character is kept,
    and anything else is dropped. *)
Fixpoint spec_sanitize_chars (env : OsEnv) (s : str) : str :=
  match s with
  | [] => []
  | c :: s' =>
      if N.eqb c SPACE then UNDERSCORE :: spec_sanitize_chars env s'
      else if keeps env c then c :: spec_sanitize_chars env s'
      else spec_sanitize_chars env s'
  end.

Definition spec_sanitize (env : OsEnv) (s : str) : str :=
  spec_sanitize_chars env (strip s).

(** The segments the parameters contribute: each parameter other than
    [None] is normalised, cut at the slashes and sanitized piece by piece. *)
Definition spec_segments (env : OsEnv) (parameters : list (option str))
  : list str :=
  concat
    (map (fun p => map (spec_sanitize env) (str_split SLASH (normpath p)))
       (omap id parameters)).

(** The templates of the places: for each, its literal segments before the
    parameters, whether it takes the parameters, and its literal segments
    after them. *)
Definition template_table (self : Settings)
  : list (list N * (list (list N) * bool * list (list N))) :=
  let MU := SUBPATH_MU_CODE self in
  let class := subpath_class self in
  let user := user_name self in
  let env_dir := py "codeinpython_env" in
  [ (py "main", ([MU; env_dir], true, []));
    (py "workspace", ([MU; env_dir; py "workspace"], true, []));
    (py "class", ([MU; env_dir; py "workspace"; class], true, []));
    (py "student", ([MU; env_dir; py "workspace"; class; user], true, []));
    (py "student file",
      ([MU; env_dir; py "workspace"; class; user], true,
       [py "append py file"]));
    (py "student private",
      ([MU; env_dir; py "workspace"; class; user; py "private"], true, []));
    (py "student private file",
      ([MU; env_dir; py "workspace"; class; user; py "private"], true,
       [py "append py file"]));
    (py "examples", ([MU; env_dir; py "examples"], true, []));
    (py "custom examples", ([MU; env_dir; py "custom_examples"], true, []));
    (py "zip install", ([MU; env_dir], true, []));
    (py "zip install default file",
      ([MU; env_dir; py "codeinpython_update.zip"], false, []));
    (py "zip_archive", ([MU; env_dir; py "archive"], true, []));
    (py "zip archive file",
      ([MU; env_dir; py "archive"; py "codeinpython_update.zip"], false, []));
    (py "temp", ([MU; env_dir; py "temp"], true, []));
    (py "libraries", ([MU; env_dir; py "code_lib"], true, []));
    (py "firmware", ([MU; env_dir; py "firmware"], true, []));
    (py "mu_modules", ([MU; env_dir; py "mu_modules"], true, [])) ].

(** The segments joined for a place, in template order; [None] for a
    name that is no place. *)
Definition spec_template_segments (env : OsEnv) (self : Settings)
    (place : str) (parameters : list (option str)) : option (list str) :=
  match dict_get (template_table self) place with
  | Some (before, takes, after) =>
      Some (before ++ (if takes : bool then spec_segments env parameters else [])
            ++ after)
  | None => None
  end.

(** The [lang] attributes of the children with the given tag, in document
    order. *)
Definition langs_of (child : Element) (name : str) : list (option str) :=
  map (fun e => get e (py "lang"))
    (filter (fun e => tag e = name) (children child)).

(** The language the lookup settles on: the preferred one if a child has
    it, else the fallback if a child has it, else the first one met. *)
Definition chosen_language (langs : list (option str)) (lang : option str)
    (default : str) : option str :=
  if bool_decide (lang ∈ langs) then lang
  else if bool_decide (Some default ∈ langs) then Some default
  else head (omap id langs).

(** The texts of the children with the given tag and language, in
    document order. *)
Definition texts_of (child : Element) (name : str) (lang : option str)
  : list (option str) :=
  map text
    (filter (fun e => tag e = name /\ get e (py "lang") = lang)
       (children child)).

(** Texts joined the way the second loop does: elements without text
    count for nothing until a first text has been found, and are written
    as [None] after it. *)
Fixpoint joined_texts (separator : str) (texts : list (option str))
  : option str :=
  match texts with
  | [] => None
  | None :: rest => joined_texts separator rest
  | Some t :: rest => Some (str_join separator (t :: map format_value rest))
  end.

(** The entries of an [update] element in the order they are applied. *)
Definition two_pass_order (child : Element) : list Element :=
  filter (fun e => tag e = py "remove") (children child)
  ++ filter (fun e => tag e = py "copy") (children child).

(** What is done for one entry, whichever loop reaches it. *)
Definition apply_entry (env : OsEnv) (self : Settings) (destination : str)
    (element : Element) (list_of_errors : str) : M str :=
  if str_eqb (tag element) (py "remove")
  then remove_element env self destination element list_of_errors
  else copy_element env self destination element list_of_errors.

(** A file of the model that is an archive with a manifest [ET.parse]
    accepts, under a name ending in [.zip]. *)
Definition is_update_archive (env : OsEnv) (w : World) (src : str) : Prop :=
  exists members root,
    stat env w src = Some (File (Zip members))
    /\ snd (splitext src) = py ".zip"
    /\ CONFIG_FILENAME ∈ namelist members
    /\ getinfo members CONFIG_FILENAME = Ok (Data (Some root)).

(** The path [zip_check_content] looks at. *)
Definition checked_path (env : OsEnv) (self : Settings) (input_path : str)
  : outcome str :=
  if negb (str_eqb input_path []) then Ok (path_clean env input_path)
  else path_get env self (py "zip install default file") [].

(** A path names a regular file. *)
Definition isfile (env : OsEnv) (w : World) (p : str) : bool :=
  match stat env w p with
  | Some (File _) => true
  | _ => false
  end.

(** A path names a directory. *)
Definition isdir (env : OsEnv) (w : World) (p : str) : bool :=
  match stat env w p with
  | Some Dir => true
  | _ => false
  end.

(** An element of a template is the pseudo-segment. *)
Definition is_append_py_file (e : list N) : Prop := e = APPEND_PY_FILE.

#[local] Instance is_append_py_file_dec e : Decision (is_append_py_file e).
Proof. unfold is_append_py_file. apply _. Defined.

(** A component of a canonical path: not empty, not [.] or [..], no slash
    in it. *)
Definition clean_component (c : list N) : Prop :=
  c <> [] /\ c <> curdir /\ c <> pardir /\ SLASH ∉ c.

(** A segment that can be joined to a path: not empty, no slash in it. *)
Definition plain_segment (c : list N) : Prop := c <> [] /\ SLASH ∉ c.

(** The absolute path with the given components. *)
Definition absolute (comps : list (list N)) : list N :=
  SLASH :: str_join [SLASH] comps.

(** ** The components of a joined path *)

(** What a segment does to the components found so far (the last one
    first): an empty segment or [.] nothing, [..] removes the last one, if
    there is one, and any other segment is one more component. *)
Definition climb (stack : list (list N)) (segment : list N)
  : list (list N) :=
  if str_eqb segment [] || str_eqb segment curdir then stack
  else if str_eqb segment pardir then tail stack
  else segment :: stack.

(** The components of the absolute path that segments lead to from the
    root. *)
Definition resolved (segments : list (list N)) : list (list N) :=
  rev (fold_left climb segments []).

(** The segments of a place, workspace apart: the literal ones of its
    template with the sanitized segments of the parameters where the template
    takes them, and for each pseudo-segment of the template the last of
    these with [.py] appended. *)
Definition place_segments (env : OsEnv) (before : list (list N))
    (takes : bool) (after : list (list N)) (parameters : list (option (list N)))
  : list (list N) :=
  let segments :=
    before ++ (if takes then spec_segments env parameters else []) in
  segments ++ map (fun _ => default [] (last segments) ++ py ".py") after.

(** A path that is being put together: it starts with one slash, and its
    pieces give the components [stack] (the last one first). *)
Definition joined (q : list N) (stack : list (list N)) : Prop :=
  startswith q [SLASH] = true
  /\ startswith q [SLASH; SLASH] = false
  /\ Forall clean_component stack
  /\ fold_left (normpath_step 1) (str_split SLASH q) [] = stack.

(** ** The change-list as the specification reads it *)

(** The entries of the manifest in the order they are applied: for each
    [update] element its [remove] entries, then its [copy] entries. *)
Definition change_list (root : Element) : list Element :=
  flat_map
    (fun child =>
       if str_eqb (tag child) (py "update") then two_pass_order child else [])
    (children root).

(** The components of the main folder. *)
Definition main_components (ws : list (list N)) : list (list N) :=
  ws ++ [py "codeinpython_env"].

(** [cs] lies below [base], and is not [base] itself. *)
Definition below (base cs : list (list N)) : bool :=
  (length base <? length cs)%nat && bool_decide (take (length base) cs = base).











(** ** Notions the further properties are stated with *)

(** The text of the last child with the given tag, or [default] when
    there is none. *)
Definition last_text (name : str) (l : list Element) (default : option str)
  : option str :=
  match last (filter (fun e => tag e = name) l) with
  | Some e => text e
  | None => default
  end.

(** The folders of an installation below the workspace with the given
    components, in the order [initial_preparation] visits them. *)
Definition required_folder_paths (ws : list (list N)) : list (list N) :=
  map (fun sub => absolute (ws ++ py "codeinpython_env" :: sub))
    [ []; [py "workspace"]; [py "code_lib"]; [py "examples"];
      [py "custom_examples"]; [py "firmware"]; [py "archive"];
      [py "mu_modules"] ].

(** ** A concrete installation *)

(** A host with the working directory and home [/home/u], no other
    users, no alphanumeric code point above ASCII but the letters from
    U+00C0 to U+017F (the signs U+00D7 and U+00F7 are none), every code point
    above U+00A0 printable but the soft hyphen, and no translation. *)
Definition example_env : OsEnv := {|
  getcwd := py "/home/u";
  env_HOME := Some (py "/home/u");
  getpwnam := fun _ => None;
  unicode_isalnum :=
    fun c => ((192 <=? c) && (c <=? 383) && negb (c =? 215)
              && negb (c =? 247))%N;
  unicode_isprintable := fun c => ((160 <? c) && negb (c =? 173))%N;
  gettext := fun s => s;
  recursion_limit := 1000
|}.

Definition example_settings : Settings := {|
  SUBPATH_MU_CODE := py "/home/u/mu_code";
  subpath_class := py "my_school";
  user_name := py "ann";
  language := py "pl"
|}.

Definition TAB : char := 9%N.

(** [Cześć] *)
Definition CZESC : str := [67; 122; 101; 347; 263]%N.

(** The two [title] elements of the specification's example. *)
Definition example_titles : Element :=
  Elem (py "lesson") [] None
    [ Elem (py "title") [(py "lang", py "en")] (Some (py "Hello")) [];
      Elem (py "title") [(py "lang", py "pl")] (Some CZESC) [] ].

Definition entry (kind path : string) : Element :=
  Elem (py kind) [] (Some (py path)) [].

(** A manifest with a release and the given change-list. *)
Definition manifest (entries : list Element) : content :=
  Data (Some (Elem (py "config") [] None
                [ Elem (py "release") [] (Some (py "1.0")) [];
                  Elem (py "update") [] None entries ])).

(** A manifest without a [release] element. *)
Definition manifest_without_release : content :=
  Data (Some (Elem (py "config") [] None [Elem (py "update") [] None []])).

Definition INBOX : str :=
  py "/home/u/mu_code/codeinpython_env/codeinpython_update.zip".
Definition TEMP : str := py "/home/u/mu_code/codeinpython_env/temp".

(** The directories down to the main folder of the installation. *)
Definition example_dirs : list (list N * node) :=
  [ (py "/", Dir); (py "/home", Dir); (py "/home/u", Dir);
    (py "/home/u/mu_code", Dir);
    (py "/home/u/mu_code/codeinpython_env", Dir) ].

(** A world with those directories and one more file. *)
Definition world_with (path : str) (c : content) : World :=
  {| fs := <[path := File c]> (list_to_map example_dirs); shown := [] |}.

(** An archive whose change-list removes the inbox file itself. *)
Definition archive_removing_inbox : content :=
  Zip [ (CONFIG_FILENAME, manifest [entry "remove" "codeinpython_update.zip"]);
        (py "examples/a.py", Data None) ].

(** An archive with one entry of each kind that fails and one that works. *)
Definition archive_with_failures : content :=
  Zip [ (CONFIG_FILENAME,
         manifest [ entry "copy" "missing.py"; entry "remove" "../x";
                    entry "copy" "examples/a.py" ]);
        (py "examples/a.py", Data None) ].

(** An archive that has no manifest. *)
Definition archive_without_manifest : content :=
  Zip [(py "examples/a.py", Data None)].

(** ** More of the concrete installation *)

(** A manifest with two [release] elements and a date. *)
Definition manifest_released_twice : content :=
  Data (Some (Elem (py "config") [] None
                [ Elem (py "release") [] (Some (py "1.0")) [];
                  Elem (py "release") [] (Some (py "1.1")) [];
                  Elem (py "release_date") [] (Some (py "2024-05-01")) [] ])).

Definition WORKSPACE : list (list N) := [py "home"; py "u"; py "mu_code"].

Definition ARCHIVE_DIR : str := py "/home/u/mu_code/codeinpython_env/archive".
Definition ARCHIVE : str :=
  py "/home/u/mu_code/codeinpython_env/archive/codeinpython_update.zip".

(** A world with the archive folder and one more file. *)
Definition world_with_archive_folder (path : str) (c : content) : World :=
  {| fs := <[path := File c]>
             (<[ARCHIVE_DIR := Dir]> (list_to_map example_dirs));
     shown := [] |}.

Definition BLINK : str := py "/home/u/mu_code/codeinpython_env/examples/blink".

(** A world with the example [blink], its file [run.py] and, if given, its
    description. *)
Definition blink_world (description : option node) : World :=
  {| fs :=
       list_to_map
         (example_dirs
          ++ [ (py "/home/u/mu_code/codeinpython_env/examples", Dir);
               (BLINK, Dir);
               (BLINK ++ py "/run.py", File (Data None)) ]
          ++ match description with
             | Some n => [(BLINK ++ py "/description.xml", n)]
             | None => []
             end);
     shown := [] |}.

(** A description whose start file is named with a path that leads out of
    the folder. *)
Definition description_with_start_file : content :=
  Data (Some (Elem (py "example") [] None
                [Elem (py "start_file") [] (Some (py "../other/run.py")) []])).

(** The members of an archive, one with a name that climbs out of the
    directory it is unpacked to. *)
Definition climbing_members : list (list N * content) :=
  [ (py "../codeinpython_update.zip", Data None);
    (py "examples/a.py", Data None) ].

(** A user who answers every question with No. *)
Definition always_no (title text : list N) : bool := false.

(** A world in which an archive has been unpacked to the scratch
    directory, with the folder [examples] in the main folder. *)
Definition unpacked_world : World :=
  {| fs :=
       list_to_map
         (example_dirs
          ++ [ (TEMP, Dir); (TEMP ++ py "/examples", Dir);
               (TEMP ++ py "/examples/a.py", File (Data None));
               (py "/home/u/mu_code/codeinpython_env/examples", Dir);
               (py "/home/u/mu_code/codeinpython_env/examples/old.py",
                File (Data None)) ]);
     shown := [] |}.

Definition LESSON : str :=
  py "/home/u/mu_code/codeinpython_env/workspace/my_school/ann/blink".

(** A lesson folder whose only entry is a directory with the name of the
    description file, and in it a program. *)
Definition lesson_with_a_folder_named_like_a_file : World :=
  {| fs :=
       list_to_map
         (example_dirs
          ++ [ (py "/home/u/mu_code/codeinpython_env/workspace", Dir);
               (py "/home/u/mu_code/codeinpython_env/workspace/my_school", Dir);
               (py "/home/u/mu_code/codeinpython_env/workspace/my_school/ann",
                Dir);
               (LESSON, Dir);
               (LESSON ++ py "/description.xml", Dir);
               (LESSON ++ py "/description.xml/run.py", File (Data None)) ]);
     shown := [] |}.

(** Three [title] elements in English, of which only the second has a
    text. *)
Definition titles_without_text : Element :=
  Elem (py "lesson") [] None
    [ Elem (py "title") [(py "lang", py "en")] None [];
      Elem (py "title") [(py "lang", py "en")] (Some (py "Hello")) [];
      Elem (py "title") [(py "lang", py "en")] None [] ].

(** A world with the folder [examples] and a file [old.py] in it, the
    archive folder, and an archive in the inbox. *)
Definition installed_world (archive : content) : World :=
  {| fs :=
       list_to_map
         (example_dirs
          ++ [ (py "/home/u/mu_code/codeinpython_env/archive", Dir);
               (py "/home/u/mu_code/codeinpython_env/examples", Dir);
               (py "/home/u/mu_code/codeinpython_env/examples/old.py",
                File (Data None));
               (INBOX, File archive) ]);
     shown := [] |}.

(** An archive whose manifest lists the copy of a file before the removal
    of the folder it goes to. *)
Definition archive_copy_listed_first : content :=
  Zip [ (CONFIG_FILENAME,
         manifest [entry "copy" "examples/a.py"; entry "remove" "examples"]);
        (py "examples/a.py", Data None) ].




(** The components of the inbox file. *)
Definition INBOX_COMPONENTS : list (list N) :=
  [py "home"; py "u"; py "mu_code"; py "codeinpython_env";
   py "codeinpython_update.zip"].

(** * Verification *)

(** ** Facts about strings *)

Lemma str_eqb_true (a b : list N) : str_eqb a b = true <-> a = b.
Proof. unfold str_eqb. apply bool_decide_eq_true. Qed.

Lemma str_eqb_false (a b : list N) : str_eqb a b = false <-> a <> b.
Proof. unfold str_eqb. apply bool_decide_eq_false. Qed.

Lemma str_eqb_refl (a : list N) : str_eqb a a = true.
Proof. by apply str_eqb_true. Qed.

Lemma startswith_app (s t : list N) : startswith (s ++ t) s = true.
Proof.
  induction s as [|c s IH]; [done|].
  simpl. by rewrite N.eqb_refl, IH.
Qed.

Lemma startswith_prefix (s p : list N) :
  startswith s p = true <-> exists t, s = p ++ t.
Proof.
  split.
  - revert s. induction p as [|c p IH]; intros s H.
    + by exists s.
    + destruct s as [|d s]; [done|]. simpl in H.
      apply andb_true_iff in H as [Hc Hs]. apply N.eqb_eq in Hc. subst d.
      destruct (IH s Hs) as [t ->]. by exists t.
  - intros [t ->]. apply startswith_app.
Qed.

(** ** Sanitizing *)

Lemma keeps_space env : keeps env SPACE = false.
Proof. reflexivity. Qed.

Lemma keeps_underscore env : keeps env UNDERSCORE = true.
Proof. reflexivity. Qed.

Lemma clean_name_kept env s c : c ∈ clean_name env s -> keeps env c = true.
Proof.
  unfold clean_name, re_sub_not_name. intros H.
  by apply list_elem_of_filter in H as [H _].
Qed.

Lemma filter_replace_spec env l :
  filter (fun c => keeps env c = true) (replace SPACE UNDERSCORE l)
  = spec_sanitize_chars env l.
Proof.
  induction l as [|c l IH]; [done|].
  unfold replace in *. simpl. rewrite filter_cons.
  destruct (N.eqb c SPACE) eqn:Hc.
  - rewrite decide_True by apply keeps_underscore. by rewrite IH.
  - destruct (keeps env c) eqn:Hk.
    + rewrite decide_True by done. by rewrite IH.
    + rewrite decide_False by (simpl; congruence). by rewrite IH.
Qed.

Lemma clean_name_spec env s : clean_name env s = spec_sanitize env s.
Proof. unfold clean_name, re_sub_not_name. apply filter_replace_spec. Qed.

Lemma clean_segments_spec env parameters :
  map (clean_name env) (params_separate parameters)
  = spec_segments env parameters.
Proof.
  unfold params_separate, spec_segments.
  induction parameters as [|[p|] ps IH]; simpl.
  - done.
  - rewrite map_app, IH. f_equal.
    apply map_ext. intros s. apply clean_name_spec.
  - done.
Qed.

Lemma clean_name_not_append_py_file env s : clean_name env s <> APPEND_PY_FILE.
Proof.
  intros H.
  assert (Hin : SPACE ∈ clean_name env s).
  { rewrite H. vm_compute. do 6 apply list_elem_of_further. apply list_elem_of_here. }
  apply clean_name_kept in Hin. by rewrite keeps_space in Hin.
Qed.

(** ** The templates of the places *)

Lemma SUBPATH_values :
  SUBPATH_MAIN = py "codeinpython_env"
  /\ SUBPATH_WORKSPACE = py "workspace"
  /\ SUBPATH_ARCHIVE = py "archive"
  /\ SUBPATH_EXAMPLES = py "examples"
  /\ SUBPATH_CUSTOM_EXAMPLES = py "custom_examples"
  /\ SUBPATH_PRIVATE_EXAMPLES = py "private"
  /\ SUBPATH_TEMP = py "temp"
  /\ SUBPATH_LIBRARIES = py "code_lib"
  /\ SUBPATH_MU_MODULE = py "mu_modules"
  /\ SUBPATH_FIRMWARE = py "firmware".
Proof. repeat split; reflexivity. Qed.

(** The dictionary of [__path_create] is the table of templates with the
    parameters put in their place. *)
Lemma path_struct_template self params place :
  dict_get (path_struct self params) place
  = match dict_get (template_table self) place with
    | Some (before, takes, after) =>
        Some (before ++ (if takes : bool then params else []) ++ after)
    | None => None
    end.
Proof.
  unfold path_struct, template_table.
  destruct SUBPATH_values as (-> & -> & -> & -> & -> & -> & -> & -> & -> & ->).
  change ZIP_FILENAME with (py "codeinpython_update.zip").
  change APPEND_PY_FILE with (py "append py file").
  cbn [dict_get].
  repeat (match goal with
          | |- context [str_eqb ?k place] => destruct (str_eqb k place)
          end; [by rewrite ?app_nil_r|]).
  done.
Qed.

(** C3 (as stated) fails: a tab inside a parameter is removed, where the
    claim has an underscore, and a parameter with a slash gives two
    segments, where the claim has one. *)
Lemma tab_is_dropped_and_slash_cuts :
  clean_name example_env [97; TAB; 98]%N = py "ab"
  /\ spec_sanitize_all_whitespace example_env [97; TAB; 98]%N = py "a_b"
  /\ clean_name example_env [97; TAB; 98]%N
     <> spec_sanitize_all_whitespace example_env [97; TAB; 98]%N
  /\ map (clean_name example_env) (params_separate [Some (py "a/b")])
     = [py "a"; py "b"].
Proof. repeat split; try reflexivity. by vm_compute. Qed.

(** ** The pseudo-segment *)

Lemma no_append_py_file_in_params env parameters :
  filter is_append_py_file (map (clean_name env) (params_separate parameters))
  = [].
Proof.
  induction (params_separate parameters) as [|s l IH]; [done|].
  simpl. rewrite filter_cons, decide_False; [done|].
  apply clean_name_not_append_py_file.
Qed.

(** C10. Whatever the parameters, none of the sanitized segments is the
    pseudo-segment, so the loop of [__path_create] joins each of them as a
    plain segment, and the template holds as many pseudo-segments as it
    does without parameters; when the settings (workspace, class, user) are
    not the pseudo-segment themselves that is one, at the end, for
    [student file] and [student private file], and none for every other
    place. *)
Theorem parameters_never_append_py_file env self place parameters :
  let params := map (clean_name env) (params_separate parameters) in
  (forall s, s ∈ params -> s <> APPEND_PY_FILE)
  /\ (forall s path, s ∈ params ->
        assemble_step path s = os_path_join path [s])
  /\ (forall elements,
        dict_get (path_struct self params) place = Some elements ->
        exists fixed,
          dict_get (path_struct self []) place = Some fixed
          /\ filter is_append_py_file elements
             = filter is_append_py_file fixed)
  /\ (SUBPATH_MU_CODE self <> APPEND_PY_FILE ->
      subpath_class self <> APPEND_PY_FILE ->
      user_name self <> APPEND_PY_FILE ->
      forall elements,
        dict_get (path_struct self params) place = Some elements ->
        filter is_append_py_file elements
        = if str_eqb place (py "student file")
             || str_eqb place (py "student private file")
          then [APPEND_PY_FILE] else []).
Proof.
  intros params.
  assert (Hs : forall s, s ∈ params -> s <> APPEND_PY_FILE).
  { intros s Hin. apply list_elem_of_fmap in Hin as (x & -> & _).
    apply clean_name_not_append_py_file. }
  assert (Hp : filter is_append_py_file params = [])
    by apply no_append_py_file_in_params.
  split; [exact Hs|]. split.
  { intros s path Hin. unfold assemble_step.
    by rewrite (proj2 (str_eqb_false _ _) (Hs s Hin)). }
  split.
  - intros elements. rewrite !path_struct_template.
    destruct (dict_get (template_table self) place)
      as [[[before takes] after]|]; [|done].
    intros [= <-]. eexists; split; [done|].
    rewrite !filter_app. destruct takes; by rewrite ?Hp.
  - intros HMU Hclass Huser elements.
    unfold path_struct.
    destruct SUBPATH_values as (-> & -> & -> & -> & -> & -> & -> & -> & -> & ->).
    change ZIP_FILENAME with (py "codeinpython_update.zip").
    cbn [dict_get].
    repeat (match goal with
            | |- context [str_eqb ?k place] =>
                destruct (str_eqb k place) eqn:?
            end;
            [ match goal with
              | H : str_eqb _ place = true |- _ =>
                  apply str_eqb_true in H; subst place
              end;
              intros [= <-];
              repeat first
                [ rewrite Hp
                | rewrite filter_app
                | rewrite filter_nil
                | rewrite filter_cons
                | rewrite decide_True by done
                | rewrite decide_False by
                    (unfold is_append_py_file;
                     first [assumption | by vm_compute]) ];
              reflexivity
            | ]).
    done.
Qed.

(** ** The localized lookup *)

Lemma opt_eqb_true (a b : option (list N)) : opt_eqb a b = true <-> a = b.
Proof. unfold opt_eqb. apply bool_decide_eq_true. Qed.

Lemma opt_eqb_false (a b : option (list N)) : opt_eqb a b = false <-> a <> b.
Proof. unfold opt_eqb. apply bool_decide_eq_false. Qed.

Lemma bool_decide_elem_of_cons_ne {A : Type} `{EqDecision A} (x y : A) l :
  x <> y -> bool_decide (x ∈ y :: l) = bool_decide (x ∈ l).
Proof.
  intros Hne. apply bool_decide_ext. rewrite elem_of_cons. tauto.
Qed.

Lemma bool_decide_elem_of_cons_eq {A : Type} `{EqDecision A} (x : A) l :
  bool_decide (x ∈ x :: l) = true.
Proof. apply bool_decide_eq_true_2, list_elem_of_here. Qed.

(** The first loop, started with any best fit so far. *)
Lemma best_fit_loop_spec l name lang default best :
  let langs :=
    map (fun e => get e (py "lang")) (filter (fun e => tag e = name) l) in
  best_fit_loop l name lang default best
  = if bool_decide (lang ∈ langs) then lang
    else if bool_decide (Some default ∈ langs) then Some default
    else match best with
         | Some b => Some b
         | None => head (omap id langs)
         end.
Proof.
  revert best. induction l as [|e l IH]; intros best; simpl.
  - by destruct best.
  - rewrite filter_cons. destruct (str_eqb (tag e) name) eqn:Ht.
    + apply str_eqb_true in Ht. rewrite decide_True by done. simpl.
      destruct (opt_eqb (get e (py "lang")) lang) eqn:Hl.
      * apply opt_eqb_true in Hl. rewrite Hl.
        by rewrite bool_decide_elem_of_cons_eq.
      * apply opt_eqb_false in Hl.
        rewrite (bool_decide_elem_of_cons_ne lang) by done.
        destruct (opt_eqb (get e (py "lang")) (Some default)) eqn:Hd.
        -- apply opt_eqb_true in Hd. rewrite IH. simpl. rewrite Hd.
           rewrite bool_decide_elem_of_cons_eq.
           by repeat case_bool_decide.
        -- apply opt_eqb_false in Hd.
           rewrite (bool_decide_elem_of_cons_ne (Some default)) by done.
           destruct best as [b|]; rewrite IH; simpl; [done|].
           repeat case_bool_decide; try done.
           by destruct (get e (py "lang")).
    + apply str_eqb_false in Ht. rewrite decide_False by done. apply IH.
Qed.

Lemma join_merge (sep a b : list N) (l : list (list N)) :
  str_join sep ((a ++ sep ++ b) :: l) = str_join sep (a :: b :: l).
Proof.
  destruct l as [|c l]; simpl; [done|]. by rewrite <- !app_assoc.
Qed.

(** The second loop, started with any result so far. *)
Lemma collect_loop_spec l name best separator result :
  let texts :=
    map text
      (filter (fun e => tag e = name /\ get e (py "lang") = best) l) in
  collect_loop l name best separator result
  = match result with
    | None => joined_texts separator texts
    | Some r => Some (str_join separator (r :: map format_value texts))
    end.
Proof.
  revert result. induction l as [|e l IH]; intros result; simpl.
  - by destruct result.
  - rewrite filter_cons.
    destruct (str_eqb (tag e) name) eqn:Ht; simpl.
    + apply str_eqb_true in Ht.
      destruct (opt_eqb (get e (py "lang")) best) eqn:Hl.
      * apply opt_eqb_true in Hl. rewrite decide_True by done.
        destruct result as [r|]; rewrite IH; cbn [map].
        -- by rewrite join_merge.
        -- by destruct (text e).
      * apply opt_eqb_false in Hl.
        rewrite decide_False by tauto. apply IH.
    + apply str_eqb_false in Ht.
      rewrite decide_False by tauto. apply IH.
Qed.

Lemma filter_none {A : Type} (P : A -> Prop) `{forall x, Decision (P x)}
    (l : list A) :
  (forall x, x ∈ l -> ~ P x) -> filter P l = [].
Proof.
  induction l as [|x l IH]; intros Hall; [done|].
  rewrite filter_cons, decide_False by (apply Hall, list_elem_of_here).
  apply IH. intros y Hy. by apply Hall, list_elem_of_further.
Qed.

Lemma format_value_present ts : map format_value (map Some ts) = ts.
Proof. induction ts as [|t ts IH]; simpl; [done|]. by rewrite IH. Qed.

Lemma joined_texts_all_present separator ts :
  joined_texts separator (map Some ts)
  = match ts with
    | [] => None
    | _ :: _ => Some (str_join separator ts)
    end.
Proof.
  destruct ts as [|t ts]; [done|].
  cbn [map joined_texts]. by rewrite format_value_present.
Qed.

(** The first loop settles on the preferred language when a child with
    the tag has it, else on the fallback language when a child has it, else
    on the first language met; the result joins, in document order and with
    the separator between them, the texts of the children with the tag and
    that language, as [joined_texts] does: it is their plain concatenation
    when all of them have a text, and [None] when no child has the tag.  With
    [Hello] in English and [Cześć] in Polish, Polish preferred gives
    [Cześć] and French preferred gives [Hello]. *)
Theorem xml_get_with_lang_picks_and_joins child name lang default separator :
  let best := chosen_language (langs_of child name) lang default in
  let texts := texts_of child name best in
  best_fit_loop (children child) name lang default None = best
  /\ xml_get_with_lang child name lang default separator
     = joined_texts separator texts
  /\ (forall ts, texts = map Some ts ->
        xml_get_with_lang child name lang default separator
        = match ts with
          | [] => None
          | _ :: _ => Some (str_join separator ts)
          end)
  /\ (langs_of child name = [] ->
        xml_get_with_lang child name lang default separator = None)
  /\ xml_get_with_lang example_titles (py "title") (Some (py "pl"))
       (py "en") [] = Some CZESC
  /\ xml_get_with_lang example_titles (py "title") (Some (py "fr"))
       (py "en") [] = Some (py "Hello").
Proof.
  intros best texts.
  assert (Hbest : best_fit_loop (children child) name lang default None = best).
  { rewrite best_fit_loop_spec. unfold best, chosen_language, langs_of.
    by repeat case_bool_decide. }
  assert (Hjoin : xml_get_with_lang child name lang default separator
                  = joined_texts separator texts).
  { unfold xml_get_with_lang. rewrite Hbest. by rewrite collect_loop_spec. }
  split; [exact Hbest|]. split; [exact Hjoin|]. split.
  { intros ts Hts. rewrite Hjoin, Hts. apply joined_texts_all_present. }
  split.
  { intros Hnone. rewrite Hjoin. unfold texts, texts_of.
    assert (Hno : forall e, e ∈ children child -> tag e <> name).
    { intros e He Ht. unfold langs_of in Hnone.
      apply fmap_nil_inv in Hnone.
      by apply (filter_nil_not_elem_of _ _ e Hnone Ht). }
    rewrite filter_none; [done|]. intros e He [Ht _]. by apply (Hno e). }
  split; reflexivity.
Qed.

(** C5 fails on the code: of three English titles of which only the
    second has a text, the first is passed over and the third is written as
    the word [None], where the claim has the texts of the elements joined by
    the separator. *)
Lemma xml_get_with_lang_writes_None :
  texts_of titles_without_text (py "title") (Some (py "en"))
  = [None; Some (py "Hello"); None]
  /\ xml_get_with_lang titles_without_text (py "title") (Some (py "en"))
       (py "en") (py ", ")
     = Some (py "Hello, None").
Proof. split; by vm_compute. Qed.

(** ** The content check *)

(** The check on a path that has been worked out: one case for each way
    the calls can go. *)
Ltac content_check_cases :=
  unfold is_update_archive, zip_get_version, xml_get_version, ET_parse,
    zipfile_ZipFile, zipfile_is_zipfile, os_path_isfile, bind, ret, lift,
    raise;
  repeat (case_match; simplify_eq/=);
  repeat match goal with
         | H : str_eqb _ _ = true |- _ => apply str_eqb_true in H
         | H : str_eqb _ _ = false |- _ => apply str_eqb_false in H
         | H : bool_decide _ = true |- _ => apply bool_decide_eq_true in H
         | H : bool_decide _ = false |- _ => apply bool_decide_eq_false in H
         end;
  try done;
  (split; [try done; eauto 10 | ]);
  intros (? & ? & ? & ? & ? & ? & ? & ?);
  simplify_eq/=; congruence.

(** The content check leaves the world as it is. *)
Lemma zip_check_content_world env self input_path w :
  snd (zip_check_content env self input_path w) = w.
Proof.
  unfold zip_check_content.
  destruct (negb (str_eqb input_path [])).
  - generalize (path_clean env input_path). intros src.
    content_check_cases.
  - generalize (path_get env self (py "zip install default file") []).
    intros [src|e]; [content_check_cases|done].
Qed.

(** C4 (as amended). [zip_check_content] returns [True] exactly when the
    path it looks at names a regular file that is a zip container, ends in
    the extension [.zip], holds the manifest, and the manifest parses as
    XML; no [release] element is asked for, and the check changes
    nothing. *)
Theorem zip_check_content_true_iff env self input_path w :
  (fst (zip_check_content env self input_path w) = Ok true
   <-> exists src,
         checked_path env self input_path = Ok src
         /\ is_update_archive env w src)
  /\ snd (zip_check_content env self input_path w) = w.
Proof.
  split; [|apply zip_check_content_world].
  unfold zip_check_content, checked_path.
  destruct (negb (str_eqb input_path [])).
  - generalize (path_clean env input_path). intros src.
    content_check_cases.
  - generalize (path_get env self (py "zip install default file") []).
    intros [src|e].
    + content_check_cases.
    + unfold bind, lift. simpl. split; [done|].
      by intros (src & Hsrc & _).
Qed.

(** C4 (as stated) fails: an archive whose manifest has no [release] is
    accepted, and an archive with a good manifest is accepted under the
    name [update.zip] and refused under the name [update.dat]. *)
Lemma check_ignores_release_and_reads_the_extension :
  fst (zip_check_content example_env example_settings []
         (world_with INBOX (Zip [(CONFIG_FILENAME, manifest_without_release)])))
  = Ok true
  /\ fst (zip_check_content example_env example_settings (py "/home/u/update.zip")
            (world_with (py "/home/u/update.zip")
               (Zip [(CONFIG_FILENAME, manifest [])])))
     = Ok true
  /\ fst (zip_check_content example_env example_settings (py "/home/u/update.dat")
            (world_with (py "/home/u/update.dat")
               (Zip [(CONFIG_FILENAME, manifest [])])))
     = Ok false.
Proof. repeat split; by vm_compute. Qed.

(** ** Containment *)

(** C1 fails on the code: the main folder is [codeinpython_env], and a
    file in its sibling [codeinpython_env_old] passes [valid_path] with
    and without [allow_main]; [path_get] hands that path out for the
    parameter [../codeinpython_env_old/x]. *)
Lemma valid_path_accepts_a_sibling_directory :
  path_create example_env example_settings (py "main") []
  = Ok (py "/home/u/mu_code/codeinpython_env")
  /\ valid_path example_env example_settings
       (py "/home/u/mu_code/codeinpython_env_old/x") true = Ok true
  /\ valid_path example_env example_settings
       (py "/home/u/mu_code/codeinpython_env_old/x") false = Ok true
  /\ path_get example_env example_settings (py "main")
       [Some (py "../codeinpython_env_old/x")]
     = Ok (py "/home/u/mu_code/codeinpython_env_old/x").
Proof. repeat split; by vm_compute. Qed.


(** *** Cutting at the slashes *)

Lemma str_split_nonempty s : str_split SLASH s <> [].
Proof.
  destruct s as [|c s]; simpl; [done|].
  destruct (N.eqb c SLASH); [done|]. by destruct (str_split SLASH s).
Qed.

Lemma str_split_no_slash s c : c ∈ str_split SLASH s -> SLASH ∉ c.
Proof.
  revert c. induction s as [|d s IH]; intros c; simpl.
  - intros Hc%list_elem_of_singleton. subst c. apply not_elem_of_nil.
  - destruct (N.eqb d SLASH) eqn:Hd.
    + intros Hc%elem_of_cons. destruct Hc as [Hc|Hc].
      * subst c. apply not_elem_of_nil.
      * by apply IH.
    + apply N.eqb_neq in Hd.
      pose proof (str_split_nonempty s) as Hne.
      destruct (str_split SLASH s) as [|w ws]; [done|].
      intros Hc%elem_of_cons. destruct Hc as [Hc|Hc].
      * subst c. intros Hin%elem_of_cons. destruct Hin as [Hin|Hin].
        -- by apply Hd.
        -- revert Hin. apply IH, list_elem_of_here.
      * by apply IH, list_elem_of_further.
Qed.

Lemma str_split_whole w : SLASH ∉ w -> str_split SLASH w = [w].
Proof.
  induction w as [|c w IH]; intros Hw; [done|].
  simpl. rewrite (proj2 (N.eqb_neq c SLASH)).
  - rewrite IH; [done|]. intros H. apply Hw. by apply list_elem_of_further.
  - intros ->. apply Hw, list_elem_of_here.
Qed.

Lemma str_split_app w t :
  SLASH ∉ w -> str_split SLASH (w ++ SLASH :: t) = w :: str_split SLASH t.
Proof.
  induction w as [|c w IH]; intros Hw.
  - done.
  - simpl. rewrite (proj2 (N.eqb_neq c SLASH)).
    + rewrite IH; [done|]. intros H. apply Hw. by apply list_elem_of_further.
    + intros ->. apply Hw, list_elem_of_here.
Qed.

Lemma str_split_join comps :
  comps <> [] -> Forall (fun c => SLASH ∉ c) comps ->
  str_split SLASH (str_join [SLASH] comps) = comps.
Proof.
  intros Hne Hall. induction Hall as [|w ws Hw Hws IH]; [done|].
  destruct ws as [|w' ws].
  - by apply str_split_whole.
  - change (str_join [SLASH] (w :: w' :: ws))
      with (w ++ SLASH :: str_join [SLASH] (w' :: ws)).
    rewrite str_split_app by done. by rewrite IH.
Qed.

Lemma join_snoc sep comps c :
  comps <> [] -> str_join sep (comps ++ [c]) = str_join sep comps ++ sep ++ c.
Proof.
  induction comps as [|w ws IH]; intros Hne; [done|].
  destruct ws as [|w' ws]; [done|].
  change (str_join sep ((w :: w' :: ws) ++ [c]))
    with (w ++ sep ++ str_join sep ((w' :: ws) ++ [c])).
  rewrite IH by done.
  change (str_join sep (w :: w' :: ws)) with (w ++ sep ++ str_join sep (w' :: ws)).
  by rewrite <- !app_assoc.
Qed.

(** *** Normal forms *)

Lemma clean_component_no_slash c : clean_component c -> SLASH ∉ c.
Proof. by intros (_ & _ & _ & H). Qed.

Lemma clean_component_head c :
  clean_component c -> exists x t, c = x :: t /\ x <> SLASH.
Proof.
  intros (Hne & _ & _ & Hs). destruct c as [|x t]; [done|].
  exists x, t. split; [done|]. intros ->. apply Hs, list_elem_of_here.
Qed.

Lemma clean_component_last c :
  clean_component c -> exists t x, c = t ++ [x] /\ x <> SLASH.
Proof.
  intros (Hne & _ & _ & Hs).
  destruct (exists_last Hne) as (t & x & ->).
  exists t, x. split; [done|]. intros ->.
  apply Hs, elem_of_app. right. apply list_elem_of_here.
Qed.

Lemma normpath_step_push n stack comp :
  clean_component comp -> normpath_step n stack comp = comp :: stack.
Proof.
  intros (Hne & Hcur & Hpar & _). unfold normpath_step.
  rewrite (proj2 (str_eqb_false _ _) Hne), (proj2 (str_eqb_false _ _) Hcur).
  by rewrite (proj2 (str_eqb_false _ _) Hpar).
Qed.

Lemma normpath_fold_push n comps stack :
  Forall clean_component comps ->
  fold_left (normpath_step n) comps stack = rev comps ++ stack.
Proof.
  intros Hall. revert stack.
  induction Hall as [|c cs Hc Hcs IH]; intros stack; [done|].
  simpl. rewrite normpath_step_push by done. rewrite IH.
  by rewrite <- app_assoc.
Qed.

Lemma normpath_step_clean n stack comp :
  n <> 0%nat -> Forall clean_component stack -> SLASH ∉ comp ->
  Forall clean_component (normpath_step n stack comp).
Proof.
  intros Hn Hstack Hcomp. unfold normpath_step.
  destruct (str_eqb comp []) eqn:He; [done|].
  destruct (str_eqb comp curdir) eqn:Hc; [done|].
  apply str_eqb_false in He, Hc. simpl.
  destruct (str_eqb comp pardir) eqn:Hp; simpl.
  - rewrite (proj2 (Nat.eqb_neq n 0)) by done. simpl.
    destruct Hstack as [|top rest Htop Hrest]; [done|].
    destruct Htop as (H1 & H2 & H3 & H4).
    rewrite (proj2 (str_eqb_false _ _) H3). done.
  - apply str_eqb_false in Hp. by constructor.
Qed.

Lemma normpath_fold_clean n comps stack :
  n <> 0%nat -> Forall clean_component stack ->
  Forall (fun c => SLASH ∉ c) comps ->
  Forall clean_component (fold_left (normpath_step n) comps stack).
Proof.
  intros Hn Hstack Hcomps. revert stack Hstack.
  induction Hcomps as [|c cs Hc Hcs IH]; intros stack Hstack; [done|].
  simpl. apply IH. by apply normpath_step_clean.
Qed.

Lemma Forall_rev {A : Type} (P : A -> Prop) l : Forall P l -> Forall P (rev l).
Proof.
  intros H. apply List.Forall_forall. intros x Hx.
  apply List.in_rev in Hx. revert x Hx. by apply List.Forall_forall.
Qed.

(** The normal form of an absolute path: one or two slashes, then clean
    components with slashes between them. *)
Lemma normpath_of_absolute p :
  isabs p = true ->
  exists n comps,
    (n = 1%nat \/ n = 2%nat) /\ Forall clean_component comps
    /\ normpath p = repeat SLASH n ++ str_join [SLASH] comps.
Proof.
  intros Habs. unfold isabs in Habs. unfold normpath.
  destruct (str_eqb p []) eqn:Hp.
  { apply str_eqb_true in Hp. by subst p. }
  rewrite Habs.
  set (n := if startswith p [SLASH; SLASH]
                 && negb (startswith p [SLASH; SLASH; SLASH])
            then 2%nat else 1%nat).
  assert (Hn : n = 1%nat \/ n = 2%nat).
  { unfold n. destruct (_ && _); auto. }
  exists n, (rev (fold_left (normpath_step n) (str_split SLASH p) [])).
  split; [done|]. split.
  - apply Forall_rev, normpath_fold_clean.
    + destruct Hn; lia.
    + done.
    + apply List.Forall_forall. intros c Hc.
      apply str_split_no_slash with p. by apply list_elem_of_In.
  - cbv zeta. destruct Hn as [-> | ->]; done.
Qed.

Lemma absolute_endswith_slash comps :
  comps <> [] -> Forall clean_component comps ->
  endswith (absolute comps) [SLASH] = false.
Proof.
  intros Hne Hall.
  destruct (exists_last Hne) as (init & w & ->).
  apply Forall_app in Hall as [_ Hw]. apply Forall_inv in Hw.
  destruct (clean_component_last w Hw) as (t & x & -> & Hx).
  assert (Hform : exists u, absolute (init ++ [t ++ [x]]) = u ++ [x]).
  { unfold absolute. destruct init as [|i init].
    - exists (SLASH :: t). done.
    - rewrite join_snoc by done.
      exists (SLASH :: str_join [SLASH] (i :: init) ++ [SLASH] ++ t).
      simpl. by rewrite <- !app_assoc. }
  destruct Hform as [u ->]. unfold endswith.
  rewrite rev_app_distr. cbn [rev app startswith].
  by rewrite (proj2 (N.eqb_neq SLASH x)) by done.
Qed.

Lemma joinrealpath_step_clean pre c :
  Forall clean_component pre -> clean_component c ->
  joinrealpath_step (absolute pre) c = absolute (pre ++ [c]).
Proof.
  intros Hpre Hc. unfold joinrealpath_step.
  destruct Hc as (Hne & Hcur & Hpar & Hs).
  rewrite (proj2 (str_eqb_false _ _) Hne), (proj2 (str_eqb_false _ _) Hcur).
  rewrite (proj2 (str_eqb_false _ _) Hpar). simpl.
  unfold join2.
  destruct (clean_component_head c) as (x & t & -> & Hx); [done|].
  cbn [os_path_join fold_left startswith].
  rewrite (proj2 (N.eqb_neq SLASH x)) by done. cbn [andb].
  destruct pre as [|p pre].
  - done.
  - rewrite absolute_endswith_slash by done.
    unfold absolute. rewrite join_snoc by done. by simpl.
Qed.

Lemma joinrealpath_fold_clean comps pre :
  Forall clean_component pre -> Forall clean_component comps ->
  fold_left joinrealpath_step comps (absolute pre) = absolute (pre ++ comps).
Proof.
  intros Hpre Hcomps. revert pre Hpre.
  induction Hcomps as [|c cs Hc Hcs IH]; intros pre Hpre.
  - by rewrite app_nil_r.
  - simpl. rewrite joinrealpath_step_clean by done.
    rewrite IH by (apply Forall_app; split; [done|by constructor]).
    by rewrite <- app_assoc.
Qed.

Lemma joinrealpath_of_normal n comps :
  n = 1%nat \/ n = 2%nat -> Forall clean_component comps ->
  joinrealpath [] (repeat SLASH n ++ str_join [SLASH] comps) = absolute comps.
Proof.
  intros Hn Hall. unfold joinrealpath.
  assert (Hsplit : comps <> [] ->
            str_split SLASH (str_join [SLASH] comps) = comps).
  { intros Hne. apply str_split_join; [done|].
    eapply Forall_impl; [exact Hall|]. apply clean_component_no_slash. }
  destruct comps as [|c cs].
  - by destruct Hn as [-> | ->].
  - pose proof (joinrealpath_fold_clean (c :: cs) [] ltac:(done) Hall)
      as Hfold.
    change ([] ++ c :: cs) with (c :: cs) in Hfold. rewrite <- Hfold.
    change (absolute []) with [SLASH].
    destruct Hn as [-> | ->].
    + change (repeat SLASH 1 ++ str_join [SLASH] (c :: cs))
        with (SLASH :: str_join [SLASH] (c :: cs)).
      change (isabs (SLASH :: str_join [SLASH] (c :: cs))) with true.
      change (slice_from (SLASH :: str_join [SLASH] (c :: cs)) 1)
        with (str_join [SLASH] (c :: cs)).
      cbv iota beta. by rewrite Hsplit.
    + change (repeat SLASH 2 ++ str_join [SLASH] (c :: cs))
        with (SLASH :: SLASH :: str_join [SLASH] (c :: cs)).
      change (isabs (SLASH :: SLASH :: str_join [SLASH] (c :: cs))) with true.
      change (slice_from (SLASH :: SLASH :: str_join [SLASH] (c :: cs)) 1)
        with (SLASH :: str_join [SLASH] (c :: cs)).
      cbv iota beta.
      change (str_split SLASH (SLASH :: str_join [SLASH] (c :: cs)))
        with ([] :: str_split SLASH (str_join [SLASH] (c :: cs))).
      by rewrite Hsplit.
Qed.

Lemma startswith_cons c s p : startswith (c :: s) (c :: p) = startswith s p.
Proof. simpl. by rewrite N.eqb_refl. Qed.

Lemma normpath_absolute comps :
  Forall clean_component comps -> normpath (absolute comps) = absolute comps.
Proof.
  intros Hall. unfold normpath, absolute.
  rewrite (proj2 (str_eqb_false _ _)) by done.
  assert (Hs : startswith (str_join [SLASH] comps) [SLASH] = false).
  { destruct comps as [|c cs]; [done|].
    apply Forall_inv in Hall.
    destruct (clean_component_head c Hall) as (x & t & -> & Hx).
    destruct cs; cbn [str_join app startswith];
      by rewrite (proj2 (N.eqb_neq SLASH x)). }
  replace (startswith (SLASH :: str_join [SLASH] comps) [SLASH]) with true
    by (by rewrite startswith_cons).
  replace (startswith (SLASH :: str_join [SLASH] comps) [SLASH; SLASH])
    with false by (by rewrite startswith_cons).
  cbn [andb].
  change (str_split SLASH (SLASH :: str_join [SLASH] comps))
    with ([] :: str_split SLASH (str_join [SLASH] comps)).
  destruct comps as [|c cs]; [done|].
  rewrite str_split_join.
  - cbn [fold_left]. change (normpath_step 1 [] []) with (@nil (list N)).
    change (fold_left (normpath_step 1) cs (normpath_step 1 [] c))
      with (fold_left (normpath_step 1) (c :: cs) []).
    rewrite normpath_fold_push by done.
    rewrite app_nil_r, rev_involutive. done.
  - done.
  - eapply Forall_impl; [exact Hall|]. apply clean_component_no_slash.
Qed.

(** *** Canonical paths *)

Lemma expanduser_absolute env p : isabs p = true -> expanduser env p = p.
Proof.
  unfold isabs, expanduser. destruct p as [|c p]; [done|].
  cbn [startswith]. intros H. apply andb_true_iff in H as [H _].
  apply N.eqb_eq in H. by subst c.
Qed.

Lemma isabs_absolute comps : isabs (absolute comps) = true.
Proof. done. Qed.

(** A canonical path is left as it is. *)
Lemma path_clean_absolute env comps :
  Forall clean_component comps ->
  path_clean env (absolute comps) = absolute comps.
Proof.
  intros Hall. unfold path_clean, path_clean_with.
  rewrite (proj2 (str_eqb_false _ _)) by done.
  rewrite normpath_absolute by done.
  rewrite expanduser_absolute by done.
  unfold realpath, abspath.
  change (joinrealpath [] (absolute comps))
    with (joinrealpath [] (repeat SLASH 1 ++ str_join [SLASH] comps)).
  rewrite (joinrealpath_of_normal 1 comps) by auto.
  rewrite isabs_absolute. by apply normpath_absolute.
Qed.

(** Cleaning an absolute path gives a canonical one. *)
Lemma path_clean_of_absolute env p :
  isabs p = true ->
  exists comps,
    Forall clean_component comps /\ path_clean env p = absolute comps.
Proof.
  intros Habs. unfold path_clean, path_clean_with.
  destruct (str_eqb p []) eqn:Hp.
  { apply str_eqb_true in Hp. by subst p. }
  destruct (normpath_of_absolute p Habs) as (n & comps & Hn & Hall & ->).
  exists comps. split; [done|].
  rewrite expanduser_absolute by (by destruct Hn as [-> | ->]).
  unfold realpath, abspath.
  rewrite joinrealpath_of_normal by done.
  rewrite isabs_absolute. by apply normpath_absolute.
Qed.

Lemma join2_isabs path b : isabs path = true -> isabs (join2 path b) = true.
Proof.
  unfold join2, isabs. intros Hpath.
  destruct (startswith b [SLASH]) eqn:Hb; [done|].
  destruct path as [|c path]; [done|].
  by destruct (str_eqb (c :: path) [] || endswith (c :: path) [SLASH]).
Qed.

Lemma assemble_step_isabs path element :
  isabs path = true -> isabs (assemble_step path element) = true.
Proof.
  intros Hpath. unfold assemble_step.
  destruct (str_eqb element APPEND_PY_FILE); by apply join2_isabs.
Qed.

Lemma assemble_fold_isabs elements path :
  isabs path = true -> isabs (fold_left assemble_step elements path) = true.
Proof.
  revert path. induction elements as [|e es IH]; intros path Hpath; [done|].
  simpl. by apply IH, assemble_step_isabs.
Qed.

Lemma assemble_first_isabs workspace :
  isabs workspace = true -> isabs (assemble_step [] workspace) = true.
Proof.
  intros Habs. unfold assemble_step.
  destruct (str_eqb workspace APPEND_PY_FILE) eqn:Hw.
  - apply str_eqb_true in Hw. by subst workspace.
  - cbn [os_path_join fold_left]. unfold join2. unfold isabs in Habs.
    by rewrite Habs.
Qed.

Lemma template_starts_with_workspace self place before takes after :
  dict_get (template_table self) place = Some (before, takes, after) ->
  exists rest, before = SUBPATH_MU_CODE self :: rest.
Proof.
  unfold template_table. cbn [dict_get].
  repeat (match goal with
          | |- context [str_eqb ?k place] => destruct (str_eqb k place)
          end; [intros [= <- <- <-]; by eexists|]).
  done.
Qed.

(** With an absolute workspace, every resolved path is canonical. *)
Lemma path_create_canonical env self place parameters p :
  isabs (SUBPATH_MU_CODE self) = true ->
  path_create env self place parameters = Ok p ->
  exists comps, Forall clean_component comps /\ p = absolute comps.
Proof.
  intros Habs. unfold path_create. rewrite path_struct_template.
  destruct (dict_get (template_table self) place)
    as [[[before takes] after]|] eqn:Hplace; [|done].
  destruct (template_starts_with_workspace _ _ _ _ _ Hplace) as [rest ->].
  intros [= <-]. cbn [app fold_left].
  destruct (path_clean_of_absolute env
              (fold_left assemble_step
                 (rest ++ (if takes then map (clean_name env)
                                           (params_separate parameters)
                           else []) ++ after)
                 (assemble_step [] (SUBPATH_MU_CODE self))))
    as (comps & Hall & ->).
  - by apply assemble_fold_isabs, assemble_first_isabs.
  - by exists comps.
Qed.

(** What [path_get] hands out: the resolved path when it begins with the
    main folder, and the empty string when it does not. *)
Lemma path_get_exact env self place parameters created root :
  isabs (SUBPATH_MU_CODE self) = true ->
  path_create env self place parameters = Ok created ->
  path_create env self (py "main") [] = Ok root ->
  path_get env self place parameters
  = Ok (if startswith created root then created else []).
Proof.
  intros Habs Hc Hroot. unfold path_get, valid_path.
  rewrite Hc, Hroot. cbn [outcome_bind].
  destruct (path_create_canonical _ _ _ _ _ Habs Hc) as (comps & Hall & ->).
  by rewrite path_clean_absolute.
Qed.

(** *** Climbing out with [..] *)

Lemma str_join_app sep a b :
  a <> [] -> b <> [] ->
  str_join sep (a ++ b) = str_join sep a ++ sep ++ str_join sep b.
Proof.
  intros Ha Hb. induction a as [|w ws IH]; [done|].
  destruct ws as [|w' ws].
  - destruct b as [|c b]; [done|]. done.
  - change (str_join sep ((w :: w' :: ws) ++ b))
      with (w ++ sep ++ str_join sep ((w' :: ws) ++ b)).
    rewrite IH by done.
    change (str_join sep (w :: w' :: ws))
      with (w ++ sep ++ str_join sep (w' :: ws)).
    by rewrite <- !app_assoc.
Qed.

Lemma str_join_nonempty sep c cs : c <> [] -> str_join sep (c :: cs) <> [].
Proof. intros Hc. destruct c; [done|]. by destruct cs. Qed.

(** A canonical path does not begin with a canonical path that has more
    components after it. *)
Lemma absolute_not_prefix a b :
  Forall clean_component (a ++ b) -> b <> [] ->
  startswith (absolute a) (absolute (a ++ b)) = false.
Proof.
  intros Hall Hb. apply not_true_is_false. intros Hs.
  apply startswith_prefix in Hs as [t Ht].
  apply Forall_app in Hall as [Ha Hall].
  destruct b as [|c b]; [done|].
  assert (Hc : c <> []) by (apply Forall_inv in Hall; apply Hall).
  pose proof (str_join_nonempty [SLASH] c b Hc) as Hj.
  unfold absolute in Ht. destruct a as [|x a].
  - simpl in Ht. injection Ht as Ht. symmetry in Ht.
    by apply app_eq_nil in Ht as [Ht _].
  - rewrite str_join_app in Ht by done.
    injection Ht as Ht.
    rewrite <- (app_nil_r (str_join [SLASH] (x :: a))) in Ht at 1.
    rewrite <- !app_assoc in Ht. by apply app_inv_head in Ht.
Qed.




Lemma clean_component_plain c : clean_component c -> plain_segment c.
Proof. by intros (H1 & _ & _ & H2). Qed.


Lemma absolute_plain_endswith comps :
  comps <> [] -> Forall plain_segment comps ->
  endswith (absolute comps) [SLASH] = false.
Proof.
  intros Hne Hall.
  destruct (exists_last Hne) as (init & w & ->).
  apply Forall_app in Hall as [_ Hw]. apply Forall_inv in Hw.
  destruct Hw as [Hwne Hws].
  destruct (exists_last Hwne) as (t & x & ->).
  assert (Hx : x <> SLASH).
  { intros ->. apply Hws, elem_of_app. right. apply list_elem_of_here. }
  assert (Hform : exists u, absolute (init ++ [t ++ [x]]) = u ++ [x]).
  { unfold absolute. destruct init as [|i init].
    - exists (SLASH :: t). done.
    - rewrite join_snoc by done.
      exists (SLASH :: str_join [SLASH] (i :: init) ++ [SLASH] ++ t).
      simpl. by rewrite <- !app_assoc. }
  destruct Hform as [u ->]. unfold endswith.
  rewrite rev_app_distr. cbn [rev app startswith].
  by rewrite (proj2 (N.eqb_neq SLASH x)) by done.
Qed.

Lemma assemble_step_plain pre c :
  Forall plain_segment pre -> plain_segment c -> c <> APPEND_PY_FILE ->
  assemble_step (absolute pre) c = absolute (pre ++ [c]).
Proof.
  intros Hpre [Hne Hs] Happ. unfold assemble_step.
  rewrite (proj2 (str_eqb_false _ _) Happ).
  cbn [os_path_join fold_left]. unfold join2.
  destruct c as [|x t]; [done|].
  assert (Hx : x <> SLASH) by (intros ->; apply Hs, list_elem_of_here).
  cbn [startswith]. rewrite (proj2 (N.eqb_neq SLASH x)) by done. cbn [andb].
  destruct pre as [|p pre].
  - done.
  - rewrite absolute_plain_endswith by done.
    unfold absolute. rewrite join_snoc by done. by simpl.
Qed.

Lemma assemble_fold_plain comps pre :
  Forall plain_segment pre -> Forall plain_segment comps ->
  Forall (fun c => c <> APPEND_PY_FILE) comps ->
  fold_left assemble_step comps (absolute pre) = absolute (pre ++ comps).
Proof.
  intros Hpre Hcomps. revert pre Hpre.
  induction Hcomps as [|c cs Hc Hcs IH]; intros pre Hpre Happ.
  - by rewrite app_nil_r.
  - apply Forall_cons in Happ as [Hc' Happ].
    simpl. rewrite assemble_step_plain by done.
    rewrite IH; [|apply Forall_app; split; [done|by constructor]|done].
    by rewrite <- app_assoc.
Qed.

Lemma normpath_absolute_fold comps :
  Forall plain_segment comps ->
  normpath (absolute comps)
  = absolute (rev (fold_left (normpath_step 1) comps [])).
Proof.
  intros Hall. unfold normpath.
  rewrite (proj2 (str_eqb_false _ _)) by done.
  assert (Hs : startswith (str_join [SLASH] comps) [SLASH] = false).
  { destruct comps as [|c cs]; [done|].
    apply Forall_inv in Hall. destruct Hall as [Hne Hslash].
    destruct c as [|x t]; [done|].
    assert (Hx : x <> SLASH) by (intros ->; apply Hslash, list_elem_of_here).
    destruct cs; cbn [str_join app startswith];
      by rewrite (proj2 (N.eqb_neq SLASH x)). }
  unfold absolute.
  replace (startswith (SLASH :: str_join [SLASH] comps) [SLASH]) with true
    by (by rewrite startswith_cons).
  replace (startswith (SLASH :: str_join [SLASH] comps) [SLASH; SLASH])
    with false by (by rewrite startswith_cons).
  cbn [andb].
  change (str_split SLASH (SLASH :: str_join [SLASH] comps))
    with ([] :: str_split SLASH (str_join [SLASH] comps)).
  destruct comps as [|c cs]; [done|].
  rewrite str_split_join.
  - cbn [fold_left]. by change (normpath_step 1 [] []) with (@nil (list N)).
  - done.
  - eapply Forall_impl; [exact Hall|]. by intros x [_ Hx].
Qed.


Lemma path_clean_normal env p comps :
  p <> [] -> Forall clean_component comps ->
  normpath p = absolute comps ->
  path_clean env p = absolute comps.
Proof.
  intros Hp Hall Hnorm. unfold path_clean, path_clean_with.
  rewrite (proj2 (str_eqb_false _ _) Hp), Hnorm.
  rewrite expanduser_absolute by done.
  unfold realpath, abspath.
  change (joinrealpath [] (absolute comps))
    with (joinrealpath [] (repeat SLASH 1 ++ str_join [SLASH] comps)).
  rewrite (joinrealpath_of_normal 1 comps) by auto.
  rewrite isabs_absolute. by apply normpath_absolute.
Qed.

Lemma main_folder_clean : clean_component (py "codeinpython_env").
Proof.
  repeat split; try done. apply (bool_decide_unpack _). by vm_compute.
Qed.



Lemma absolute_not_append_py_file comps : absolute comps <> APPEND_PY_FILE.
Proof. done. Qed.





(** ** The installer *)

(** C8 fails on the code: when the archive in the inbox lists the inbox
    file itself for removal, [os.remove] in the [finally] block raises
    [FileNotFoundError] and the scratch directory is still there. *)
Lemma temp_is_left_when_the_update_removes_the_inbox :
  fst (update_data_from_zip example_env example_settings []
         (world_with INBOX archive_removing_inbox))
  = Raise (FileNotFoundError INBOX)
  /\ isdir example_env
       (snd (update_data_from_zip example_env example_settings []
               (world_with INBOX archive_removing_inbox))) TEMP = true.
Proof. split; by vm_compute. Qed.

(** C9 (as stated) fails: an archive without a manifest in the inbox is
    refused by the check, the call returns, and the file is still in the
    inbox. *)
Lemma inbox_is_kept_when_the_check_fails :
  isfile example_env (world_with INBOX archive_without_manifest) INBOX = true
  /\ fst (update_data_from_zip example_env example_settings []
            (world_with INBOX archive_without_manifest))
     = Ok None
  /\ isfile example_env
       (snd (update_data_from_zip example_env example_settings []
               (world_with INBOX archive_without_manifest))) INBOX = true.
Proof. repeat split; by vm_compute. Qed.

(** *** Loops *)

Lemma for_acc_app {A S : Type} (l1 l2 : list A) (f : A -> S -> M S) s w :
  for_acc (l1 ++ l2) f s w = (s' <- for_acc l1 f s ;; for_acc l2 f s') w.
Proof.
  revert s w. induction l1 as [|x l1 IH]; intros s w; [done|].
  cbn [for_acc app]. unfold bind.
  destruct (f x s w) as [[a|e] w']; [|done].
  rewrite IH. done.
Qed.

(** A loop that does nothing for the elements outside [P] is the loop
    over the elements in [P]. *)
Lemma for_acc_filter {A S : Type} (P : A -> Prop) `{forall x, Decision (P x)}
    (l : list A) (f g : A -> S -> M S) s w :
  (forall x s w, P x -> f x s w = g x s w) ->
  (forall x s w, ~ P x -> f x s w = (Ok s, w)) ->
  for_acc l f s w = for_acc (filter P l) g s w.
Proof.
  intros Hin Hout. revert s w.
  induction l as [|x l IH]; intros s w; [done|].
  rewrite filter_cons. simpl. unfold bind at 1.
  destruct (decide (P x)) as [HP|HP].
  - simpl. unfold bind at 1. rewrite (Hin x s w HP).
    destruct (g x s w) as [[a|e] w']; [apply IH|done].
  - rewrite (Hout x s w HP). apply IH.
Qed.

Lemma tag_copy_not_remove : py "copy" <> py "remove".
Proof. by vm_compute. Qed.

Lemma for_acc_singleton {A S : Type} (x : A) (f : A -> S -> M S) s w :
  for_acc [x] f s w = f x s w.
Proof.
  cbn [for_acc]. unfold bind, ret. by destruct (f x s w) as [[a|e] w'].
Qed.

Lemma update_element_two_passes env self destination child list_of_errors w :
  update_element env self destination child list_of_errors w
  = (if str_eqb (tag child) (py "update")
     then for_acc (two_pass_order child) (apply_entry env self destination)
            list_of_errors w
     else (Ok list_of_errors, w)).
Proof.
  unfold update_element, two_pass_order.
  destruct (str_eqb (tag child) (py "update")); [|done].
  rewrite for_acc_app. unfold bind.
  rewrite (for_acc_filter (fun e => tag e = py "remove") (children child)
             (remove_element env self destination)
             (apply_entry env self destination)).
  - destruct (for_acc _ _ _ w) as [[errs|e] w']; [|done].
    apply for_acc_filter.
    + intros x s w0 Hx. unfold apply_entry.
      rewrite (proj2 (str_eqb_false _ _)); [done|].
      rewrite Hx. apply tag_copy_not_remove.
    + intros x s w0 Hx. unfold copy_element.
      by rewrite (proj2 (str_eqb_false _ _) Hx).
  - intros x s w0 Hx. unfold apply_entry.
    by rewrite (proj2 (str_eqb_true _ _) Hx).
  - intros x s w0 Hx. unfold remove_element.
    by rewrite (proj2 (str_eqb_false _ _) Hx).
Qed.

(** *** Known places *)

Lemma path_create_known env self place parameters :
  is_Some (dict_get (template_table self) place) ->
  exists p, path_create env self place parameters = Ok p.
Proof.
  intros [[[before takes] after] Hplace]. unfold path_create.
  rewrite path_struct_template, Hplace. by eexists.
Qed.

Lemma path_get_known env self place parameters :
  is_Some (dict_get (template_table self) place) ->
  exists p, path_get env self place parameters = Ok p.
Proof.
  intros Hplace. unfold path_get, valid_path.
  destruct (path_create_known env self place parameters Hplace) as [p ->].
  destruct (path_create_known env self (py "main") []) as [root ->].
  { by eexists. }
  simpl. by eexists.
Qed.

Lemma path_get_main env self parameters :
  exists p, path_get env self (py "main") parameters = Ok p.
Proof. apply path_get_known. by eexists. Qed.

(** *** What the clean-up leaves *)

Lemma rmtree_lookup env p w k x :
  fs (snd (shutil_rmtree_ignore_errors env p w)) !! k = Some x ->
  fs w !! k = Some x.
Proof.
  unfold shutil_rmtree_ignore_errors.
  destruct (fs_key env p) as [d|]; [|done].
  destruct (fs w !! d) as [[|c]|]; try done.
  simpl. intros H. by apply map_lookup_filter_Some in H as [H _].
Qed.

Lemma rmtree_never_raises env p w :
  fst (shutil_rmtree_ignore_errors env p w) = Ok tt.
Proof.
  unfold shutil_rmtree_ignore_errors.
  destruct (fs_key env p) as [d|]; [|done].
  by destruct (fs w !! d) as [[|c]|].
Qed.

Lemma rmtree_isfile env p w q :
  isfile env w q = false ->
  isfile env (snd (shutil_rmtree_ignore_errors env p w)) q = false.
Proof.
  unfold isfile, stat. destruct (fs_key env q) as [k|]; [|done].
  intros Hw.
  destruct (fs (snd (shutil_rmtree_ignore_errors env p w)) !! k)
    as [[|c]|] eqn:Hk; try done.
  apply rmtree_lookup in Hk. by rewrite Hk in Hw.
Qed.

Lemma os_remove_isfile env p w :
  isfile env (snd (os_remove env p w)) p = false.
Proof.
  unfold os_remove, isfile, stat.
  destruct (fs_key env p) as [k|]; [|done].
  destruct (fs w !! k) as [[|c]|] eqn:Hk; simpl.
  - by rewrite Hk.
  - by rewrite lookup_delete_eq.
  - by rewrite Hk.
Qed.

Lemma cleanup_isfile env self inbox temp w :
  path_get env self (py "zip install default file") [] = Ok inbox ->
  isfile env (snd (cleanup env self inbox temp w)) inbox = false.
Proof.
  intros Hinbox. unfold cleanup, bind, lift. rewrite Hinbox, str_eqb_refl.
  pose proof (os_remove_isfile env inbox w) as Hrm.
  destruct (os_remove env inbox w) as [[[]|e] w']; simpl in *; [|done].
  by apply rmtree_isfile.
Qed.

Lemma try_finally_world {A : Type} (body : M A) (final : M unit) w :
  snd (try_finally body final w) = snd (final (snd (body w))).
Proof.
  unfold try_finally. destruct (body w) as [r w']. simpl.
  by destruct (final w') as [[[]|e] w''].
Qed.

(** C9 (as amended). When the source is the default update zip path and
    the content check passes, with the main folder in place, then however
    the install ends (done, done with a report, or stopped by an exception
    that is caught) no regular file is left at that path; when the content
    check returns [False] the call returns at once and the file system is
    what it was once the scratch directory had been cleared, source file
    included. *)
Theorem inbox_is_consumed_once_the_check_passes env self w inbox main temp :
  path_get env self (py "zip install default file") [] = Ok inbox ->
  path_get env self (py "main") [Some []] = Ok main ->
  path_get env self (py "temp") [] = Ok temp ->
  let w1 := snd (shutil_rmtree_ignore_errors env temp w) in
  let r := update_data_from_zip env self [] w in
  (fst (zip_check_content env self inbox w1) = Ok true ->
   is_Some (stat env w1 main) ->
   isfile env (snd r) inbox = false)
  /\ (fst (zip_check_content env self inbox w1) = Ok false ->
      fst r = Ok None /\ fs (snd r) = fs w1).
Proof.
  intros Hinbox Hmain Htemp w1 r.
  assert (Hrun : r =
    (ok <- zip_check_content env self inbox ;;
     if negb ok then
       QMessageBox_warning (gettext env (py "Info"))
         (gettext env (py "Invalid data in zip file")) ;;
       ret None
     else
       ex <- os_path_exists env main ;;
       (if negb ex then os_makedirs env main else ret tt) ;;
       try_finally
         (try_except (install env self [] inbox temp) (install_failed env))
         (cleanup env self inbox temp)) w1).
  { unfold r, update_data_from_zip. rewrite str_eqb_refl.
    unfold bind at 1, lift at 1. rewrite Hmain.
    unfold bind at 1, lift at 1. rewrite Hinbox.
    unfold bind at 1, lift at 1. rewrite Htemp.
    unfold bind at 1. unfold w1.
    pose proof (rmtree_never_raises env temp w) as Hrm.
    destruct (shutil_rmtree_ignore_errors env temp w) as [o w'].
    simpl in Hrm. by subst o. }
  pose proof (zip_check_content_world env self inbox w1) as Hsame.
  destruct (zip_check_content env self inbox w1) as [ok w1'] eqn:Hcheck.
  simpl in Hsame. subst w1'. split.
  - simpl. intros -> Hexists. rewrite Hrun. unfold bind at 1. rewrite Hcheck.
    simpl. unfold bind at 1, os_path_exists at 1.
    rewrite bool_decide_eq_true_2 by done. simpl.
    unfold bind at 1, ret at 1.
    rewrite try_finally_world. by apply cleanup_isfile.
  - simpl. intros ->. rewrite Hrun.
    unfold bind, QMessageBox_warning, ret. rewrite Hcheck. by simpl.
Qed.

(** The amended C9 at work: an archive in the inbox that passes the
    check. *)
Lemma inbox_is_consumed_example :
  path_get example_env example_settings (py "zip install default file") []
  = Ok INBOX
  /\ path_get example_env example_settings (py "main") [Some []]
     = Ok (py "/home/u/mu_code/codeinpython_env")
  /\ path_get example_env example_settings (py "temp") [] = Ok TEMP
  /\ fst (zip_check_content example_env example_settings INBOX
            (snd (shutil_rmtree_ignore_errors example_env TEMP
                    (world_with INBOX archive_with_failures))))
     = Ok true
  /\ is_Some (stat example_env
                (snd (shutil_rmtree_ignore_errors example_env TEMP
                        (world_with INBOX archive_with_failures)))
                (py "/home/u/mu_code/codeinpython_env"))
  /\ isfile example_env
       (snd (update_data_from_zip example_env example_settings []
               (world_with INBOX archive_with_failures))) INBOX = false.
Proof.
  assert (H1 : path_get example_env example_settings
                 (py "zip install default file") [] = Ok INBOX)
    by (vm_compute; reflexivity).
  assert (H2 : path_get example_env example_settings (py "main") [Some []]
               = Ok (py "/home/u/mu_code/codeinpython_env"))
    by (vm_compute; reflexivity).
  assert (H3 : path_get example_env example_settings (py "temp") []
               = Ok TEMP)
    by (vm_compute; reflexivity).
  assert (H4 : fst (zip_check_content example_env example_settings INBOX
                      (snd (shutil_rmtree_ignore_errors example_env TEMP
                              (world_with INBOX archive_with_failures))))
               = Ok true)
    by (vm_compute; reflexivity).
  assert (H5 : is_Some (stat example_env
                (snd (shutil_rmtree_ignore_errors example_env TEMP
                        (world_with INBOX archive_with_failures)))
                (py "/home/u/mu_code/codeinpython_env")))
    by (eexists; vm_compute; reflexivity).
  refine (conj H1 (conj H2 (conj H3 (conj H4 (conj H5 _))))).
  exact (proj1 (inbox_is_consumed_once_the_check_passes
                  example_env example_settings
                  (world_with INBOX archive_with_failures) _ _ _ H1 H2 H3)
           H4 H5).
Defined.

(** ** Further properties of the installer *)

Lemma rmtree_isdir env p w :
  isdir env (snd (shutil_rmtree_ignore_errors env p w)) p = false.
Proof.
  unfold shutil_rmtree_ignore_errors, isdir, stat.
  destruct (fs_key env p) as [k|]; [|done].
  destruct (fs w !! k) as [[|c]|] eqn:Hk; simpl; rewrite ?Hk; try done.
  rewrite map_lookup_filter_None_2; [done|].
  right. intros x _. simpl. unfold under. by rewrite str_eqb_refl.
Qed.

Lemma cleanup_isdir env self zip_file_path temp_path w w' :
  cleanup env self zip_file_path temp_path w = (Ok tt, w') ->
  isdir env w' temp_path = false.
Proof.
  unfold cleanup, bind, lift.
  destruct (path_get env self (py "zip install default file") [])
    as [default|e]; [|done].
  destruct ((if str_eqb zip_file_path default
             then os_remove env zip_file_path else ret tt) w)
    as [[[]|e] w1]; [|done].
  pose proof (rmtree_isdir env temp_path w1) as Hdir.
  destruct (shutil_rmtree_ignore_errors env temp_path w1) as [o w2].
  simpl in Hdir. by intros [= -> ->].
Qed.

(** When [update_data_from_zip] returns, whatever it returns, no
    directory is left at the scratch path. *)
Theorem no_scratch_directory_when_the_update_returns env self source w
    temp v w' :
  path_get env self (py "temp") [] = Ok temp ->
  update_data_from_zip env self source w = (Ok v, w') ->
  isdir env w' temp = false.
Proof.
  intros Htemp. unfold update_data_from_zip.
  unfold bind at 1, lift at 1.
  destruct (path_get env self (py "main") [Some []]) as [main|e]; [|done].
  unfold bind at 1.
  destruct ((if str_eqb source []
             then lift (path_get env self (py "zip install default file") [])
             else ret (path_clean env source)) w) as [[zip|e] w0] eqn:Hzip;
    [|done].
  assert (w0 = w) as ->.
  { destruct (str_eqb source []); unfold lift, ret in Hzip;
      by simplify_eq. }
  unfold bind at 1, lift at 1. rewrite Htemp.
  unfold bind at 1.
  pose proof (rmtree_isdir env temp w) as Hdir.
  destruct (shutil_rmtree_ignore_errors env temp w) as [[[]|e] w1]; [|done].
  simpl in Hdir.
  unfold bind at 1.
  pose proof (zip_check_content_world env self zip w1) as Hsame.
  destruct (zip_check_content env self zip w1) as [[ok|e] w1']; [|done].
  simpl in Hsame. subst w1'.
  destruct ok; simpl.
  - unfold bind at 1, os_path_exists at 1.
    unfold bind at 1.
    destruct ((if negb (bool_decide (is_Some (stat env w1 main)))
               then os_makedirs env main else ret tt) w1)
      as [[[]|e] w2]; [|done].
    unfold try_finally.
    destruct (try_except (install env self [] zip temp) (install_failed env) w2)
      as [r w3].
    destruct (cleanup env self zip temp w3) as [[[]|e] w4] eqn:Hclean; [|done].
    intros [= -> ->]. by apply cleanup_isdir in Hclean.
  - unfold bind, QMessageBox_warning, ret. by intros [= <- <-].
Qed.

(** The property at work: the run on the archive with failing entries. *)
Lemma no_scratch_directory_example :
  path_get example_env example_settings (py "temp") [] = Ok TEMP
  /\ update_data_from_zip example_env example_settings []
       (world_with INBOX archive_with_failures)
     = (Ok (Some true),
        snd (update_data_from_zip example_env example_settings []
               (world_with INBOX archive_with_failures)))
  /\ isdir example_env
       (snd (update_data_from_zip example_env example_settings []
               (world_with INBOX archive_with_failures))) TEMP = false.
Proof.
  assert (H1 : path_get example_env example_settings (py "temp") [] = Ok TEMP)
    by (vm_compute; reflexivity).
  assert (H2 : update_data_from_zip example_env example_settings []
                 (world_with INBOX archive_with_failures)
               = (Ok (Some true),
                  snd (update_data_from_zip example_env example_settings []
                         (world_with INBOX archive_with_failures)))).
  { apply injective_projections; [by vm_compute|done]. }
  refine (conj H1 (conj H2 _)).
  exact (no_scratch_directory_when_the_update_returns
           example_env example_settings [] _ _ _ _ H1 H2).
Defined.

(** On a regular file that is not a zip container the content check does
    not return: the call of the unassigned local [_] raises. *)
Theorem zip_check_content_raises_on_a_plain_file env self input_path w src
    xml :
  checked_path env self input_path = Ok src ->
  stat env w src = Some (File (Data xml)) ->
  exists msg,
    zip_check_content env self input_path w
    = (Raise (Exn "UnboundLocalError" msg), w).
Proof.
  intros Hsrc Hstat. eexists.
  unfold zip_check_content, checked_path in *.
  destruct (negb (str_eqb input_path [])).
  - injection Hsrc as Hsrc. rewrite Hsrc.
    unfold bind at 1, ret at 1.
    unfold bind at 1, os_path_isfile at 1. rewrite Hstat. cbn [negb].
    unfold bind at 1, zipfile_is_zipfile at 1. rewrite Hstat. done.
  - rewrite Hsrc.
    unfold bind at 1, lift at 1.
    unfold bind at 1, os_path_isfile at 1. rewrite Hstat. cbn [negb].
    unfold bind at 1, zipfile_is_zipfile at 1. rewrite Hstat. done.
Qed.

(** The property at work: a text file in the inbox. *)
Lemma zip_check_content_raises_example :
  checked_path example_env example_settings [] = Ok INBOX
  /\ stat example_env (world_with INBOX (Data None)) INBOX
     = Some (File (Data None))
  /\ exists msg,
       zip_check_content example_env example_settings []
         (world_with INBOX (Data None))
       = (Raise (Exn "UnboundLocalError" msg), world_with INBOX (Data None)).
Proof.
  assert (H1 : checked_path example_env example_settings [] = Ok INBOX)
    by (vm_compute; reflexivity).
  assert (H2 : stat example_env (world_with INBOX (Data None)) INBOX
               = Some (File (Data None)))
    by (vm_compute; reflexivity).
  refine (conj H1 (conj H2 _)).
  exact (zip_check_content_raises_on_a_plain_file
           example_env example_settings [] _ _ _ H1 H2).
Defined.

(** With an absolute workspace, every path [__path_create] returns is
    absolute and is left as it is by [path_clean]. *)
Theorem resolved_paths_are_canonical env self place parameters p :
  isabs (SUBPATH_MU_CODE self) = true ->
  path_create env self place parameters = Ok p ->
  isabs p = true /\ path_clean env p = p.
Proof.
  intros Habs Hp.
  destruct (path_create_canonical env self place parameters p Habs Hp)
    as (comps & Hall & ->).
  split; [done|]. by apply path_clean_absolute.
Qed.

(** The property at work: the file of a student's lesson. *)
Lemma resolved_paths_are_canonical_example :
  isabs (SUBPATH_MU_CODE example_settings) = true
  /\ path_create example_env example_settings (py "student file")
       [Some (py "lesson 1")]
     = Ok (py "/home/u/mu_code/codeinpython_env/workspace/my_school/ann/lesson_1/lesson_1.py")
  /\ isabs (py "/home/u/mu_code/codeinpython_env/workspace/my_school/ann/lesson_1/lesson_1.py")
     = true
  /\ path_clean example_env
       (py "/home/u/mu_code/codeinpython_env/workspace/my_school/ann/lesson_1/lesson_1.py")
     = py "/home/u/mu_code/codeinpython_env/workspace/my_school/ann/lesson_1/lesson_1.py".
Proof.
  assert (H1 : isabs (SUBPATH_MU_CODE example_settings) = true)
    by reflexivity.
  assert (H2 : path_create example_env example_settings (py "student file")
                 [Some (py "lesson 1")]
               = Ok (py "/home/u/mu_code/codeinpython_env/workspace/my_school/ann/lesson_1/lesson_1.py"))
    by (vm_compute; reflexivity).
  refine (conj H1 (conj H2 _)).
  exact (resolved_paths_are_canonical example_env example_settings
           _ _ _ H1 H2).
Defined.

(** Without a manifest to read ([source] is no regular file, or its name
    does not end in [.zip]), [zip_get_version] answers [False] with the
    placeholder [----] in every field. *)
Theorem zip_get_version_placeholders env self source w :
  isfile env w source = false \/ snd (splitext source) <> py ".zip" ->
  zip_get_version env self source w
  = (Ok (false,
         {| release := Some (py "----"); date := Some (py "----");
            description := Some (py "----") |}), w).
Proof.
  unfold zip_get_version, isfile, bind, os_path_isfile.
  intros [Hfile|Hext].
  - by rewrite Hfile.
  - rewrite (proj2 (str_eqb_false _ _) Hext).
    by destruct (stat env w source) as [[|c]|].
Qed.

(** The property at work: the archive slot before any install. *)
Lemma zip_get_version_placeholders_example :
  (isfile example_env (world_with INBOX archive_with_failures)
     (py "/home/u/mu_code/codeinpython_env/archive/codeinpython_update.zip")
   = false
   \/ snd (splitext
            (py "/home/u/mu_code/codeinpython_env/archive/codeinpython_update.zip"))
      <> py ".zip")
  /\ zip_get_version example_env example_settings
       (py "/home/u/mu_code/codeinpython_env/archive/codeinpython_update.zip")
       (world_with INBOX archive_with_failures)
     = (Ok (false,
            {| release := Some (py "----"); date := Some (py "----");
               description := Some (py "----") |}),
        world_with INBOX archive_with_failures).
Proof.
  assert (H1 : isfile example_env (world_with INBOX archive_with_failures)
                 (py "/home/u/mu_code/codeinpython_env/archive/codeinpython_update.zip")
               = false
               \/ snd (splitext
                        (py "/home/u/mu_code/codeinpython_env/archive/codeinpython_update.zip"))
                  <> py ".zip")
    by (left; vm_compute; reflexivity).
  refine (conj H1 _).
  exact (zip_get_version_placeholders example_env example_settings _ _ H1).
Defined.

(** ** The theorems at work *)

(** The lookup on the two titles: all texts are there, so the result is
    their concatenation. *)
Lemma xml_get_with_lang_example :
  texts_of example_titles (py "title")
    (chosen_language (langs_of example_titles (py "title")) (Some (py "pl"))
       (py "en"))
  = map Some [CZESC]
  /\ xml_get_with_lang example_titles (py "title") (Some (py "pl")) (py "en")
       (py ", ")
     = Some (str_join (py ", ") [CZESC]).
Proof.
  assert (H1 : texts_of example_titles (py "title")
                 (chosen_language (langs_of example_titles (py "title"))
                    (Some (py "pl")) (py "en"))
               = map Some [CZESC]) by (vm_compute; reflexivity).
  refine (conj H1 _).
  exact (proj1 (proj2 (proj2 (xml_get_with_lang_picks_and_joins
                                example_titles (py "title") (Some (py "pl"))
                                (py "en") (py ", "))))
           [CZESC] H1).
Defined.

(** C10 on a student's file: the parameter that spells the pseudo-segment
    is sanitized, and the only pseudo-segment is the one of the template. *)
Lemma append_py_file_example :
  SUBPATH_MU_CODE example_settings <> APPEND_PY_FILE
  /\ subpath_class example_settings <> APPEND_PY_FILE
  /\ user_name example_settings <> APPEND_PY_FILE
  /\ dict_get
       (path_struct example_settings
          (map (clean_name example_env)
             (params_separate [Some (py "append py file")])))
       (py "student file")
     = Some [py "/home/u/mu_code"; py "codeinpython_env"; py "workspace";
             py "my_school"; py "ann"; py "append_py_file";
             py "append py file"]
  /\ filter is_append_py_file
       [py "/home/u/mu_code"; py "codeinpython_env"; py "workspace";
        py "my_school"; py "ann"; py "append_py_file"; py "append py file"]
     = (if str_eqb (py "student file") (py "student file")
           || str_eqb (py "student file") (py "student private file")
        then [APPEND_PY_FILE] else []).
Proof.
  assert (H1 : SUBPATH_MU_CODE example_settings <> APPEND_PY_FILE)
    by (by vm_compute).
  assert (H2 : subpath_class example_settings <> APPEND_PY_FILE)
    by (by vm_compute).
  assert (H3 : user_name example_settings <> APPEND_PY_FILE)
    by (by vm_compute).
  assert (H4 : dict_get
                 (path_struct example_settings
                    (map (clean_name example_env)
                       (params_separate [Some (py "append py file")])))
                 (py "student file")
               = Some [py "/home/u/mu_code"; py "codeinpython_env";
                       py "workspace"; py "my_school"; py "ann";
                       py "append_py_file"; py "append py file"])
    by (vm_compute; reflexivity).
  refine (conj H1 (conj H2 (conj H3 (conj H4 _)))).
  exact (proj2 (proj2 (proj2 (parameters_never_append_py_file
                                example_env example_settings
                                (py "student file")
                                [Some (py "append py file")])))
           H1 H2 H3 _ H4).
Defined.

(** * Further properties of the mode *)

(** ** Canonical paths in the file system *)

Lemma rfind_from_notin c s i found :
  c ∉ s -> rfind_from c s i found = found.
Proof.
  revert i found. induction s as [|d s IH]; intros i found Hc; [done|].
  simpl. rewrite (proj2 (N.eqb_neq d c)).
  - apply IH. intros H. apply Hc. by apply list_elem_of_further.
  - intros ->. apply Hc, list_elem_of_here.
Qed.

Lemma rfind_from_app c a b i found :
  rfind_from c (a ++ b) i found
  = rfind_from c b (i + len a) (rfind_from c a i found).
Proof.
  revert i found. induction a as [|d a IH]; intros i found.
  - simpl. unfold len. simpl. by rewrite Z.add_0_r.
  - simpl. rewrite IH. f_equal. unfold len. simpl length. lia.
Qed.

Lemma rfind_last_slash a b :
  SLASH ∉ b -> rfind SLASH (a ++ SLASH :: b) = len a.
Proof.
  intros Hb. unfold rfind. rewrite rfind_from_app. simpl.
  by rewrite rfind_from_notin.
Qed.

Lemma rfind_no_slash b : SLASH ∉ b -> rfind SLASH b = -1.
Proof. intros Hb. unfold rfind. by rewrite rfind_from_notin. Qed.

(** [os.path.split] at the last slash. *)
Lemma os_path_split_app a b :
  SLASH ∉ b ->
  os_path_split (a ++ SLASH :: b)
  = (if negb (str_eqb (a ++ [SLASH]) (repeat SLASH (length (a ++ [SLASH]))))
     then rstrip_char SLASH (a ++ [SLASH]) else a ++ [SLASH], b).
Proof.
  intros Hb. unfold os_path_split. rewrite rfind_last_slash by done.
  unfold slice_to, slice_from, len.
  replace (Z.to_nat (Z.of_nat (length a) + 1)) with (length (a ++ [SLASH]))
    by (rewrite length_app; simpl; lia).
  change (a ++ SLASH :: b) with (a ++ [SLASH] ++ b). rewrite app_assoc.
  rewrite take_app_length, drop_app_length.
  rewrite (proj2 (str_eqb_false (a ++ [SLASH]) [])); [done|].
  by destruct a.
Qed.

Lemma os_path_split_no_slash b :
  SLASH ∉ b -> os_path_split b = ([], b).
Proof.
  intros Hb. unfold os_path_split. rewrite rfind_no_slash by done. done.
Qed.

Lemma absolute_snoc pre c :
  pre <> [] -> absolute (pre ++ [c]) = absolute pre ++ SLASH :: c.
Proof. intros Hpre. unfold absolute. by rewrite join_snoc. Qed.

Lemma absolute_last pre :
  pre <> [] -> Forall clean_component pre ->
  exists u x, absolute pre = u ++ [x] /\ x <> SLASH.
Proof.
  intros Hne Hall. destruct (exists_last Hne) as (init & w & ->).
  apply Forall_app in Hall as [_ Hw]. apply Forall_inv in Hw.
  destruct (clean_component_last w Hw) as (t & x & -> & Hx).
  unfold absolute. destruct init as [|i init].
  - exists (SLASH :: t), x. done.
  - rewrite join_snoc by done.
    exists (SLASH :: str_join [SLASH] (i :: init) ++ [SLASH] ++ t), x.
    split; [|done]. simpl. by rewrite <- !app_assoc.
Qed.

Lemma os_path_split_absolute pre c :
  Forall clean_component pre -> SLASH ∉ c ->
  os_path_split (absolute (pre ++ [c])) = (absolute pre, c).
Proof.
  intros Hpre Hc. destruct (decide (pre = [])) as [->|Hne].
  - change (absolute ([] ++ [c])) with ([] ++ SLASH :: c).
    by rewrite os_path_split_app.
  - rewrite absolute_snoc by done. rewrite os_path_split_app by done.
    destruct (absolute_last pre Hne Hpre) as (u & x & Hu & Hx).
    rewrite Hu.
    rewrite (proj2 (str_eqb_false _ _)).
    + cbn [negb]. unfold rstrip_char. rewrite !rev_app_distr. simpl.
      rewrite (proj2 (N.eqb_neq x SLASH)) by done.
      simpl. by rewrite rev_involutive.
    + intros Heq.
      assert (Hin : x ∈ repeat SLASH (length ((u ++ [x]) ++ [SLASH]))).
      { rewrite <- Heq. apply elem_of_app. left. apply elem_of_app. right.
        apply list_elem_of_here. }
      apply list_elem_of_In, repeat_spec in Hin. done.
Qed.

Lemma dirname_absolute pre c :
  Forall clean_component pre -> SLASH ∉ c ->
  dirname (absolute (pre ++ [c])) = absolute pre.
Proof.
  intros Hpre Hc. unfold dirname. by rewrite os_path_split_absolute.
Qed.

Lemma abspath_absolute env comps :
  Forall clean_component comps -> abspath env (absolute comps) = absolute comps.
Proof.
  intros Hall. unfold abspath. rewrite isabs_absolute. cbn [negb].
  by apply normpath_absolute.
Qed.

Lemma fs_key_absolute env comps :
  Forall clean_component comps ->
  fs_key env (absolute comps) = Some (absolute comps).
Proof.
  intros Hall. unfold fs_key.
  rewrite (proj2 (str_eqb_false _ _)) by done.
  by rewrite abspath_absolute.
Qed.

Lemma stat_absolute env w comps :
  Forall clean_component comps ->
  stat env w (absolute comps) = fs w !! absolute comps.
Proof. intros Hall. unfold stat. by rewrite fs_key_absolute. Qed.

(** ** Places *)

Lemma absolute_prefix a b : startswith (absolute (a ++ b)) (absolute a) = true.
Proof.
  apply startswith_prefix. unfold absolute.
  destruct a as [|x a].
  - by exists (str_join [SLASH] b).
  - destruct b as [|y b].
    + exists []. by rewrite !app_nil_r.
    + rewrite str_join_app by done.
      exists ([SLASH] ++ str_join [SLASH] (y :: b)). done.
Qed.

Lemma assemble_workspace self ws :
  SUBPATH_MU_CODE self = absolute ws ->
  assemble_step [] (SUBPATH_MU_CODE self) = absolute ws.
Proof.
  intros ->. unfold assemble_step.
  by rewrite (proj2 (str_eqb_false _ _) (absolute_not_append_py_file ws)).
Qed.

(** A place whose template is the workspace, literal folders and the
    parameters: the resolved path has exactly those components. *)
Lemma path_create_place env self ws place before takes parameters ps :
  SUBPATH_MU_CODE self = absolute ws -> Forall clean_component ws ->
  dict_get (template_table self) place
  = Some (SUBPATH_MU_CODE self :: before, takes, []) ->
  (if takes : bool then map (clean_name env) (params_separate parameters)
   else []) = ps ->
  Forall clean_component (before ++ ps) ->
  Forall (fun c => c <> APPEND_PY_FILE) before ->
  path_create env self place parameters = Ok (absolute (ws ++ before ++ ps)).
Proof.
  intros HMU Hws Hplace Hps Hclean Happ. unfold path_create.
  rewrite path_struct_template, Hplace. cbv iota beta. rewrite Hps.
  rewrite app_nil_r. f_equal. cbn [app fold_left].
  rewrite (assemble_workspace self ws HMU).
  rewrite assemble_fold_plain.
  - apply path_clean_absolute. by apply Forall_app.
  - eapply Forall_impl; [exact Hws|]. apply clean_component_plain.
  - eapply Forall_impl; [exact Hclean|]. apply clean_component_plain.
  - apply Forall_app. split; [done|]. subst ps. destruct takes; [|done].
    apply Forall_forall. intros c Hc. apply list_elem_of_fmap in Hc as (s & -> & _).
    apply clean_name_not_append_py_file.
Qed.

Lemma path_create_main env self ws :
  SUBPATH_MU_CODE self = absolute ws -> Forall clean_component ws ->
  path_create env self (py "main") []
  = Ok (absolute (ws ++ [py "codeinpython_env"])).
Proof.
  intros HMU Hws.
  apply (path_create_place env self ws (py "main") [py "codeinpython_env"]
           true [] []); try done.
  - constructor; [apply main_folder_clean|done].
  - by constructor.
Qed.

(** The same for [path_get], when the first literal folder is the main
    folder. *)
Lemma path_get_place env self ws place before takes parameters ps :
  SUBPATH_MU_CODE self = absolute ws -> Forall clean_component ws ->
  dict_get (template_table self) place
  = Some (SUBPATH_MU_CODE self :: py "codeinpython_env" :: before, takes, []) ->
  (if takes : bool then map (clean_name env) (params_separate parameters)
   else []) = ps ->
  Forall clean_component (before ++ ps) ->
  Forall (fun c => c <> APPEND_PY_FILE) before ->
  path_get env self place parameters
  = Ok (absolute (ws ++ [py "codeinpython_env"] ++ before ++ ps)).
Proof.
  intros HMU Hws Hplace Hps Hclean Happ. unfold path_get, valid_path.
  rewrite (path_create_place env self ws place
             (py "codeinpython_env" :: before) takes parameters ps);
    try done.
  - rewrite (path_create_main env self ws) by done. cbn [outcome_bind].
    rewrite path_clean_absolute.
    + change (ws ++ (py "codeinpython_env" :: before) ++ ps)
        with (ws ++ [py "codeinpython_env"] ++ (before ++ ps)).
      rewrite app_assoc. by rewrite absolute_prefix.
    + apply Forall_app. split; [done|].
      constructor; [apply main_folder_clean|done].
  - constructor; [apply main_folder_clean|done].
  - by constructor.
Qed.

(** [path_get] answers for the places of the dictionary and for no
    other: an unknown place is a [ValueError]. *)
Theorem path_get_raises_on_an_unknown_place env self place parameters :
  (place ∈ map fst (path_struct self []) ->
   exists p, path_get env self place parameters = Ok p)
  /\ (place ∉ map fst (path_struct self []) ->
      path_get env self place parameters
      = Raise (Exn "ValueError"
                 (py "Can't find method to assembly path for command: "
                  ++ place))).
Proof.
  assert (Hdict : forall (d : list (list N * list (list N))) key,
            (key ∈ map fst d -> is_Some (dict_get d key))
            /\ (key ∉ map fst d -> dict_get d key = None)).
  { intros d key. induction d as [|[k v] d IH]; simpl.
    - split; [by intros H%elem_of_nil|done].
    - destruct (str_eqb k key) eqn:Hk.
      + apply str_eqb_true in Hk. subst k. split; [by eexists|].
        intros H. exfalso. apply H, list_elem_of_here.
      + apply str_eqb_false in Hk. split.
        * intros H%elem_of_cons. destruct H as [H|H]; [congruence|].
          by apply IH.
        * intros H. apply IH. intros H'. apply H. by apply list_elem_of_further. }
  split.
  - intros Hin. apply path_get_known.
    apply Hdict in Hin. rewrite path_struct_template in Hin.
    destruct (dict_get (template_table self) place) as [[[b t] a]|];
      [by eexists|by destruct Hin].
  - intros Hnot. apply Hdict in Hnot.
    assert (Hnone : dict_get (template_table self) place = None).
    { rewrite path_struct_template in Hnot.
      by destruct (dict_get (template_table self) place) as [[[b t] a]|]. }
    unfold path_get, path_create.
    rewrite path_struct_template, Hnone. done.
Qed.

(** Below the main folder [valid_path] says yes also without
    [allow_main]. *)
Lemma valid_path_below_main env self ws rest :
  SUBPATH_MU_CODE self = absolute ws -> Forall clean_component ws ->
  Forall clean_component rest -> rest <> [] ->
  valid_path env self (absolute (ws ++ [py "codeinpython_env"] ++ rest)) false
  = Ok true.
Proof.
  intros HMU Hws Hrest Hne. unfold valid_path.
  rewrite (path_create_main env self ws) by done. cbn [outcome_bind].
  assert (Hmain : Forall clean_component (ws ++ [py "codeinpython_env"])).
  { apply Forall_app. split; [done|].
    constructor; [apply main_folder_clean|done]. }
  rewrite path_clean_absolute
    by (rewrite app_assoc; by apply Forall_app).
  destruct (exists_last Hne) as (init & c & ->).
  apply Forall_app in Hrest as [Hinit Hc]. apply Forall_inv in Hc.
  replace (ws ++ [py "codeinpython_env"] ++ init ++ [c])
    with (((ws ++ [py "codeinpython_env"]) ++ init) ++ [c])
    by (by rewrite <- !app_assoc).
  rewrite os_path_split_absolute.
  - cbn [fst]. f_equal. apply absolute_prefix.
  - by apply Forall_app.
  - by apply clean_component_no_slash.
Qed.

(** With [allow_main=False] the main folder itself is refused and every
    canonical path below it is accepted; with [allow_main=True] the main
    folder is accepted as well. *)
Theorem valid_path_refuses_the_main_folder_itself env self ws rest :
  SUBPATH_MU_CODE self = absolute ws -> Forall clean_component ws ->
  Forall clean_component rest -> rest <> [] ->
  let main := absolute (ws ++ [py "codeinpython_env"]) in
  valid_path env self main false = Ok false
  /\ valid_path env self main true = Ok true
  /\ valid_path env self (absolute (ws ++ [py "codeinpython_env"] ++ rest)) false
     = Ok true
  /\ valid_path env self (absolute (ws ++ [py "codeinpython_env"] ++ rest)) true
     = Ok true.
Proof.
  intros HMU Hws Hrest Hne main.
  assert (Hmain : Forall clean_component (ws ++ [py "codeinpython_env"])).
  { apply Forall_app. split; [done|].
    constructor; [apply main_folder_clean|done]. }
  split; [|split; [|split]].
  - unfold valid_path, main.
    rewrite (path_create_main env self ws) by done. cbn [outcome_bind].
    rewrite path_clean_absolute by done.
    rewrite os_path_split_absolute
      by (try done; apply clean_component_no_slash, main_folder_clean).
    cbn [fst]. f_equal. by apply absolute_not_prefix.
  - unfold valid_path, main.
    rewrite (path_create_main env self ws) by done. cbn [outcome_bind].
    rewrite path_clean_absolute by done.
    f_equal. rewrite <- (app_nil_r (ws ++ [py "codeinpython_env"])) at 1.
    apply absolute_prefix.
  - by apply valid_path_below_main.
  - unfold valid_path.
    rewrite (path_create_main env self ws) by done. cbn [outcome_bind].
    rewrite path_clean_absolute by (rewrite app_assoc; by apply Forall_app).
    f_equal. rewrite app_assoc. apply absolute_prefix.
Qed.

(** ** The version of an archive *)

Lemma last_text_snoc name l x default :
  last_text name (l ++ [x]) default
  = if str_eqb (tag x) name then text x else last_text name l default.
Proof.
  unfold last_text. rewrite filter_app.
  destruct (str_eqb (tag x) name) eqn:Hx.
  - apply str_eqb_true in Hx.
    rewrite (filter_cons_True _ x []) by done.
    change (filter (fun e => tag e = name) []) with (@nil Element).
    by rewrite last_snoc.
  - apply str_eqb_false in Hx.
    rewrite (filter_cons_False _ x []) by done.
    change (filter (fun e => tag e = name) []) with (@nil Element).
    by rewrite app_nil_r.
Qed.

Lemma version_fold l r :
  fold_left version_step l r
  = {| release := last_text (py "release") l (release r);
       date := last_text (py "release_date") l (date r);
       description := description r |}.
Proof.
  induction l as [|x l IH] using rev_ind.
  - by destruct r.
  - rewrite fold_left_app. cbn [fold_left]. rewrite IH.
    rewrite !last_text_snoc. unfold version_step. cbn [release date description].
    destruct (str_eqb (tag x) (py "release")) eqn:H1;
      by destruct (str_eqb (tag x) (py "release_date")) eqn:H2.
Qed.

Lemma dict_get_elem_of {V : Type} (d : list (list N * V)) key v :
  dict_get d key = Some v -> key ∈ map fst d.
Proof.
  induction d as [|[k x] d IH]; simpl; [done|].
  destruct (str_eqb k key) eqn:Hk.
  - apply str_eqb_true in Hk. subst k. intros _. apply list_elem_of_here.
  - intros H. by apply list_elem_of_further, IH.
Qed.

Lemma getinfo_namelist zip_ref name c :
  getinfo zip_ref name = Ok c -> name ∈ namelist zip_ref.
Proof.
  unfold getinfo, namelist.
  destruct (dict_get (rev zip_ref) name) as [x|] eqn:Hget; [|done].
  intros _. apply dict_get_elem_of in Hget.
  rewrite map_rev in Hget.
  apply list_elem_of_In, List.in_rev. by apply list_elem_of_In.
Qed.

(** For an archive with a manifest, [zip_get_version] answers [True] with
    the text of the last [release] and of the last [release_date] child of
    the root (the placeholder where there is none) and the description in
    the language of the settings; a manifest that is not well-formed makes
    it raise. *)
Theorem zip_get_version_reads_the_last_release env self source w members
    config :
  stat env w source = Some (File (Zip members)) ->
  snd (splitext source) = py ".zip" ->
  getinfo members CONFIG_FILENAME = Ok config ->
  zip_get_version env self source w
  = match config with
    | Data (Some root) =>
        (Ok (true,
             {| release :=
                  last_text (py "release") (children root) (Some (py "----"));
                date :=
                  last_text (py "release_date") (children root)
                    (Some (py "----"));
                description :=
                  xml_get_with_lang root (py "description")
                    (Some (language self)) (py "en") [NEWLINE] |}), w)
    | _ => (Raise (Exn "ParseError" (py "not well-formed")), w)
    end.
Proof.
  intros Hstat Hext Hinfo. unfold zip_get_version.
  unfold bind at 1, os_path_isfile at 1. rewrite Hstat.
  rewrite Hext, str_eqb_refl.
  unfold bind at 1, zipfile_ZipFile at 1. rewrite Hstat.
  rewrite bool_decide_eq_true_2 by (by eapply getinfo_namelist).
  unfold bind at 1, lift at 1. rewrite Hinfo.
  unfold xml_get_version, ET_parse.
  destruct config as [[root|]|ms]; try done.
  unfold bind, ret. by rewrite version_fold.
Qed.

(** ** shutil.copy2 *)

(** [shutil.copy2] of a regular file to a canonical path in a directory
    that is there. *)
Lemma shutil_copy2_canonical env w src pre c content :
  Forall clean_component (pre ++ [c]) ->
  stat env w src = Some (File content) ->
  fs w !! absolute pre = Some Dir ->
  fs w !! absolute (pre ++ [c]) <> Some Dir ->
  fs_key env src <> Some (absolute (pre ++ [c])) ->
  shutil_copy2 env src (absolute (pre ++ [c])) w
  = (Ok tt, with_fs w (<[absolute (pre ++ [c]) := File content]> (fs w))).
Proof.
  intros Hall Hsrc Hparent Hdest Hdiff.
  pose proof Hall as Hall'.
  apply Forall_app in Hall' as [Hpre Hc]. apply Forall_inv in Hc.
  unfold shutil_copy2.
  unfold bind at 1, os_path_isdir at 1. rewrite stat_absolute by done.
  destruct (fs w !! absolute (pre ++ [c])) as [[|old]|] eqn:Hd; try done.
  - rewrite Hsrc.
    rewrite (bool_decide_eq_false_2 (fs_key env src = _))
      by (by rewrite fs_key_absolute).
    rewrite andb_false_r.
    unfold bind at 1, read_file at 1. rewrite Hsrc.
    unfold write_file. rewrite fs_key_absolute by done. by rewrite Hd.
  - rewrite Hsrc, stat_absolute, Hd by done.
    rewrite (bool_decide_eq_false_2 (is_Some None)) by (by intros [? ?]).
    rewrite andb_false_r. cbn [andb].
    unfold bind at 1, read_file at 1. rewrite Hsrc.
    unfold write_file. rewrite fs_key_absolute by done. rewrite Hd.
    unfold parent_error.
    rewrite dirname_absolute by (try done; by apply clean_component_no_slash).
    by rewrite Hparent.
Qed.

(** ** Creating directories and copying files *)

Lemma with_fs_same w : with_fs w (fs w) = w.
Proof. by destruct w. Qed.

Lemma os_mkdir_new env w pre c :
  Forall clean_component (pre ++ [c]) ->
  fs w !! absolute pre = Some Dir ->
  fs w !! absolute (pre ++ [c]) = None ->
  os_mkdir env (absolute (pre ++ [c])) w
  = (Ok tt, with_fs w (<[absolute (pre ++ [c]) := Dir]> (fs w))).
Proof.
  intros Hall Hparent Hnew. unfold os_mkdir.
  rewrite fs_key_absolute by done. rewrite Hnew.
  unfold parent_error.
  apply Forall_app in Hall as [Hpre Hc]. apply Forall_inv in Hc.
  rewrite dirname_absolute by (try done; by apply clean_component_no_slash).
  by rewrite Hparent.
Qed.

(** [os.makedirs] of a new entry in a directory that is there. *)
Lemma os_makedirs_new env w pre c :
  recursion_limit env <> 0%nat ->
  Forall clean_component (pre ++ [c]) ->
  fs w !! absolute pre = Some Dir ->
  fs w !! absolute (pre ++ [c]) = None ->
  os_makedirs env (absolute (pre ++ [c])) w
  = (Ok tt, with_fs w (<[absolute (pre ++ [c]) := Dir]> (fs w))).
Proof.
  intros Hfuel Hall Hparent Hnew. unfold os_makedirs.
  destruct (recursion_limit env) as [|fuel]; [done|].
  pose proof Hall as Hall'.
  apply Forall_app in Hall' as [Hpre Hc]. apply Forall_inv in Hc.
  cbn [makedirs_rec].
  rewrite os_path_split_absolute
    by (try done; by apply clean_component_no_slash).
  destruct Hc as (Hne & _).
  rewrite (proj2 (str_eqb_false c []) Hne).
  rewrite (proj2 (str_eqb_false (absolute pre) [])) by done.
  cbn [negb andb].
  rewrite ?(proj2 (str_eqb_false c []) Hne). cbn [negb andb].
  unfold bind at 1, os_path_exists at 1.
  rewrite stat_absolute by done. rewrite Hparent.
  rewrite bool_decide_eq_true_2 by done. cbn [negb].
  by apply os_mkdir_new.
Qed.

(** The step of the loops that make sure of a folder. *)
Lemma ensure_directory env w pre c :
  recursion_limit env <> 0%nat ->
  Forall clean_component (pre ++ [c]) ->
  fs w !! absolute pre = Some Dir ->
  (forall content, fs w !! absolute (pre ++ [c]) <> Some (File content)) ->
  (d <- os_path_isdir env (absolute (pre ++ [c])) ;;
   if negb d then os_makedirs env (absolute (pre ++ [c])) else ret tt) w
  = (Ok tt, with_fs w (<[absolute (pre ++ [c]) := Dir]> (fs w))).
Proof.
  intros Hfuel Hall Hparent Hfile.
  unfold bind at 1, os_path_isdir at 1. rewrite stat_absolute by done.
  destruct (fs w !! absolute (pre ++ [c])) as [[|content]|] eqn:Hp.
  - cbn [negb]. unfold ret. rewrite insert_id by done.
    by rewrite with_fs_same.
  - by destruct (Hfile content).
  - cbn [negb]. by apply os_makedirs_new.
Qed.

(** A regular file is copied to a canonical path in a directory that is
    there: the destination then holds the content of the source, and
    nothing else changes. *)
Theorem recursive_overwrite_copies_a_file env w src pre c content :
  recursion_limit env <> 0%nat ->
  Forall clean_component (pre ++ [c]) ->
  stat env w src = Some (File content) ->
  isdir env w (absolute pre) = true ->
  isdir env w (absolute (pre ++ [c])) = false ->
  fs_key env src <> Some (absolute (pre ++ [c])) ->
  recursive_overwrite env src (absolute (pre ++ [c])) w
  = (Ok tt, with_fs w (<[absolute (pre ++ [c]) := File content]> (fs w))).
Proof.
  intros Hfuel Hall Hsrc Hparent Hdest Hdiff. unfold recursive_overwrite.
  destruct (recursion_limit env) as [|fuel]; [done|].
  pose proof Hall as Hall'.
  apply Forall_app in Hall' as [Hpre Hc]. apply Forall_inv in Hc.
  unfold isdir in Hparent, Hdest.
  rewrite stat_absolute in Hparent, Hdest by done.
  cbn [recursive_overwrite_rec].
  unfold bind at 1, os_path_isdir at 1. rewrite Hsrc.
  unfold try_except.
  unfold bind at 1, os_path_isdir at 1.
  rewrite dirname_absolute by (try done; by apply clean_component_no_slash).
  rewrite stat_absolute by done.
  destruct (fs w !! absolute pre) as [[|?]|] eqn:Hp; try done.
  cbn [negb]. unfold bind at 1, ret at 1.
  rewrite (shutil_copy2_canonical env w src pre c content); try done.
  intros Hd. by rewrite Hd in Hdest.
Qed.

(** Copying a regular file onto itself does not return: the handler of
    [SameFileError] calls [str.replace] with one argument. *)
Theorem recursive_overwrite_onto_itself_raises env w src dest content :
  recursion_limit env <> 0%nat ->
  stat env w src = Some (File content) ->
  fs_key env dest = fs_key env src ->
  isdir env w (dirname dest) = true ->
  recursive_overwrite env src dest w
  = (Raise (Exn "TypeError"
              (py "replace expected at least 2 arguments, got 1")), w).
Proof.
  intros Hfuel Hsrc Hkey Hparent. unfold recursive_overwrite.
  destruct (recursion_limit env) as [|fuel]; [done|].
  assert (Hdest : stat env w dest = Some (File content)).
  { unfold stat in *. by rewrite Hkey. }
  unfold isdir in Hparent.
  cbn [recursive_overwrite_rec].
  unfold bind at 1, os_path_isdir at 1. rewrite Hsrc.
  unfold try_except.
  unfold bind at 1, os_path_isdir at 1.
  destruct (stat env w (dirname dest)) as [[|?]|] eqn:Hp; try done.
  cbn [negb]. unfold bind at 1, ret at 1.
  unfold shutil_copy2.
  unfold bind at 1, os_path_isdir at 1. rewrite Hdest.
  rewrite Hsrc, Hdest, Hkey.
  rewrite !bool_decide_eq_true_2 by done. done.
Qed.

(** ** The folders of an installation *)

Lemma lookup_insert_dir (m : gmap (list N) node) p k :
  m !! k = Some Dir -> <[p := Dir]> m !! k = Some Dir.
Proof.
  intros Hk. destruct (decide (p = k)) as [->|Hne].
  - by rewrite lookup_insert_eq.
  - by rewrite lookup_insert_ne.
Qed.

Lemma lookup_insert_dir_not_file (m : gmap (list N) node) p k :
  (forall content, m !! k <> Some (File content)) ->
  forall content, <[p := Dir]> m !! k <> Some (File content).
Proof.
  intros Hk content. destruct (decide (p = k)) as [->|Hne].
  - by rewrite lookup_insert_eq.
  - rewrite lookup_insert_ne by done. apply Hk.
Qed.

Lemma clean_literal (s : list N) :
  bool_decide (s <> [] /\ s <> curdir /\ s <> pardir /\ SLASH ∉ s) = true ->
  clean_component s.
Proof. intros H. by apply bool_decide_eq_true in H. Qed.

(** The paths of the eight places. *)
Lemma path_get_required env self ws place sub :
  SUBPATH_MU_CODE self = absolute ws -> Forall clean_component ws ->
  (place, sub) ∈
    [ (py "main", []); (py "workspace", [py "workspace"]);
      (py "libraries", [py "code_lib"]); (py "examples", [py "examples"]);
      (py "custom examples", [py "custom_examples"]);
      (py "firmware", [py "firmware"]); (py "zip_archive", [py "archive"]);
      (py "mu_modules", [py "mu_modules"]) ] ->
  path_get env self place [] = Ok (absolute (ws ++ py "codeinpython_env" :: sub))
  /\ Forall clean_component sub.
Proof.
  intros HMU Hws Hin.
  repeat (apply elem_of_cons in Hin as [Hin|Hin];
          [injection Hin as -> ->; split;
           [ match goal with
             | |- path_get _ _ ?pl [] = Ok (absolute (_ ++ _ :: ?s)) =>
                 refine (path_get_place env self ws pl s true [] [] HMU Hws
                           eq_refl eq_refl _ _)
             end;
             repeat constructor; try done; by apply clean_literal
           | repeat constructor; by apply clean_literal ] | ]).
  by apply elem_of_nil in Hin.
Qed.

(** The loop over places that all lie in one directory that is there. *)
Lemma folders_below env self pre (l : list (list N * list N)) w :
  recursion_limit env <> 0%nat ->
  Forall clean_component pre ->
  (forall place c, (place, c) ∈ l ->
     path_get env self place [] = Ok (absolute (pre ++ [c]))
     /\ clean_component c) ->
  fs w !! absolute pre = Some Dir ->
  (forall place c content, (place, c) ∈ l ->
     fs w !! absolute (pre ++ [c]) <> Some (File content)) ->
  for_each (map fst l)
    (fun element =>
       check_path <- lift (path_get env self element []) ;;
       d <- os_path_isdir env check_path ;;
       if negb d then os_makedirs env check_path else ret tt) w
  = (Ok tt,
     with_fs w (fold_left (fun m p => <[p := Dir]> m)
                  (map (fun pc => absolute (pre ++ [snd pc])) l) (fs w))).
Proof.
  intros Hfuel Hpre. revert w.
  induction l as [|[place c] l IH]; intros w Hpaths Hparent Hfiles.
  - simpl. unfold ret. by rewrite with_fs_same.
  - destruct (Hpaths place c) as [Hp Hc]; [apply list_elem_of_here|].
    assert (Hall : Forall clean_component (pre ++ [c])).
    { apply Forall_app. split; [done|by constructor]. }
    cbn [map fst snd for_each fold_left].
    unfold bind at 1. unfold bind at 1, lift at 1. rewrite Hp.
    rewrite ensure_directory; try done.
    + rewrite IH.
      * done.
      * intros place' c' Hin. apply Hpaths. by apply list_elem_of_further.
      * by apply lookup_insert_dir.
      * intros place' c' content Hin. apply lookup_insert_dir_not_file.
        intros content'. eapply Hfiles. by apply list_elem_of_further.
    + intros content. eapply Hfiles. apply list_elem_of_here.
Qed.

(** In a workspace that is there, with no regular file in the way, the
    loop of [initial_preparation] returns and leaves a directory at every
    one of the eight folders, and nothing else is changed. *)
Theorem initial_preparation_creates_the_folders env self ws w :
  SUBPATH_MU_CODE self = absolute ws -> Forall clean_component ws ->
  recursion_limit env <> 0%nat ->
  isdir env w (absolute ws) = true ->
  Forall (fun p => isfile env w p = false) (required_folder_paths ws) ->
  initial_preparation_folders env self w
  = (Ok tt,
     with_fs w (fold_left (fun m p => <[p := Dir]> m)
                  (required_folder_paths ws) (fs w))).
Proof.
  intros HMU Hws Hfuel Hdir Hfiles.
  set (main := ws ++ [py "codeinpython_env"]).
  assert (Hmain : Forall clean_component main).
  { apply Forall_app. split; [done|].
    constructor; [apply main_folder_clean|done]. }
  set (below := [ (py "workspace", py "workspace");
                  (py "libraries", py "code_lib");
                  (py "examples", py "examples");
                  (py "custom examples", py "custom_examples");
                  (py "firmware", py "firmware");
                  (py "zip_archive", py "archive");
                  (py "mu_modules", py "mu_modules") ]).
  assert (Hpaths : required_folder_paths ws
                   = absolute main
                     :: map (fun pc => absolute (main ++ [snd pc])) below).
  { unfold required_folder_paths, main, below. cbn [map snd].
    by rewrite <- !app_assoc. }
  assert (Hnofile : forall p content,
            p ∈ required_folder_paths ws -> fs w !! p <> Some (File content)).
  { intros p content Hin Hp.
    rewrite Forall_forall in Hfiles. specialize (Hfiles p Hin).
    assert (Hclean : exists comps,
              Forall clean_component comps /\ p = absolute comps).
    { rewrite Hpaths in Hin. apply elem_of_cons in Hin as [->|Hin].
      - by exists main.
      - apply list_elem_of_fmap in Hin as ([place c] & -> & Hin).
        exists (main ++ [c]). split; [|done].
        apply Forall_app. split; [done|]. constructor; [|done].
        unfold below in Hin.
        repeat (apply elem_of_cons in Hin as [Hin|Hin];
                [injection Hin as -> ->; by apply clean_literal|]).
        by apply elem_of_nil in Hin. }
    destruct Hclean as (comps & Hcomps & ->).
    unfold isfile in Hfiles. rewrite stat_absolute in Hfiles by done.
    by rewrite Hp in Hfiles. }
  unfold isdir in Hdir. rewrite stat_absolute in Hdir by done.
  destruct (fs w !! absolute ws) as [[|?]|] eqn:Hws_dir; try done.
  rewrite Hpaths. unfold initial_preparation_folders, required_folders.
  change ([py "main"; py "workspace"; py "libraries"; py "examples";
           py "custom examples"; py "firmware"; py "zip_archive";
           py "mu_modules"])
    with (py "main" :: map fst below).
  cbn [for_each fold_left].
  unfold bind at 1. unfold bind at 1, lift at 1.
  destruct (path_get_required env self ws (py "main") [] HMU Hws) as [Hp _].
  { apply list_elem_of_here. }
  rewrite Hp.
  rewrite (ensure_directory env w ws (py "codeinpython_env")); try done.
  - rewrite (folders_below env self main below); try done.
    + intros place c Hin.
      assert (Hreq : path_get env self place []
                     = Ok (absolute (ws ++ py "codeinpython_env" :: [c]))
                     /\ Forall clean_component [c]).
      { apply path_get_required; [done|done|].
        apply list_elem_of_further. unfold below in Hin.
        repeat (apply elem_of_cons in Hin as [Hin|Hin];
                [injection Hin as -> ->;
                 apply (bool_decide_unpack _); by vm_compute|]).
        by apply elem_of_nil in Hin. }
      destruct Hreq as [Hget Hc]. split; [|by apply Forall_inv in Hc].
      rewrite Hget. unfold main. by rewrite <- app_assoc.
    + simpl. by rewrite lookup_insert_eq.
    + intros place c content Hin. apply lookup_insert_dir_not_file.
      intros content'. apply Hnofile. rewrite Hpaths.
      apply list_elem_of_further, list_elem_of_fmap. by exists (place, c).
  - intros content. apply Hnofile. rewrite Hpaths. apply list_elem_of_here.
Qed.

(** ** Checking an example *)

Lemma last_slash_decompose p :
  SLASH ∈ p -> exists a b, p = a ++ SLASH :: b /\ SLASH ∉ b.
Proof.
  induction p as [|x q IH] using rev_ind; [by intros H%elem_of_nil|].
  intros Hin. destruct (decide (x = SLASH)) as [->|Hx].
  - exists q, []. split; [done|]. apply not_elem_of_nil.
  - apply elem_of_app in Hin as [Hin|Hin].
    + destruct (IH Hin) as (a & b & -> & Hb).
      exists a, (b ++ [x]). split; [by rewrite <- app_assoc|].
      intros H%elem_of_app. destruct H as [H|H]; [done|].
      apply list_elem_of_singleton in H. congruence.
    + apply list_elem_of_singleton in Hin. congruence.
Qed.

(** The second part of [os.path.split] holds no slash. *)
Lemma os_path_split_tail p : SLASH ∉ snd (os_path_split p).
Proof.
  destruct (decide (SLASH ∈ p)) as [Hin|Hnot].
  - destruct (last_slash_decompose p Hin) as (a & b & -> & Hb).
    by rewrite os_path_split_app.
  - by rewrite os_path_split_no_slash.
Qed.

Lemma example_check_correctness_world env self dir w :
  snd (example_check_correctness env self dir w) = w.
Proof.
  unfold example_check_correctness.
  unfold bind at 1, os_path_isdir at 1.
  destruct (match stat env w dir with Some Dir => true | _ => false end);
    [|done].
  unfold bind at 1, os_path_exists at 1.
  destruct (bool_decide (is_Some (stat env w (os_path_join dir [EXAMPLE_DESC_FILENAME])))).
  - unfold bind at 1. unfold bind at 1, read_file at 1.
    destruct (stat env w (os_path_join dir [EXAMPLE_DESC_FILENAME]))
      as [[|content]|]; try done.
    unfold try_except, ET_parse.
    destruct content as [[root|]|members]; unfold bind, ret, raise, os_path_exists;
      simpl; repeat case_match; done.
  - unfold bind, ret, os_path_exists; simpl; repeat case_match; done.
Qed.

(** Whatever the description says, the start file [example_check_correctness]
    answers with lies directly in the folder of the example: its name holds
    no slash.  The answer is [True] only if there is something at that path,
    and nothing is changed. *)
Theorem example_start_file_is_in_the_folder env self dir w ok full_dir w' :
  example_check_correctness env self dir w = (Ok (Some (ok, full_dir)), w') ->
  w' = w
  /\ exists name,
       (SLASH ∉ name) /\ full_dir = os_path_join dir [name]
       /\ (ok = true -> is_Some (stat env w full_dir)).
Proof.
  intros Hrun.
  pose proof (example_check_correctness_world env self dir w) as Hw.
  rewrite Hrun in Hw. simpl in Hw. subst w'. split; [done|].
  revert Hrun. unfold example_check_correctness.
  unfold bind at 1, os_path_isdir at 1.
  destruct (match stat env w dir with Some Dir => true | _ => false end);
    [|done].
  unfold bind at 1, os_path_exists at 1.
  unfold bind at 1.
  match goal with
  | |- context [match ?f w with _ => _ end] =>
      destruct (f w) as [[[locked start_file]|e] w1]
  end; [|done].
  cbn [fst snd].
  set (name := snd (os_path_split
                      match start_file with
                      | Some s => s
                      | None => snd (os_path_split dir) ++ py ".py"
                      end)).
  intros Hrun. exists name. split; [apply os_path_split_tail|].
  destruct locked.
  - unfold ret in Hrun. by injection Hrun as <- <- _.
  - unfold bind, os_path_exists, ret in Hrun.
    destruct (bool_decide (is_Some (stat env w1 (os_path_join dir [name]))))
      eqn:Hex; cbn [negb] in Hrun; injection Hrun as <- <- ->.
    + split; [done|]. intros _. by apply bool_decide_eq_true in Hex.
    + done.
Qed.

(** The edge cases of the description of an example in a folder that is
    there.  Without a description the start file is the folder's name with
    [.py], and the answer tells whether it exists; a description that cannot
    be parsed makes the answer [False] for that same file; a description
    that is a directory makes [open] raise, outside the [try]. *)
Theorem example_description_edge_cases env self dir w :
  isdir env w dir = true ->
  let desc_file := os_path_join dir [EXAMPLE_DESC_FILENAME] in
  let start := os_path_join dir [snd (os_path_split dir) ++ py ".py"] in
  (stat env w desc_file = None ->
   example_check_correctness env self dir w
   = (Ok (Some (bool_decide (is_Some (stat env w start)), start)), w))
  /\ (forall content,
        stat env w desc_file = Some (File content) ->
        (forall root, content <> Data (Some root)) ->
        example_check_correctness env self dir w
        = (Ok (Some (false, start)), w))
  /\ (stat env w desc_file = Some Dir ->
      example_check_correctness env self dir w
      = (Raise (IsADirectoryError desc_file), w)).
Proof.
  intros Hdir desc_file start. unfold isdir in Hdir.
  assert (Hname : snd (os_path_split (snd (os_path_split dir) ++ py ".py"))
                  = snd (os_path_split dir) ++ py ".py").
  { rewrite os_path_split_no_slash; [done|].
    intros H%elem_of_app. destruct H as [H|H].
    - by apply os_path_split_tail in H.
    - revert H. apply (bool_decide_unpack _). by vm_compute. }
  destruct (stat env w dir) as [[|?]|] eqn:Hstat; try done.
  repeat split.
  - intros Hdesc. unfold example_check_correctness.
    unfold bind at 1, os_path_isdir at 1. rewrite Hstat.
    unfold bind at 1, os_path_exists at 1. fold desc_file. rewrite Hdesc.
    rewrite bool_decide_eq_false_2 by (by intros [? ?]).
    unfold bind at 1, ret at 1. cbn [fst snd]. rewrite Hname. fold start.
    unfold bind, os_path_exists, ret.
    by destruct (bool_decide (is_Some (stat env w start))).
  - intros content Hdesc Hbroken. unfold example_check_correctness.
    unfold bind at 1, os_path_isdir at 1. rewrite Hstat.
    unfold bind at 1, os_path_exists at 1. fold desc_file. rewrite Hdesc.
    rewrite bool_decide_eq_true_2 by done.
    unfold bind at 1. unfold bind at 1, read_file at 1. rewrite Hdesc.
    unfold try_except, ET_parse.
    destruct content as [[root|]|members]; [by destruct (Hbroken root)| |];
      unfold bind at 1, raise at 1, ret at 1; cbn [fst snd];
      by rewrite Hname.
  - intros Hdesc. unfold example_check_correctness.
    unfold bind at 1, os_path_isdir at 1. rewrite Hstat.
    unfold bind at 1, os_path_exists at 1. fold desc_file. rewrite Hdesc.
    rewrite bool_decide_eq_true_2 by done.
    unfold bind at 1. unfold bind at 1, read_file at 1. by rewrite Hdesc.
Qed.

(** ** The update dialog *)

Lemma zip_get_version_world env self source w :
  snd (zip_get_version env self source w) = w.
Proof.
  unfold zip_get_version, xml_get_version, ET_parse, zipfile_ZipFile,
    os_path_isfile, bind, ret, lift, raise.
  repeat (case_match; simplify_eq/=); done.
Qed.

(** The content check is the check of the path it works out. *)
Lemma zip_check_content_checked_path env self a b w :
  checked_path env self a = checked_path env self b ->
  zip_check_content env self a w = zip_check_content env self b w.
Proof.
  unfold zip_check_content, checked_path. intros Heq.
  assert (Hsrc : forall x,
            (if negb (str_eqb x []) then ret (path_clean env x)
             else lift (path_get env self (py "zip install default file") []))
            = lift (if negb (str_eqb x []) then Ok (path_clean env x)
                    else path_get env self (py "zip install default file") [])).
  { intros x. by destruct (negb (str_eqb x [])). }
  by rewrite !Hsrc, Heq.
Qed.

(** A check that passes has read a version. *)
Lemma zip_check_content_version env self input_path src w :
  checked_path env self input_path = Ok src ->
  fst (zip_check_content env self input_path w) = Ok true ->
  isfile env w src = true
  /\ exists v, zip_get_version env self src w = (Ok (true, v), w).
Proof.
  unfold zip_check_content, checked_path. intros Hsrc.
  assert (Hrun :
    (if negb (str_eqb input_path []) then ret (path_clean env input_path)
     else lift (path_get env self (py "zip install default file") []))
    = lift (Ok src)).
  { destruct (negb (str_eqb input_path [])); by rewrite ?Hsrc; simplify_eq. }
  rewrite Hrun. unfold bind at 1, lift at 1.
  unfold bind at 1, os_path_isfile at 1. unfold isfile.
  destruct (match stat env w src with Some (File _) => true | _ => false end);
    [|done].
  cbn [negb]. unfold bind at 1, zipfile_is_zipfile at 1.
  destruct (match stat env w src with
            | Some (File (Zip _)) => true | _ => false end); [|done].
  unfold bind at 1.
  pose proof (zip_get_version_world env self src w) as Hw.
  destruct (zip_get_version env self src w) as [[[valid v]|e] w1]; [|done].
  simpl in Hw. subst w1. destruct valid; [|done].
  intros _. split; [done|]. by exists v.
Qed.

(** [show_comparision_of_zip_files] never touches the file system.  When
    the content check fails it shows the warning and answers [False]; it
    answers [True] only after a check that passed and a question the user
    answered with Yes, and then no warning has been shown. *)
Theorem show_comparision_asks_before_it_agrees env self pressed_yes source w
    source_path :
  (if str_eqb source []
   then path_get env self (py "zip install default file") []
   else Ok (path_clean env source)) = Ok source_path ->
  let r := show_comparision_of_zip_files env self pressed_yes source w in
  fs (snd r) = fs w
  /\ (fst (zip_check_content env self source_path w) = Ok false ->
      r = (Ok false,
           {| fs := fs w;
              shown := shown w
                ++ [(gettext env (py "Error"),
                     py "This is not proper archive from CodeInPython")] |}))
  /\ (fst r = Ok true ->
      fst (zip_check_content env self source_path w) = Ok true
      /\ snd r = w
      /\ exists text, pressed_yes (gettext env (py "Question")) text = true).
Proof.
  intros Hsource r.
  assert (Hrun : r =
    (ok <- zip_check_content env self source_path ;;
     if ok then
       new <- zip_get_version env self source_path ;;
       archive_file_path <-
         lift (path_get env self (py "zip archive file") []) ;;
       present <- zip_get_version env self archive_file_path ;;
       if fst new then
         let label_text :=
           gettext env (comparision_text (snd present) (snd new)) in
         question <-
           QMessageBox_question pressed_yes (gettext env (py "Question"))
             label_text ;;
         if question then ret true else ret false
       else ret false
     else
       QMessageBox_warning (gettext env (py "Error"))
         (py "This is not proper archive from CodeInPython") ;;
       ret false) w).
  { unfold r, show_comparision_of_zip_files.
    destruct (str_eqb source []).
    - unfold bind at 1, lift at 1. by rewrite Hsource.
    - unfold bind at 1, ret at 1. by injection Hsource as ->. }
  clearbody r. cbn [fst snd].
  unfold bind at 1 in Hrun.
  pose proof (zip_check_content_world env self source_path w) as Hw.
  destruct (zip_check_content env self source_path w) as [[ok|e] w1];
    simpl in Hw; subst w1; [|by subst r].
  cbn [fst].
  destruct ok.
  - unfold bind at 1 in Hrun.
    pose proof (zip_get_version_world env self source_path w) as Hw.
    destruct (zip_get_version env self source_path w) as [[new|e] w1];
      simpl in Hw; subst w1; [|by subst r].
    unfold bind at 1, lift at 1 in Hrun.
    destruct (path_get env self (py "zip archive file") []) as [archive|e];
      [|by subst r].
    unfold bind at 1 in Hrun.
    pose proof (zip_get_version_world env self archive w) as Hw.
    destruct (zip_get_version env self archive w) as [[present|e] w1];
      simpl in Hw; subst w1; [|by subst r].
    destruct (fst new); [|by subst r].
    unfold bind, QMessageBox_question, ret in Hrun. cbv zeta in Hrun.
    destruct (pressed_yes (gettext env (py "Question"))
                (gettext env (comparision_text (snd present) (snd new))))
      eqn:Hyes; [|by subst r].
    subst r. repeat split; try done. by eexists.
  - unfold bind, QMessageBox_warning, ret in Hrun. by subst r.
Qed.

(** ** The update found in the default place *)

Lemma zip_literal_clean : clean_component ZIP_FILENAME.
Proof. by apply clean_literal. Qed.

Lemma archive_literal_clean : clean_component (py "archive").
Proof. by apply clean_literal. Qed.

Lemma path_get_inbox env self ws :
  SUBPATH_MU_CODE self = absolute ws -> Forall clean_component ws ->
  path_get env self (py "zip install default file") []
  = Ok (absolute (ws ++ [py "codeinpython_env"; ZIP_FILENAME])).
Proof.
  intros HMU Hws.
  refine (path_get_place env self ws (py "zip install default file")
            [ZIP_FILENAME] false [] [] HMU Hws eq_refl eq_refl _ _).
  - repeat (constructor; [by apply clean_literal|]). constructor.
  - by repeat constructor.
Qed.

Lemma path_get_archive env self ws :
  SUBPATH_MU_CODE self = absolute ws -> Forall clean_component ws ->
  path_get env self (py "zip archive file") []
  = Ok (absolute (ws ++ [py "codeinpython_env"; py "archive"; ZIP_FILENAME])).
Proof.
  intros HMU Hws.
  refine (path_get_place env self ws (py "zip archive file")
            [py "archive"; ZIP_FILENAME] false [] [] HMU Hws
            eq_refl eq_refl _ _).
  - repeat (constructor; [by apply clean_literal|]). constructor.
  - by repeat constructor.
Qed.

Lemma inbox_clean ws :
  Forall clean_component ws ->
  Forall clean_component (ws ++ [py "codeinpython_env"; ZIP_FILENAME]).
Proof.
  intros Hws. apply Forall_app. split; [done|].
  repeat (constructor; [by apply clean_literal|]). constructor.
Qed.

(** With a checked archive in the default place and an archive slot that
    can be read, the user is asked, and the answer is what is returned. *)
Lemma show_comparision_default env self pressed_yes ws w :
  SUBPATH_MU_CODE self = absolute ws -> Forall clean_component ws ->
  fst (zip_check_content env self [] w) = Ok true ->
  (exists present,
     fst (zip_get_version env self
            (absolute (ws ++ [py "codeinpython_env"; py "archive";
                              ZIP_FILENAME])) w) = Ok present) ->
  isfile env w (absolute (ws ++ [py "codeinpython_env"; ZIP_FILENAME])) = true
  /\ exists text,
       show_comparision_of_zip_files env self pressed_yes [] w
       = (Ok (pressed_yes (gettext env (py "Question")) text), w).
Proof.
  intros HMU Hws Hcheck [present Hpresent].
  set (inbox := absolute (ws ++ [py "codeinpython_env"; ZIP_FILENAME])).
  assert (Hinbox : checked_path env self [] = Ok inbox).
  { unfold checked_path. cbn [str_eqb negb].
    change (negb (str_eqb [] [])) with false. cbv iota.
    by apply path_get_inbox. }
  destruct (zip_check_content_version env self [] inbox w Hinbox Hcheck)
    as [Hfile [v Hv]].
  split; [done|].
  assert (Hsame : zip_check_content env self inbox w = (Ok true, w)).
  { rewrite (zip_check_content_checked_path env self inbox []).
    - pose proof (zip_check_content_world env self [] w) as Hw.
      destruct (zip_check_content env self [] w) as [o w1].
      simpl in *. by subst.
    - rewrite Hinbox. unfold checked_path.
      rewrite (proj2 (str_eqb_false inbox [])) by done. cbn [negb].
      f_equal. apply path_clean_absolute. by apply inbox_clean. }
  unfold show_comparision_of_zip_files. rewrite str_eqb_refl.
  unfold bind at 1, lift at 1.
  rewrite (path_get_inbox env self ws) by done. fold inbox.
  unfold bind at 1. rewrite Hsame.
  unfold bind at 1. rewrite Hv.
  unfold bind at 1, lift at 1.
  rewrite (path_get_archive env self ws) by done.
  unfold bind at 1.
  pose proof (zip_get_version_world env self
                (absolute (ws ++ [py "codeinpython_env"; py "archive";
                                  ZIP_FILENAME])) w) as Hw.
  destruct (zip_get_version env self
              (absolute (ws ++ [py "codeinpython_env"; py "archive";
                                ZIP_FILENAME])) w) as [o w1].
  simpl in Hw, Hpresent. subst w1 o. cbn [fst snd].
  unfold bind, QMessageBox_question, ret. cbv zeta.
  exists (gettext env (comparision_text (snd present) v)).
  by destruct (pressed_yes _ _).
Qed.

(** What [workspace_dir] does with the default place.  A file that fails
    the content check is left alone.  An archive that passes it is shown to
    the user, provided the version of the archive slot can be read: when the
    answer is No the file is deleted and nothing else changes, and when it
    is Yes the archive is installed. *)
Theorem declined_update_is_deleted env self pressed_yes ws w :
  SUBPATH_MU_CODE self = absolute ws -> Forall clean_component ws ->
  let inbox := absolute (ws ++ [py "codeinpython_env"; ZIP_FILENAME]) in
  let archive :=
    absolute (ws ++ [py "codeinpython_env"; py "archive"; ZIP_FILENAME]) in
  (fst (zip_check_content env self [] w) = Ok false ->
   workspace_dir_update env self pressed_yes w = (Ok tt, w))
  /\ (fst (zip_check_content env self [] w) = Ok true ->
      (exists present,
         fst (zip_get_version env self archive w) = Ok present) ->
      (forall title text, pressed_yes title text = false) ->
      workspace_dir_update env self pressed_yes w
      = (Ok tt, with_fs w (delete inbox (fs w))))
  /\ (fst (zip_check_content env self [] w) = Ok true ->
      (exists present,
         fst (zip_get_version env self archive w) = Ok present) ->
      (forall title text, pressed_yes title text = true) ->
      workspace_dir_update env self pressed_yes w
      = (update_data_from_zip env self [] ;; ret tt) w).
Proof.
  intros HMU Hws inbox archive. subst inbox archive.
  pose proof (zip_check_content_world env self [] w) as Hw.
  repeat split.
  - intros Hcheck. unfold workspace_dir_update. unfold bind at 1.
    destruct (zip_check_content env self [] w) as [o w1].
    simpl in *. by subst.
  - intros Hcheck Hpresent Hno.
    destruct (show_comparision_default env self pressed_yes ws w
                HMU Hws Hcheck Hpresent) as [Hfile [text Hshow]].
    unfold workspace_dir_update. unfold bind at 1.
    destruct (zip_check_content env self [] w) as [o w1].
    simpl in Hw, Hcheck. subst o w1.
    unfold bind at 1. rewrite Hshow, Hno.
    unfold bind at 1, lift at 1.
    rewrite (path_get_inbox env self ws) by done.
    unfold os_remove. unfold isfile in Hfile.
    rewrite stat_absolute in Hfile by (by apply inbox_clean).
    rewrite fs_key_absolute by (by apply inbox_clean).
    by destruct (fs w !! absolute (ws ++ [py "codeinpython_env"; ZIP_FILENAME]))
      as [[|c]|].
  - intros Hcheck Hpresent Hyes.
    destruct (show_comparision_default env self pressed_yes ws w
                HMU Hws Hcheck Hpresent) as [Hfile [text Hshow]].
    unfold workspace_dir_update. unfold bind at 1.
    destruct (zip_check_content env self [] w) as [o w1].
    simpl in Hw, Hcheck. subst o w1.
    unfold bind at 1. by rewrite Hshow, Hyes.
Qed.

(** ** The archive slot *)

Lemma rfind_dot_zip_filename i found :
  rfind_from DOT (SLASH :: ZIP_FILENAME) i found = i + 20.
Proof.
  let s := eval vm_compute in (SLASH :: ZIP_FILENAME) in
  change (SLASH :: ZIP_FILENAME) with s.
  cbn. lia.
Qed.

(** The extension of the update file in any folder. *)
Lemma splitext_zip_filename pre :
  pre <> [] -> Forall clean_component pre ->
  snd (splitext (absolute (pre ++ [ZIP_FILENAME]))) = py ".zip".
Proof.
  intros Hne Hpre. rewrite absolute_snoc by done.
  set (a := absolute pre).
  assert (Hsep : rfind SLASH (a ++ SLASH :: ZIP_FILENAME) = len a).
  { apply rfind_last_slash, clean_component_no_slash, zip_literal_clean. }
  assert (Hdot : rfind DOT (a ++ SLASH :: ZIP_FILENAME) = len a + 20).
  { unfold rfind. rewrite rfind_from_app, rfind_dot_zip_filename. lia. }
  unfold splitext. cbv zeta. rewrite !Hsep, !Hdot.
  replace (len a <? len a + 20) with true by (symmetry; apply Z.ltb_lt; lia).
  assert (Hscan : splitext_scan (a ++ SLASH :: ZIP_FILENAME)
                    (length (a ++ SLASH :: ZIP_FILENAME))
                    (len a + 1) (len a + 20) = true).
  { rewrite length_app. cbn [length]. rewrite Nat.add_succ_r.
    cbn [splitext_scan].
    replace (len a + 1 <? len a + 20) with true
      by (symmetry; apply Z.ltb_lt; lia).
    unfold slice_from, len.
    replace (Z.to_nat (Z.of_nat (length a) + 1)) with (length a + 1)%nat by lia.
    by rewrite drop_app_add. }
  rewrite Hscan. cbn [andb snd]. unfold slice_from, len.
  replace (Z.to_nat (Z.of_nat (length a) + 20)) with (length a + 20)%nat
    by lia.
  by rewrite drop_app_add.
Qed.

(** What [zip_get_version] answers depends on the content of the file and
    on its extension only. *)
Lemma zip_get_version_content env self p1 w1 p2 w2 content :
  stat env w1 p1 = Some (File content) ->
  stat env w2 p2 = Some (File content) ->
  snd (splitext p1) = snd (splitext p2) ->
  fst (zip_get_version env self p1 w1) = fst (zip_get_version env self p2 w2).
Proof.
  intros H1 H2 Hext.
  unfold zip_get_version, bind, os_path_isfile, zipfile_ZipFile, lift.
  rewrite H1, H2, Hext.
  destruct (str_eqb (snd (splitext p2)) (py ".zip")); [|done].
  rewrite H1, H2.
  destruct content as [xml|members]; [done|].
  destruct (bool_decide (CONFIG_FILENAME ∈ namelist members)); [|done].
  destruct (getinfo members CONFIG_FILENAME) as [config|e]; [|done].
  unfold xml_get_version, ET_parse.
  by destruct config as [[root|]|ms].
Qed.

(** An installation without a report ends with the installed file in the
    archive slot, whatever was there, and nothing else changed; from then on
    the version read from the archive slot is the version of the installed
    file. *)
Theorem faultless_install_is_archived env self ws w zip_file_path content :
  SUBPATH_MU_CODE self = absolute ws -> Forall clean_component ws ->
  let archive_dir := absolute (ws ++ [py "codeinpython_env"; py "archive"]) in
  let archive :=
    absolute (ws ++ [py "codeinpython_env"; py "archive"; ZIP_FILENAME]) in
  stat env w zip_file_path = Some (File content) ->
  isdir env w archive_dir = true ->
  isdir env w archive = false ->
  let w' := with_fs w (<[archive := File content]> (fs w)) in
  report_or_archive env self zip_file_path [] w = (Ok tt, w')
  /\ (snd (splitext zip_file_path) = py ".zip" ->
      fst (zip_get_version env self archive w')
      = fst (zip_get_version env self zip_file_path w)).
Proof.
  intros HMU Hws archive_dir archive Hzip Hdir Hnodir w'.
  assert (Hsplit : ws ++ [py "codeinpython_env"; py "archive"; ZIP_FILENAME]
                   = (ws ++ [py "codeinpython_env"; py "archive"])
                     ++ [ZIP_FILENAME])
    by (by rewrite <- app_assoc).
  assert (Hclean_dir :
            Forall clean_component (ws ++ [py "codeinpython_env"; py "archive"])).
  { apply Forall_app. split; [done|].
    repeat (constructor; [by apply clean_literal|]). constructor. }
  assert (Hclean :
            Forall clean_component
              ((ws ++ [py "codeinpython_env"; py "archive"]) ++ [ZIP_FILENAME])).
  { apply Forall_app. split; [done|].
    constructor; [apply zip_literal_clean|done]. }
  unfold isdir in Hdir, Hnodir. subst archive_dir archive w'.
  rewrite Hsplit in *.
  rewrite stat_absolute in Hdir, Hnodir by done.
  split.
  - unfold report_or_archive. change (negb (str_eqb [] [])) with false.
    cbv iota. unfold bind at 1, lift at 1.
    rewrite (path_get_archive env self ws) by done. rewrite Hsplit.
    unfold bind at 1, os_path_exists at 1. rewrite stat_absolute by done.
    destruct (fs w !! absolute (ws ++ [py "codeinpython_env"; py "archive"]))
      as [[|?]|] eqn:Hparent; try done.
    destruct (fs w !! absolute ((ws ++ [py "codeinpython_env"; py "archive"])
                                ++ [ZIP_FILENAME]))
      as [[|old]|] eqn:Hold; try done.
    + rewrite bool_decide_eq_true_2 by done.
      unfold bind at 1, os_path_samefile at 1. rewrite Hzip.
      rewrite stat_absolute, Hold by done.
      rewrite (fs_key_absolute env _ Hclean).
      destruct (bool_decide (fs_key env zip_file_path = Some _)) eqn:Hsame.
      * apply bool_decide_eq_true in Hsame. cbn [negb orb]. unfold ret.
        unfold stat in Hzip. rewrite Hsame in Hzip.
        rewrite insert_id by done. by rewrite with_fs_same.
      * apply bool_decide_eq_false in Hsame. cbn [negb orb].
        apply shutil_copy2_canonical; try done. by rewrite Hold.
    + rewrite bool_decide_eq_false_2 by (by intros [? ?]).
      unfold bind at 1, ret at 1. cbn [negb orb].
      apply shutil_copy2_canonical; try done.
      * by rewrite Hold.
      * intros Hsame. unfold stat in Hzip. rewrite Hsame in Hzip. congruence.
  - intros Hext.
    apply (zip_get_version_content env self _ _ _ _ content).
    + rewrite stat_absolute by done. simpl. by rewrite lookup_insert_eq.
    + done.
    + rewrite Hext. apply splitext_zip_filename; [|done]. by destruct ws.
Qed.

(** ** Unpacking stays in the scratch directory *)

Lemma os_mkdir_keeps env p w k x :
  fs w !! k = Some x -> fs (snd (os_mkdir env p w)) !! k = Some x.
Proof.
  intros Hk. unfold os_mkdir.
  destruct (fs_key env p) as [d|]; [|done].
  destruct (fs w !! d) as [y|] eqn:Hd; [done|].
  destruct (parent_error w d p); [done|].
  simpl. rewrite lookup_insert_ne; [done|]. intros ->. congruence.
Qed.

Lemma makedirs_rec_keeps env fuel name w k x :
  fs w !! k = Some x -> fs (snd (makedirs_rec env fuel name w)) !! k = Some x.
Proof.
  revert name w. induction fuel as [|fuel IH]; intros name w Hk; [done|].
  cbn [makedirs_rec].
  destruct (os_path_split name) as [head tail].
  destruct (if str_eqb tail [] then os_path_split head else (head, tail))
    as [head' tail'].
  destruct (negb (str_eqb head' []) && negb (str_eqb tail' []));
    [|by apply os_mkdir_keeps].
  unfold bind at 1, os_path_exists at 1.
  destruct (negb (bool_decide (is_Some (stat env w head'))));
    [|by apply os_mkdir_keeps].
  unfold bind at 1, try_except.
  pose proof (IH head' w Hk) as Hrec.
  destruct (makedirs_rec env fuel head' w) as [[[]|e] w1]; simpl in Hrec.
  - destruct (str_eqb tail' curdir); [done|]. by apply os_mkdir_keeps.
  - destruct (is_exn "FileExistsError" e); [|done].
    unfold ret at 1.
    destruct (str_eqb tail' curdir); [done|]. by apply os_mkdir_keeps.
Qed.

Lemma write_file_keeps env p c w k :
  fs_key env p <> Some k ->
  fs (snd (write_file env p c w)) !! k = fs w !! k.
Proof.
  intros Hk. unfold write_file.
  destruct (fs_key env p) as [d|]; [|done].
  assert (d <> k) by congruence.
  destruct (fs w !! d) as [[|old]|] eqn:Hd; [done| |].
  - simpl. by rewrite lookup_insert_ne.
  - destruct (parent_error w d p); [done|].
    simpl. by rewrite lookup_insert_ne.
Qed.

Lemma normpath_trailing_slash pre :
  pre <> [] -> Forall clean_component pre ->
  normpath (absolute pre ++ [SLASH]) = absolute pre.
Proof.
  intros Hne Hpre. unfold normpath.
  rewrite (proj2 (str_eqb_false _ _)) by done.
  assert (Hform : absolute pre ++ [SLASH]
                  = SLASH :: str_join [SLASH] (pre ++ [[]])).
  { unfold absolute. rewrite join_snoc by done. by simpl. }
  rewrite Hform.
  assert (Hs : startswith (str_join [SLASH] (pre ++ [[]])) [SLASH] = false).
  { destruct pre as [|c cs]; [done|].
    apply Forall_inv in Hpre.
    destruct (clean_component_head c Hpre) as (x & t & -> & Hx).
    destruct cs; cbn [str_join app startswith];
      by rewrite (proj2 (N.eqb_neq SLASH x)). }
  replace (startswith (SLASH :: str_join [SLASH] (pre ++ [[]])) [SLASH])
    with true by (by rewrite startswith_cons).
  replace (startswith (SLASH :: str_join [SLASH] (pre ++ [[]])) [SLASH; SLASH])
    with false by (by rewrite startswith_cons).
  cbn [andb].
  change (str_split SLASH (SLASH :: str_join [SLASH] (pre ++ [[]])))
    with ([] :: str_split SLASH (str_join [SLASH] (pre ++ [[]]))).
  rewrite str_split_join.
  - cbn [fold_left]. change (normpath_step 1 [] []) with (@nil (list N)).
    rewrite fold_left_app. rewrite (normpath_fold_push 1 pre) by done.
    cbn [fold_left]. rewrite app_nil_r.
    change (normpath_step 1 (rev pre) []) with (rev pre).
    rewrite rev_involutive.
    destruct pre as [|c cs]; [done|].
    rewrite (proj2 (str_eqb_false _ _)); [done|].
    cbn [repeat app]. done.
  - by destruct pre.
  - apply Forall_app. split.
    + eapply Forall_impl; [exact Hpre|]. apply clean_component_no_slash.
    + constructor; [apply not_elem_of_nil|done].
Qed.

(** Where a member of an archive is written: below the directory the
    archive is unpacked to, at the components of its name that are not
    empty, [.] or [..]. *)
Lemma extract_target pre name :
  Forall clean_component pre ->
  let cs := filter (fun x => x <> [] /\ x <> curdir /\ x <> pardir)
              (str_split os_sep name) in
  Forall clean_component (pre ++ cs)
  /\ normpath (os_path_join (absolute pre) [str_join [os_sep] cs])
     = absolute (pre ++ cs).
Proof.
  intros Hpre cs.
  assert (Hcs : Forall clean_component cs).
  { apply Forall_forall. intros c Hc.
    apply list_elem_of_filter in Hc as [(H1 & H2 & H3) Hin].
    repeat split; try done. by apply str_split_no_slash with name. }
  split; [by apply Forall_app|].
  cbn [os_path_join fold_left]. unfold join2, os_sep.
  destruct cs as [|c cs'] eqn:Hcs_eq.
  - change (str_join [SLASH] []) with (@nil N).
    change (startswith [] [SLASH]) with false. cbv iota.
    rewrite !app_nil_r.
    destruct pre as [|p pre']; [done|].
    rewrite (proj2 (str_eqb_false _ _)) by done.
    rewrite absolute_endswith_slash by done. cbn [orb].
    by apply normpath_trailing_slash.
  - assert (Hstart : startswith (str_join [SLASH] (c :: cs')) [SLASH] = false).
    { apply Forall_inv in Hcs.
      destruct (clean_component_head c Hcs) as (x & t & -> & Hx).
      destruct cs'; cbn [str_join app startswith];
        by rewrite (proj2 (N.eqb_neq SLASH x)). }
    rewrite Hstart.
    destruct pre as [|p pre'].
    + change (absolute []) with [SLASH].
      change (str_eqb [SLASH] [] || endswith [SLASH] [SLASH]) with true.
      cbv iota. change ([SLASH] ++ str_join [SLASH] (c :: cs'))
        with (absolute ([] ++ c :: cs')).
      by apply normpath_absolute.
    + rewrite (proj2 (str_eqb_false _ _)) by done.
      rewrite absolute_endswith_slash by done. cbn [orb].
      replace (absolute (p :: pre') ++ [SLASH] ++ str_join [SLASH] (c :: cs'))
        with (absolute ((p :: pre') ++ c :: cs')).
      * apply normpath_absolute. by apply Forall_app.
      * unfold absolute. by rewrite str_join_app.
Qed.

Lemma under_absolute pre cs :
  Forall clean_component pre ->
  under (absolute pre) (absolute (pre ++ cs)) = true.
Proof.
  intros Hpre. unfold under.
  destruct cs as [|c cs].
  - by rewrite app_nil_r, str_eqb_refl.
  - apply orb_true_iff. right. unfold join2.
    change (startswith [] [SLASH]) with false. cbv iota.
    destruct pre as [|p pre'].
    + done.
    + rewrite (proj2 (str_eqb_false _ _)) by done.
      rewrite absolute_endswith_slash by done. cbn [orb].
      apply startswith_prefix. exists (str_join [SLASH] (c :: cs)).
      unfold absolute. rewrite str_join_app by done.
      cbn [app]. by rewrite <- !app_assoc.
Qed.

Lemma extract_member_keeps env zip_ref name pre w k x :
  Forall clean_component pre ->
  fs w !! k = Some x -> under (absolute pre) k = false ->
  fs (snd (extract_member env zip_ref name (absolute pre) w)) !! k = Some x.
Proof.
  intros Hpre Hk Hout. unfold extract_member.
  unfold bind at 1, lift at 1.
  destruct (getinfo zip_ref name) as [member|e]; [|done].
  destruct (extract_target pre name Hpre) as [Hclean ->].
  set (cs := filter (fun x => x <> [] /\ x <> curdir /\ x <> pardir)
               (str_split os_sep name)) in *.
  unfold bind at 1, os_path_exists at 1.
  unfold bind at 1.
  assert (Hdirs :
    fs (snd ((if negb (str_eqb (dirname (absolute (pre ++ cs))) [])
                 && negb (bool_decide
                            (is_Some (stat env w (dirname (absolute (pre ++ cs))))))
              then os_makedirs env (dirname (absolute (pre ++ cs)))
              else ret tt) w)) !! k = Some x).
  { destruct (_ && _); [|done]. by apply makedirs_rec_keeps. }
  destruct ((if negb (str_eqb (dirname (absolute (pre ++ cs))) [])
                && negb (bool_decide
                           (is_Some (stat env w (dirname (absolute (pre ++ cs))))))
             then os_makedirs env (dirname (absolute (pre ++ cs)))
             else ret tt) w) as [[[]|e] w1]; [|done].
  simpl in Hdirs.
  destruct (endswith name [SLASH]).
  - unfold bind at 1, os_path_isdir at 1.
    destruct (negb _); [|done]. by apply os_mkdir_keeps.
  - rewrite write_file_keeps; [done|].
    rewrite fs_key_absolute by done. intros [= <-].
    by rewrite under_absolute in Hout.
Qed.

(** Whatever the names of the members, unpacking an archive to a canonical
    directory leaves every entry outside that directory as it was. *)
Theorem extractall_keeps_what_is_outside env zip_ref pre w k x :
  Forall clean_component pre ->
  fs w !! k = Some x -> under (absolute pre) k = false ->
  fs (snd (extractall env zip_ref (absolute pre) w)) !! k = Some x.
Proof.
  intros Hpre Hk Hout. unfold extractall.
  generalize (namelist zip_ref). intros names. revert w Hk.
  induction names as [|name names IH]; intros w Hk; [done|].
  cbn [for_each]. unfold bind at 1.
  pose proof (extract_member_keeps env zip_ref name pre w k x Hpre Hk Hout)
    as Hstep.
  destruct (extract_member env zip_ref name (absolute pre) w) as [[[]|e] w1];
    [|done].
  by apply IH.
Qed.

(** ** The file of a lesson *)

Lemma os_path_join_plain pre c :
  Forall plain_segment pre -> plain_segment c ->
  os_path_join (absolute pre) [c] = absolute (pre ++ [c]).
Proof.
  intros Hpre [Hne Hs].
  cbn [os_path_join fold_left]. unfold join2.
  destruct c as [|x t]; [done|].
  assert (Hx : x <> SLASH) by (intros ->; apply Hs, list_elem_of_here).
  cbn [startswith]. rewrite (proj2 (N.eqb_neq SLASH x)) by done. cbn [andb].
  destruct pre as [|p pre].
  - done.
  - rewrite absolute_plain_endswith by done.
    unfold absolute. rewrite join_snoc by done. by simpl.
Qed.

Lemma py_file_clean stem :
  clean_component stem -> clean_component (stem ++ py ".py").
Proof.
  intros (Hne & _ & _ & Hs). repeat split.
  - by destruct stem.
  - destruct stem as [|a [|b stem]]; done.
  - destruct stem as [|a [|b [|c stem]]]; done.
  - intros H%elem_of_app. destruct H as [H|H]; [done|].
    revert H. apply (bool_decide_unpack _). by vm_compute.
Qed.

(** The pseudo-segment of a template: the path so far gets the name of
    its last component, with [.py], as one more component. *)
Lemma assemble_step_append pre stem :
  Forall clean_component (pre ++ [stem]) ->
  assemble_step (absolute (pre ++ [stem])) APPEND_PY_FILE
  = absolute (pre ++ [stem; stem ++ py ".py"]).
Proof.
  intros Hall. unfold assemble_step. rewrite str_eqb_refl.
  pose proof Hall as Hall'.
  apply Forall_app in Hall' as [Hpre Hstem]. apply Forall_inv in Hstem.
  rewrite os_path_split_absolute
    by (try done; by apply clean_component_no_slash).
  cbn [snd]. rewrite os_path_join_plain.
  - by rewrite <- app_assoc.
  - eapply Forall_impl; [exact Hall|]. apply clean_component_plain.
  - by apply clean_component_plain, py_file_clean.
Qed.

(** For the places [student file] and [student private file] the resolved
    path is the folder the other segments lead to, and in it the file that
    has the folder's name with [.py]. *)
Theorem student_file_is_named_after_its_folder env self ws place parameters :
  SUBPATH_MU_CODE self = absolute ws -> Forall clean_component ws ->
  clean_component (subpath_class self) -> subpath_class self <> APPEND_PY_FILE ->
  clean_component (user_name self) -> user_name self <> APPEND_PY_FILE ->
  Forall clean_component (map (clean_name env) (params_separate parameters)) ->
  place = py "student file" \/ place = py "student private file" ->
  let folder :=
    ws ++ [py "codeinpython_env"; py "workspace"; subpath_class self;
           user_name self]
    ++ (if str_eqb place (py "student file") then [] else [py "private"])
    ++ map (clean_name env) (params_separate parameters) in
  exists init stem,
    folder = init ++ [stem]
    /\ path_get env self place parameters
       = Ok (absolute (folder ++ [stem ++ py ".py"])).
Proof.
  intros HMU Hws Hclass Hclass' Huser Huser' Hparams Hplace folder.
  set (ps := map (clean_name env) (params_separate parameters)) in *.
  set (middle := [py "codeinpython_env"; py "workspace"; subpath_class self;
                  user_name self]
                 ++ (if str_eqb place (py "student file") then []
                     else [py "private"])).
  assert (Hfolder : folder = ws ++ middle ++ ps).
  { unfold folder, middle. by rewrite <- !app_assoc. }
  assert (Hmiddle : Forall clean_component middle
                    /\ Forall (fun c => c <> APPEND_PY_FILE) middle).
  { unfold middle. destruct Hplace as [-> | ->].
    - change (str_eqb (py "student file") (py "student file")) with true.
      split.
      + repeat (constructor; [first [by apply clean_literal|done]|]).
        constructor.
      + by repeat constructor.
    - change (str_eqb (py "student private file") (py "student file"))
        with false.
      split.
      + repeat (constructor; [first [by apply clean_literal|done]|]).
        constructor.
      + by repeat constructor. }
  destruct Hmiddle as [Hmid Hmid'].
  assert (Hclean : Forall clean_component folder).
  { rewrite Hfolder. apply Forall_app. split; [done|].
    by apply Forall_app. }
  assert (Hne : folder <> []).
  { rewrite Hfolder. unfold middle. intros H.
    apply app_eq_nil in H as [_ H]. by apply app_eq_nil in H as [H _]. }
  destruct (exists_last Hne) as (init & stem & Hlast).
  exists init, stem. split; [done|].
  assert (Htemplate : dict_get (template_table self) place
            = Some (SUBPATH_MU_CODE self :: middle, true, [APPEND_PY_FILE])).
  { unfold middle. by destruct Hplace as [-> | ->]. }
  assert (Hcreate : path_create env self place parameters
                    = Ok (absolute (folder ++ [stem ++ py ".py"]))).
  { unfold path_create. rewrite path_struct_template, Htemplate.
    cbv iota beta. fold ps. f_equal.
    rewrite app_assoc, fold_left_app. cbn [app fold_left].
    rewrite (assemble_workspace self ws HMU).
    rewrite assemble_fold_plain.
    - rewrite <- Hfolder, Hlast.
      rewrite assemble_step_append by (by rewrite <- Hlast).
      replace (init ++ [stem; stem ++ py ".py"])
        with ((init ++ [stem]) ++ [stem ++ py ".py"])
        by (by rewrite <- app_assoc).
      apply path_clean_absolute. apply Forall_app. split.
      + by rewrite <- Hlast.
      + constructor; [|done]. apply py_file_clean.
        rewrite Hlast in Hclean. apply Forall_app in Hclean as [_ H].
        by apply Forall_inv in H.
    - eapply Forall_impl; [exact Hws|]. apply clean_component_plain.
    - apply Forall_app. split.
      + eapply Forall_impl; [exact Hmid|]. apply clean_component_plain.
      + eapply Forall_impl; [exact Hparams|]. apply clean_component_plain.
    - apply Forall_app. split; [done|].
      apply Forall_forall. intros c Hc.
      apply list_elem_of_fmap in Hc as (s & -> & _).
      apply clean_name_not_append_py_file. }
  unfold path_get, valid_path. rewrite Hcreate.
  rewrite (path_create_main env self ws) by done. cbn [outcome_bind].
  rewrite path_clean_absolute.
  - replace (folder ++ [stem ++ py ".py"])
      with ((ws ++ [py "codeinpython_env"])
            ++ (tail middle ++ ps ++ [stem ++ py ".py"])).
    + by rewrite absolute_prefix.
    + rewrite Hfolder. unfold middle. cbn [tail app].
      rewrite <- !app_assoc. cbn [app]. by rewrite <- ?app_assoc.
  - apply Forall_app. split; [done|]. constructor; [|done].
    apply py_file_clean.
    rewrite Hlast in Hclean. apply Forall_app in Hclean as [_ H].
    by apply Forall_inv in H.
Qed.

(** ** The module search path *)

(** For an argument the file system takes, [path_for_codeinpython_add]
    appends its entry to [sys.path] unless it is there: afterwards the entry
    is in the list, the entries that were there come first and in their
    order, a second call changes nothing, and a list without repetitions
    stays so. *)
Theorem path_for_codeinpython_add_adds_once env self path_to_add sys_path :
  fs_encodable path_to_add ->
  let entry := if str_eqb path_to_add [] then SUBPATH_MU_CODE self
               else path_clean env path_to_add in
  let added := path_for_codeinpython_add env self path_to_add sys_path in
  entry ∈ added
  /\ (exists rest, added = sys_path ++ rest)
  /\ path_for_codeinpython_add env self path_to_add added = added
  /\ (NoDup sys_path -> NoDup added).
Proof.
  intros _ entry added.
  assert (Hadded : added = if bool_decide (entry ∈ sys_path) then sys_path
                           else sys_path ++ [entry]).
  { unfold added, entry, path_for_codeinpython_add.
    by destruct (str_eqb path_to_add []). }
  assert (Hin : entry ∈ added).
  { rewrite Hadded. destruct (bool_decide (entry ∈ sys_path)) eqn:He.
    - by apply bool_decide_eq_true in He.
    - apply elem_of_app. right. apply list_elem_of_here. }
  repeat split.
  - done.
  - rewrite Hadded. destruct (bool_decide (entry ∈ sys_path)).
    + exists []. by rewrite app_nil_r.
    + by exists [entry].
  - assert (Hagain : path_for_codeinpython_add env self path_to_add added
                     = if bool_decide (entry ∈ added) then added
                       else added ++ [entry]).
    { unfold entry, path_for_codeinpython_add.
      by destruct (str_eqb path_to_add []). }
    rewrite Hagain. by rewrite bool_decide_eq_true_2.
  - intros Hnodup. rewrite Hadded.
    destruct (bool_decide (entry ∈ sys_path)) eqn:He; [done|].
    apply bool_decide_eq_false in He.
    apply NoDup_app. repeat split; [done| |apply NoDup_singleton].
    intros x Hx Hx'. apply list_elem_of_singleton in Hx'. by subst x.
Qed.

(** ** Cleaning any path *)

Lemma normpath_single_slash p :
  isabs p = true -> startswith p [SLASH; SLASH] = false ->
  exists comps, Forall clean_component comps /\ normpath p = absolute comps.
Proof.
  intros Habs Hone. unfold isabs in Habs. unfold normpath.
  destruct (str_eqb p []) eqn:Hp.
  { apply str_eqb_true in Hp. by subst p. }
  rewrite Habs, Hone. cbn [andb].
  exists (rev (fold_left (normpath_step 1) (str_split SLASH p) [])).
  split.
  - apply Forall_rev, normpath_fold_clean; [lia|done|].
    apply List.Forall_forall. intros c Hc.
    apply str_split_no_slash with p. by apply list_elem_of_In.
  - done.
Qed.

Lemma rstrip_char_head x t :
  x <> SLASH -> exists t', rstrip_char SLASH (x :: t) = x :: t'.
Proof.
  intros Hx. induction t as [|y t IH] using rev_ind.
  - exists []. unfold rstrip_char. simpl.
    by rewrite (proj2 (N.eqb_neq x SLASH)).
  - unfold rstrip_char in *.
    change (x :: t ++ [y]) with ((x :: t) ++ [y]).
    rewrite rev_app_distr. cbn [rev app lstrip_char].
    destruct (N.eqb y SLASH) eqn:Hy.
    + exact IH.
    + exists (t ++ [y]). cbn [rev]. rewrite rev_app_distr, rev_involutive.
      by simpl.
Qed.

Lemma os_path_split_relative p :
  isabs p = false -> isabs (fst (os_path_split p)) = false.
Proof.
  intros Hrel. destruct p as [|x t]; [done|].
  assert (Hx : x <> SLASH).
  { intros ->. unfold isabs in Hrel. cbn [startswith] in Hrel.
    by rewrite N.eqb_refl in Hrel. }
  unfold os_path_split.
  set (i := rfind SLASH (x :: t) + 1). cbn [fst].
  destruct (slice_to (x :: t) i) as [|y h] eqn:Hhead; [done|].
  assert (y = x) as ->.
  { unfold slice_to in Hhead. destruct (Z.to_nat i); [done|].
    simpl in Hhead. by injection Hhead. }
  destruct (negb (str_eqb (x :: h) [])
            && negb (str_eqb (x :: h) (repeat SLASH (length (x :: h))))).
  - destruct (rstrip_char_head x h Hx) as [t' ->].
    unfold isabs. cbn [startswith]. by rewrite (proj2 (N.eqb_neq SLASH x)).
  - unfold isabs. cbn [startswith]. by rewrite (proj2 (N.eqb_neq SLASH x)).
Qed.

Lemma join2_relative path b :
  isabs path = false -> isabs b = false -> isabs (join2 path b) = false.
Proof.
  unfold join2, isabs. intros Hpath Hb. rewrite Hb.
  destruct path as [|x t]; [done|].
  destruct (str_eqb (x :: t) [] || endswith (x :: t) [SLASH]);
    cbn [app startswith] in *; done.
Qed.

Lemma no_slash_relative c : SLASH ∉ c -> isabs c = false.
Proof.
  intros Hc. destruct c as [|x t]; [done|].
  unfold isabs. cbn [startswith].
  rewrite (proj2 (N.eqb_neq SLASH x)); [done|].
  intros <-. apply Hc, list_elem_of_here.
Qed.

(** The loop of [_joinrealpath] from a relative path gives a relative
    path. *)
Lemma joinrealpath_fold_relative comps path :
  Forall (fun c => SLASH ∉ c) comps -> isabs path = false ->
  isabs (fold_left joinrealpath_step comps path) = false.
Proof.
  intros Hcomps. revert path.
  induction Hcomps as [|c cs Hc Hcs IH]; intros path Hpath; [done|].
  cbn [fold_left]. apply IH. unfold joinrealpath_step.
  destruct (str_eqb c [] || str_eqb c curdir); [done|].
  destruct (str_eqb c pardir).
  - destruct (negb (str_eqb path [])); [|done].
    pose proof (os_path_split_relative path Hpath) as Hhead.
    destruct (os_path_split path) as [path' name']. cbn [fst] in Hhead.
    destruct (str_eqb name' pardir); [|done].
    cbn [os_path_join fold_left].
    by repeat apply join2_relative.
  - cbn [os_path_join fold_left].
    apply join2_relative; [done|]. by apply no_slash_relative.
Qed.

(** From a canonical path it gives a canonical path. *)
Lemma joinrealpath_fold_canonical comps pre :
  Forall (fun c => SLASH ∉ c) comps -> Forall clean_component pre ->
  exists pre',
    Forall clean_component pre'
    /\ fold_left joinrealpath_step comps (absolute pre) = absolute pre'.
Proof.
  intros Hcomps. revert pre.
  induction Hcomps as [|c cs Hc Hcs IH]; intros pre Hpre; [by exists pre|].
  cbn [fold_left].
  assert (Hstep : exists pre1,
            Forall clean_component pre1
            /\ joinrealpath_step (absolute pre) c = absolute pre1).
  { destruct (str_eqb c []) eqn:He.
    { exists pre. split; [done|]. unfold joinrealpath_step. by rewrite He. }
    destruct (str_eqb c curdir) eqn:Hcur.
    { exists pre. split; [done|]. unfold joinrealpath_step.
      by rewrite He, Hcur. }
    destruct (str_eqb c pardir) eqn:Hpar.
    - unfold joinrealpath_step. rewrite He, Hcur, Hpar. cbn [orb].
      rewrite (proj2 (str_eqb_false (absolute pre) [])) by done.
      cbn [negb].
      destruct (decide (pre = [])) as [->|Hne].
      + exists []. split; [done|]. done.
      + destruct (exists_last Hne) as (init & l & ->).
        apply Forall_app in Hpre as [Hinit Hl]. apply Forall_inv in Hl.
        rewrite os_path_split_absolute
          by (try done; by apply clean_component_no_slash).
        destruct Hl as (_ & _ & Hlp & _).
        rewrite (proj2 (str_eqb_false _ _) Hlp). by exists init.
    - apply str_eqb_false in He, Hcur, Hpar.
      exists (pre ++ [c]). split.
      + apply Forall_app. split; [done|]. by constructor.
      + by apply joinrealpath_step_clean. }
  destruct Hstep as (pre1 & Hpre1 & ->). by apply IH.
Qed.

Lemma str_split_all_no_slash s : Forall (fun c => SLASH ∉ c) (str_split SLASH s).
Proof.
  apply Forall_forall. intros c Hc. by apply str_split_no_slash with s.
Qed.

(** On a host whose working directory is canonical, [path_clean] turns
    every path the file system takes, but the empty one, into a canonical
    absolute path, and cleaning that again changes nothing; the empty path
    stays empty. *)
Theorem path_clean_is_canonical_and_idempotent env ws p :
  getcwd env = absolute ws -> Forall clean_component ws ->
  fs_encodable p ->
  path_clean env [] = []
  /\ (p <> [] ->
      exists comps,
        Forall clean_component comps /\ path_clean env p = absolute comps)
  /\ path_clean env (path_clean env p) = path_clean env p.
Proof.
  intros Hcwd Hws _.
  assert (Hcanon : p <> [] ->
            exists comps,
              Forall clean_component comps
              /\ path_clean env p = absolute comps).
  { intros Hp. unfold path_clean, path_clean_with.
    rewrite (proj2 (str_eqb_false _ _) Hp).
    generalize (expanduser env (normpath p)). intros e.
    unfold realpath, abspath, joinrealpath.
    destruct (isabs e) eqn:He.
    - destruct (joinrealpath_fold_canonical
                  (str_split SLASH (slice_from e 1)) []
                  (str_split_all_no_slash _) ltac:(done))
        as (pre' & Hpre' & Hfold).
      change [SLASH] with (absolute []). rewrite Hfold.
      rewrite isabs_absolute. cbn [negb].
      exists pre'. split; [done|]. by apply normpath_absolute.
    - pose proof (joinrealpath_fold_relative (str_split SLASH e) []
                    (str_split_all_no_slash _) eq_refl) as Hrel.
      set (q := fold_left joinrealpath_step (str_split SLASH e) []) in *.
      rewrite Hrel. cbn [negb os_path_join fold_left].
      apply normpath_single_slash.
      + apply join2_isabs. by rewrite Hcwd.
      + rewrite Hcwd. unfold join2. unfold isabs in Hrel. rewrite Hrel.
        destruct ws as [|c cs].
        * change (str_eqb (absolute []) [] || endswith (absolute []) [SLASH])
            with true. cbv iota.
          change (absolute [] ++ q) with (SLASH :: q).
          rewrite startswith_cons. exact Hrel.
        * apply Forall_inv in Hws as Hc.
          destruct (clean_component_head c Hc) as (x & t & -> & Hx).
          destruct (str_eqb _ _ || endswith _ _);
            destruct cs; cbn [absolute str_join app startswith];
            rewrite N.eqb_refl; cbn [andb];
            by rewrite (proj2 (N.eqb_neq SLASH x)). }
  repeat split.
  - done.
  - destruct (decide (p = [])) as [->|Hp]; [done|].
    destruct (Hcanon Hp) as (comps & Hcomps & ->).
    by apply path_clean_absolute.
Qed.

(** ** The entries of a manifest that succeed *)

Lemma absolute_inj a b :
  Forall clean_component a -> Forall clean_component b ->
  absolute a = absolute b -> a = b.
Proof.
  intros Ha Hb Heq. unfold absolute in Heq. injection Heq as Heq.
  assert (Hsplit : forall l, Forall clean_component l -> l <> [] ->
            str_split SLASH (str_join [SLASH] l) = l).
  { intros l Hl Hne. apply str_split_join; [done|].
    eapply Forall_impl; [exact Hl|]. apply clean_component_no_slash. }
  destruct a as [|x a], b as [|y b]; [done| | |].
  - exfalso. apply Forall_inv in Hb. destruct Hb as (Hy & _).
    by apply (str_join_nonempty [SLASH] y b Hy).
  - exfalso. apply Forall_inv in Ha. destruct Ha as (Hx & _).
    by apply (str_join_nonempty [SLASH] x a Hx).
  - rewrite <- (Hsplit (x :: a)), <- (Hsplit (y :: b)) by done.
    by rewrite Heq.
Qed.

Lemma clean_name_curdir env : clean_name env curdir = curdir.
Proof. reflexivity. Qed.

Lemma normpath_step_curdir n stack : normpath_step n stack curdir = stack.
Proof. done. Qed.

(** The path of an entry in the main folder: the parameter [destination]
    is the empty string, which adds the segment [.]. *)
Lemma path_get_main_destination env self ws t ps :
  SUBPATH_MU_CODE self = absolute ws -> Forall clean_component ws ->
  map (clean_name env) (str_split SLASH (normpath t)) = ps ->
  Forall clean_component ps ->
  path_get env self (py "main") [Some []; Some t]
  = Ok (absolute (ws ++ [py "codeinpython_env"] ++ ps)).
Proof.
  intros HMU Hws Hps Hclean.
  assert (Hmain : Forall clean_component (ws ++ [py "codeinpython_env"])).
  { apply Forall_app. split; [done|].
    constructor; [apply main_folder_clean|done]. }
  assert (Hall : Forall clean_component (ws ++ [py "codeinpython_env"] ++ ps)).
  { rewrite app_assoc. by apply Forall_app. }
  assert (Hcreate : path_create env self (py "main") [Some []; Some t]
                    = Ok (absolute (ws ++ [py "codeinpython_env"] ++ ps))).
  { unfold path_create. rewrite path_struct_template.
    change (dict_get (template_table self) (py "main"))
      with (Some ([SUBPATH_MU_CODE self; py "codeinpython_env"], true,
                  @nil (list N))).
    cbv iota beta.
    assert (Hparams : map (clean_name env) (params_separate [Some []; Some t])
                      = curdir :: ps).
    { unfold params_separate. cbn [flat_map].
      change (str_split os_sep (normpath [])) with [curdir].
      rewrite app_nil_r. cbn [app map]. unfold os_sep. rewrite Hps.
      by rewrite clean_name_curdir. }
    rewrite Hparams, app_nil_r. f_equal. cbn [app fold_left].
    rewrite (assemble_workspace self ws HMU).
    change (fold_left assemble_step ps
              (assemble_step (assemble_step (absolute ws)
                                (py "codeinpython_env")) curdir))
      with (fold_left assemble_step (py "codeinpython_env" :: curdir :: ps)
              (absolute ws)).
    assert (Hplain : Forall plain_segment (py "codeinpython_env" :: curdir :: ps)).
    { constructor; [apply clean_component_plain, main_folder_clean|].
      constructor.
      - split; [done|]. apply (bool_decide_unpack _). by vm_compute.
      - eapply Forall_impl; [exact Hclean|]. apply clean_component_plain. }
    rewrite assemble_fold_plain.
    - apply path_clean_normal; [done|done|].
      rewrite normpath_absolute_fold.
      + f_equal. rewrite fold_left_app.
        rewrite (normpath_fold_push 1 ws) by done. rewrite app_nil_r.
        cbn [fold_left].
        rewrite (normpath_step_push 1 (rev ws) (py "codeinpython_env"))
          by apply main_folder_clean.
        rewrite normpath_step_curdir.
        rewrite normpath_fold_push by done.
        rewrite rev_app_distr. cbn [rev].
        rewrite !rev_involutive. by rewrite <- app_assoc.
      + apply Forall_app. split; [|done].
        eapply Forall_impl; [exact Hws|]. apply clean_component_plain.
    - eapply Forall_impl; [exact Hws|]. apply clean_component_plain.
    - done.
    - constructor; [done|]. constructor; [done|].
      subst ps. apply Forall_forall. intros c Hc.
      apply list_elem_of_fmap in Hc as (s & -> & _).
      apply clean_name_not_append_py_file. }
  unfold path_get, valid_path. rewrite Hcreate.
  rewrite (path_create_main env self ws) by done. cbn [outcome_bind].
  rewrite path_clean_absolute by done.
  rewrite app_assoc. by rewrite absolute_prefix.
Qed.

(** A [copy] entry whose sanitized path [ps] names a regular file of the
    scratch directory puts the content of that file at the same path below
    the main folder, when the folder it goes to is there; nothing else
    changes and nothing is reported. *)
Theorem copy_entry_installs_the_file env self ws element t ps content errs w :
  SUBPATH_MU_CODE self = absolute ws -> Forall clean_component ws ->
  recursion_limit env <> 0%nat ->
  tag element = py "copy" -> text element = Some t ->
  map (clean_name env) (str_split SLASH (normpath t)) = ps ->
  Forall clean_component ps -> ps <> [] ->
  let src := absolute (ws ++ [py "codeinpython_env"; py "temp"] ++ ps) in
  let dest := absolute (ws ++ [py "codeinpython_env"] ++ ps) in
  stat env w src = Some (File content) ->
  isdir env w (dirname dest) = true ->
  isdir env w dest = false ->
  copy_element env self [] element errs w
  = (Ok errs, with_fs w (<[dest := File content]> (fs w))).
Proof.
  intros HMU Hws Hfuel Htag Htext Hps Hclean Hne src dest Hsrc Hparent Hdest.
  assert (Hsrc_clean :
            Forall clean_component
              (ws ++ [py "codeinpython_env"; py "temp"] ++ ps)).
  { apply Forall_app. split; [done|]. apply Forall_app. split; [|done].
    repeat (constructor; [by apply clean_literal|]). constructor. }
  assert (Hget_src : path_get env self (py "temp") [Some t] = Ok src).
  { refine (path_get_place env self ws (py "temp") [py "temp"] true
              [Some t] ps HMU Hws eq_refl _ _ _).
    - unfold params_separate. cbn [flat_map]. by rewrite app_nil_r.
    - constructor; [by apply clean_literal|done].
    - by repeat constructor. }
  pose proof (path_get_main_destination env self ws t ps HMU Hws Hps Hclean)
    as Hget_dest. fold dest in Hget_dest.
  destruct (exists_last Hne) as (init & l & Hlast).
  assert (Hform : ws ++ [py "codeinpython_env"] ++ ps
                  = (ws ++ [py "codeinpython_env"] ++ init) ++ [l]).
  { rewrite Hlast. by rewrite <- !app_assoc. }
  assert (Hdest_clean :
            Forall clean_component
              ((ws ++ [py "codeinpython_env"] ++ init) ++ [l])).
  { rewrite <- Hform. apply Forall_app. split; [done|].
    constructor; [apply main_folder_clean|done]. }
  unfold copy_element. rewrite Htag, str_eqb_refl, Htext.
  unfold bind at 1, lift at 1. rewrite Hget_src.
  unfold bind at 1, lift at 1. rewrite Hget_dest.
  unfold bind at 1, os_path_exists at 1. rewrite Hsrc.
  rewrite bool_decide_eq_true_2 by done. cbn [negb].
  unfold bind at 1. unfold dest in *. rewrite Hform in *.
  assert (Hsplit : Forall clean_component
                     (ws ++ [py "codeinpython_env"] ++ init)
                   /\ clean_component l).
  { apply Forall_app in Hdest_clean as [Hinit Hl]. split; [done|].
    by apply Forall_inv in Hl. }
  destruct Hsplit as [Hinit Hl].
  unfold isdir in Hparent, Hdest.
  rewrite dirname_absolute in Hparent
    by (try done; by apply clean_component_no_slash).
  rewrite stat_absolute in Hparent, Hdest by done.
  unfold recursive_overwrite.
  destruct (recursion_limit env) as [|fuel]; [done|].
  cbn [recursive_overwrite_rec].
  unfold bind at 1, os_path_isdir at 1. rewrite Hsrc.
  unfold try_except.
  unfold bind at 1, os_path_isdir at 1.
  rewrite dirname_absolute by (try done; by apply clean_component_no_slash).
  rewrite stat_absolute by done.
  destruct (fs w !! absolute (ws ++ [py "codeinpython_env"] ++ init))
    as [[|?]|] eqn:Hp; try done.
  cbn [negb]. unfold bind at 1, ret at 1.
  rewrite (shutil_copy2_canonical env w src
             (ws ++ [py "codeinpython_env"] ++ init) l content); try done.
  - intros Hd. by rewrite Hd in Hdest.
  - unfold src. rewrite fs_key_absolute by done. intros Heq.
    injection Heq as Heq. apply (f_equal (cons SLASH)) in Heq.
    apply (absolute_inj _ _ Hsrc_clean Hdest_clean) in Heq.
    rewrite <- Hform in Heq. apply app_inv_head in Heq.
    apply (f_equal length) in Heq. simpl in Heq. lia.
Qed.

(** A [remove] entry whose sanitized path [ps] is not empty is carried
    out below the main folder: a directory goes with all that is below it, a
    regular file is deleted, and where there is nothing, nothing happens;
    nothing is reported. *)
Theorem remove_entry_deletes_below_main env self ws element t ps errs w :
  SUBPATH_MU_CODE self = absolute ws -> Forall clean_component ws ->
  tag element = py "remove" -> text element = Some t ->
  map (clean_name env) (str_split SLASH (normpath t)) = ps ->
  Forall clean_component ps -> ps <> [] ->
  let target := absolute (ws ++ [py "codeinpython_env"] ++ ps) in
  remove_element env self [] element errs w
  = (Ok errs,
     match fs w !! target with
     | Some Dir =>
         with_fs w (filter (fun kv => under target (fst kv) = false) (fs w))
     | Some (File _) => with_fs w (delete target (fs w))
     | None => w
     end).
Proof.
  intros HMU Hws Htag Htext Hps Hclean Hne target.
  assert (Hall : Forall clean_component (ws ++ [py "codeinpython_env"] ++ ps)).
  { apply Forall_app. split; [done|].
    constructor; [apply main_folder_clean|done]. }
  pose proof (path_get_main_destination env self ws t ps HMU Hws Hps Hclean)
    as Hget. fold target in Hget.
  pose proof (valid_path_below_main env self ws ps HMU Hws Hclean Hne)
    as Hvalid. fold target in Hvalid.
  unfold remove_element. rewrite Htag, str_eqb_refl, Htext.
  unfold bind at 1, lift at 1. rewrite Hget.
  unfold bind at 1, lift at 1. rewrite Hvalid.
  unfold bind at 1. unfold bind at 1, os_path_isdir at 1.
  unfold target in *. rewrite stat_absolute by done.
  destruct (fs w !! absolute (ws ++ [py "codeinpython_env"] ++ ps))
    as [[|c]|] eqn:Hlook.
  - unfold shutil_rmtree_ignore_errors.
    rewrite fs_key_absolute by done. by rewrite Hlook.
  - unfold bind at 1, os_path_isfile at 1.
    rewrite stat_absolute by done. rewrite Hlook.
    unfold os_remove. rewrite fs_key_absolute by done. by rewrite Hlook.
  - unfold bind at 1, os_path_isfile at 1.
    rewrite stat_absolute by done. by rewrite Hlook.
Qed.

(** ** Removing the folders that count as empty *)

Lemma os_listdir_world env p w : snd (os_listdir env p w) = w.
Proof.
  unfold os_listdir. destruct (fs_key env p) as [k|]; [|done].
  by destruct (fs w !! k) as [[|c]|].
Qed.

Lemma for_acc_world {A S : Type} (l : list A) (f : A -> S -> M S) s w :
  (forall x s w, snd (f x s w) = w) -> snd (for_acc l f s w) = w.
Proof.
  intros Hf. revert s. induction l as [|x l IH]; intros s; [done|].
  cbn [for_acc]. unfold bind at 1.
  pose proof (Hf x s w) as Hx.
  destruct (f x s w) as [[s'|e] w1]; simpl in Hx; subst w1; [|done].
  apply IH.
Qed.

Lemma os_walk_world env fuel top w : snd (os_walk env fuel top w) = w.
Proof.
  revert top w. induction fuel as [|fuel IH]; intros top w; [done|].
  cbn [os_walk].
  pose proof (os_listdir_world env top w) as Hlist.
  destruct (os_listdir env top w) as [[names|e] w1]; [|done].
  unfold bind at 1.
  match goal with
  | |- context [for_acc ?l ?f [] w] =>
      pose proof (for_acc_world l f [] w) as Hacc;
      destruct (for_acc l f [] w) as [[below|e] w2]
  end.
  - cbn [fst snd] in *. apply Hacc. intros x s w0. unfold bind at 1.
    pose proof (IH (os_path_join top [x]) w0) as Hsub.
    by destruct (os_walk env fuel (os_path_join top [x]) w0) as [[sub|e'] w3].
  - cbn [fst snd] in *. apply Hacc. intros x s w0. unfold bind at 1.
    pose proof (IH (os_path_join top [x]) w0) as Hsub.
    by destruct (os_walk env fuel (os_path_join top [x]) w0) as [[sub|e'] w3].
Qed.

(** The walk of a directory that can be listed begins with it. *)
Lemma os_walk_head env fuel top w names walk :
  os_listdir env top w = (Ok names, w) ->
  os_walk env fuel top w = (Ok walk, w) ->
  exists below, walk = top :: below.
Proof.
  intros Hlist. destruct fuel as [|fuel]; [done|].
  cbn [os_walk]. rewrite Hlist. unfold bind at 1.
  match goal with
  | |- context [for_acc ?l ?f [] w] =>
      destruct (for_acc l f [] w) as [[below|e] w2]
  end; [|done].
  unfold ret. intros [= <- _]. by exists below.
Qed.

Lemma for_each_app {A : Type} (l1 l2 : list A) (f : A -> M unit) w :
  for_each (l1 ++ l2) f w = (for_each l1 f ;; for_each l2 f) w.
Proof.
  revert w. induction l1 as [|x l1 IH]; intros w; [done|].
  cbn [app for_each]. unfold bind in *.
  destruct (f x w) as [[[]|e] w1]; [|done].
  apply IH.
Qed.

(** One round of the loop only removes. *)
Lemma remove_if_empty_keeps env (files_to_ignore : list (list N)) path w k x :
  fs (snd ((names <- os_listdir env path ;;
            if forallb (fun name => bool_decide (name ∈ files_to_ignore)) names
            then shutil_rmtree_ignore_errors env path
            else ret tt) w)) !! k = Some x ->
  fs w !! k = Some x.
Proof.
  unfold bind at 1.
  pose proof (os_listdir_world env path w) as Hlist.
  destruct (os_listdir env path w) as [[names|e] w1];
    simpl in Hlist; subst w1; [|done].
  destruct (forallb _ names); [|done]. apply rmtree_lookup.
Qed.

Lemma remove_loop_keeps env (files_to_ignore : list (list N)) walk w k x :
  fs (snd (for_each walk
             (fun path =>
                names <- os_listdir env path ;;
                if forallb (fun name => bool_decide (name ∈ files_to_ignore))
                     names
                then shutil_rmtree_ignore_errors env path
                else ret tt) w)) !! k = Some x ->
  fs w !! k = Some x.
Proof.
  revert w. induction walk as [|path walk IH]; intros w; [done|].
  cbn [for_each]. unfold bind at 1.
  pose proof (remove_if_empty_keeps env files_to_ignore path w k x) as Hstep.
  match goal with
  | |- context [match ?m w with _ => _ end] =>
      change (fs (snd (m w)) !! k = Some x -> fs w !! k = Some x) in Hstep;
      destruct (m w) as [[[]|e] w1]
  end.
  - intros H. by apply Hstep, IH.
  - exact Hstep.
Qed.

(** A listing after removals holds no new names. *)
Lemma os_listdir_shrinks env p w w' names names' :
  (forall k x, fs w' !! k = Some x -> fs w !! k = Some x) ->
  os_listdir env p w = (Ok names, w) ->
  os_listdir env p w' = (Ok names', w') ->
  forall name, name ∈ names' -> name ∈ names.
Proof.
  intros Hsub. unfold os_listdir.
  destruct (fs_key env p) as [d|]; [|done].
  destruct (fs w !! d) as [[|c]|]; try done.
  destruct (fs w' !! d) as [[|c]|]; try done.
  intros [= <-] [= <-] name Hin.
  apply list_elem_of_fmap in Hin as ([k x] & -> & Hin).
  apply list_elem_of_filter in Hin as [Hp Hin].
  apply elem_of_map_to_list in Hin.
  apply list_elem_of_fmap. exists (k, x). split; [done|].
  apply list_elem_of_filter. split; [done|].
  by apply elem_of_map_to_list, Hsub.
Qed.

(** [remove_empty_folders] creates and changes nothing: what is there
    afterwards was there before.  A folder counts as empty by the names of
    its entries alone: if all of them are among the files to ignore, then
    once the call has returned nothing is left of the folder and of what
    was below it, also where one of the entries was a directory with
    content. *)
Theorem remove_empty_folders_goes_by_names env path_abs files_to_ignore w :
  let result := remove_empty_folders env path_abs files_to_ignore w in
  (forall k x, fs (snd result) !! k = Some x -> fs w !! k = Some x)
  /\ (forall names key,
        os_listdir env path_abs w = (Ok names, w) ->
        Forall (fun name => name ∈ files_to_ignore) names ->
        fs_key env path_abs = Some key ->
        fst result = Ok tt ->
        forall k, under key k = true -> fs (snd result) !! k = None).
Proof.
  intros result.
  pose proof (os_walk_world env (recursion_limit env) path_abs w) as Hworld.
  assert (Hrun : result = remove_empty_folders env path_abs files_to_ignore w)
    by done.
  clearbody result. unfold remove_empty_folders in Hrun.
  unfold bind at 1 in Hrun.
  destruct (os_walk env (recursion_limit env) path_abs w) as [[walk|e] w0]
    eqn:Hwalk; simpl in Hworld; subst w0.
  - split.
    + intros k x. rewrite Hrun. apply remove_loop_keeps.
    + intros names key Hlist Hall Hkey Hok k Hunder.
      destruct (os_walk_head env _ _ _ _ _ Hlist Hwalk) as [below ->].
      cbn [rev] in Hrun. rewrite for_each_app in Hrun.
      unfold bind at 1 in Hrun.
      match type of Hrun with
      | context [for_each (rev below) ?f w] =>
          pose proof (remove_loop_keeps env files_to_ignore (rev below) w)
            as Hkeeps;
          destruct (for_each (rev below) f w) as [[[]|e] w1]
      end; [|by subst result].
      simpl in Hkeeps.
      cbn [for_each] in Hrun. unfold bind at 1 in Hrun.
      unfold bind at 1 in Hrun.
      pose proof (os_listdir_world env path_abs w1) as Hw1.
      destruct (os_listdir env path_abs w1) as [[names'|e] w2] eqn:Hlist';
        simpl in Hw1; subst w2; [|by subst result].
      assert (Hign : forallb (fun name => bool_decide (name ∈ files_to_ignore))
                       names' = true).
      { apply forallb_forall. intros name Hin.
        apply bool_decide_eq_true.
        rewrite Forall_forall in Hall. apply Hall.
        apply (os_listdir_shrinks env path_abs w w1 names names' Hkeeps
                 Hlist Hlist').
        by apply list_elem_of_In. }
      rewrite Hign in Hrun.
      assert (Hdir : fs w1 !! key = Some Dir).
      { revert Hlist'. unfold os_listdir. rewrite Hkey.
        by destruct (fs w1 !! key) as [[|c]|]. }
      unfold shutil_rmtree_ignore_errors in Hrun.
      rewrite Hkey, Hdir in Hrun. unfold ret in Hrun. subst result.
      cbn [fst snd with_fs fs].
      apply map_lookup_filter_None_2.
      destruct (fs w1 !! k) as [y|]; [right|by left].
      intros z [= <-]. cbn [fst]. by rewrite Hunder.
  - subst result. split; [done|]. by intros names key _ _ _ Hok.
Qed.

(** ** A manifest that is not well-formed *)

(** On an archive (a regular file with the extension [.zip] that is a zip
    container and holds the manifest) whose manifest is not well-formed
    XML, the content check does not answer [False]: the [ParseError] of
    [ET.parse] escapes it, and with it the update check of [workspace_dir];
    nothing is changed and no dialog is shown. *)
Theorem malformed_manifest_raises env self pressed_yes input_path w src members
    config :
  checked_path env self input_path = Ok src ->
  stat env w src = Some (File (Zip members)) ->
  snd (splitext src) = py ".zip" ->
  getinfo members CONFIG_FILENAME = Ok config ->
  (forall root, config <> Data (Some root)) ->
  zip_check_content env self input_path w
  = (Raise (Exn "ParseError" (py "not well-formed")), w)
  /\ (input_path = [] ->
      workspace_dir_update env self pressed_yes w
      = (Raise (Exn "ParseError" (py "not well-formed")), w)).
Proof.
  intros Hsrc Hstat Hext Hinfo Hbad.
  assert (Hversion : zip_get_version env self src w
                     = (Raise (Exn "ParseError" (py "not well-formed")), w)).
  { unfold zip_get_version.
    unfold bind at 1, os_path_isfile at 1. rewrite Hstat.
    rewrite Hext, str_eqb_refl.
    unfold bind at 1, zipfile_ZipFile at 1. rewrite Hstat.
    rewrite bool_decide_eq_true_2 by (by eapply getinfo_namelist).
    unfold bind at 1, lift at 1. rewrite Hinfo.
    unfold xml_get_version, ET_parse.
    destruct config as [[root|]|ms]; [by destruct (Hbad root)|done|done]. }
  assert (Hcheck : zip_check_content env self input_path w
                   = (Raise (Exn "ParseError" (py "not well-formed")), w)).
  { unfold zip_check_content. unfold checked_path in Hsrc.
    assert (Hrun :
      (if negb (str_eqb input_path []) then ret (path_clean env input_path)
       else lift (path_get env self (py "zip install default file") []))
      = lift (Ok src)).
    { destruct (negb (str_eqb input_path [])); by rewrite ?Hsrc; simplify_eq. }
    rewrite Hrun. unfold bind at 1, lift at 1.
    unfold bind at 1, os_path_isfile at 1. rewrite Hstat. cbn [negb].
    unfold bind at 1, zipfile_is_zipfile at 1. rewrite Hstat.
    unfold bind at 1. by rewrite Hversion. }
  split; [done|].
  intros ->. unfold workspace_dir_update. unfold bind at 1. by rewrite Hcheck.
Qed.

(** ** The further properties at work *)

Lemma workspace_clean : Forall clean_component WORKSPACE.
Proof. repeat (constructor; [by apply clean_literal|]). constructor. Qed.

(** [trash] is a folder of the settings but no place. *)
Lemma unknown_place_example :
  (py "trash" ∉ map fst (path_struct example_settings []))
  /\ path_get example_env example_settings (py "trash") [Some (py "a")]
     = Raise (Exn "ValueError"
                (py "Can't find method to assembly path for command: "
                 ++ py "trash")).
Proof.
  assert (H1 : py "trash" ∉ map fst (path_struct example_settings []))
    by (apply (bool_decide_unpack _); by vm_compute).
  refine (conj H1 _).
  exact (proj2 (path_get_raises_on_an_unknown_place
                  example_env example_settings (py "trash") [Some (py "a")])
           H1).
Defined.

(** The main folder and a file of an example below it. *)
Lemma main_folder_is_refused_example :
  SUBPATH_MU_CODE example_settings = absolute WORKSPACE
  /\ valid_path example_env example_settings
       (absolute (WORKSPACE ++ [py "codeinpython_env"])) false = Ok false
  /\ valid_path example_env example_settings
       (absolute (WORKSPACE ++ [py "codeinpython_env"]
                  ++ [py "examples"; py "a.py"])) false = Ok true.
Proof.
  assert (H1 : SUBPATH_MU_CODE example_settings = absolute WORKSPACE)
    by reflexivity.
  assert (H2 : Forall clean_component [py "examples"; py "a.py"])
    by (repeat (constructor; [by apply clean_literal|]); constructor).
  assert (H3 : [py "examples"; py "a.py"] <> []) by done.
  refine (conj H1 _).
  pose proof (valid_path_refuses_the_main_folder_itself
                example_env example_settings WORKSPACE
                [py "examples"; py "a.py"] H1 workspace_clean H2 H3) as H.
  exact (conj (proj1 H) (proj1 (proj2 (proj2 H)))).
Defined.

(** The version of an archive whose manifest has two releases. *)
Lemma last_release_example :
  stat example_env
    (world_with INBOX (Zip [(CONFIG_FILENAME, manifest_released_twice)])) INBOX
  = Some (File (Zip [(CONFIG_FILENAME, manifest_released_twice)]))
  /\ zip_get_version example_env example_settings INBOX
       (world_with INBOX (Zip [(CONFIG_FILENAME, manifest_released_twice)]))
     = (Ok (true,
            {| release := Some (py "1.1"); date := Some (py "2024-05-01");
               description := None |}),
        world_with INBOX (Zip [(CONFIG_FILENAME, manifest_released_twice)])).
Proof.
  assert (H1 : stat example_env
                 (world_with INBOX
                    (Zip [(CONFIG_FILENAME, manifest_released_twice)])) INBOX
               = Some (File (Zip [(CONFIG_FILENAME, manifest_released_twice)])))
    by (vm_compute; reflexivity).
  assert (H2 : snd (splitext INBOX) = py ".zip") by (vm_compute; reflexivity).
  assert (H3 : getinfo [(CONFIG_FILENAME, manifest_released_twice)]
                 CONFIG_FILENAME = Ok manifest_released_twice)
    by reflexivity.
  refine (conj H1 _).
  exact (zip_get_version_reads_the_last_release example_env example_settings
           INBOX _ _ _ H1 H2 H3).
Defined.

(** A file of the home directory is copied into the workspace. *)
Lemma copy_a_file_example :
  stat example_env (world_with (py "/home/u/a.py") (Data None))
    (py "/home/u/a.py") = Some (File (Data None))
  /\ recursive_overwrite example_env (py "/home/u/a.py")
       (absolute (WORKSPACE ++ [py "b.py"]))
       (world_with (py "/home/u/a.py") (Data None))
     = (Ok tt,
        with_fs (world_with (py "/home/u/a.py") (Data None))
          (<[absolute (WORKSPACE ++ [py "b.py"]) := File (Data None)]>
             (fs (world_with (py "/home/u/a.py") (Data None))))).
Proof.
  assert (H1 : stat example_env (world_with (py "/home/u/a.py") (Data None))
                 (py "/home/u/a.py") = Some (File (Data None)))
    by (vm_compute; reflexivity).
  assert (H2 : Forall clean_component (WORKSPACE ++ [py "b.py"]))
    by (repeat (constructor; [by apply clean_literal|]); constructor).
  refine (conj H1 _).
  refine (recursive_overwrite_copies_a_file example_env _ _ WORKSPACE
            (py "b.py") _ _ H2 H1 _ _ _).
  - done.
  - by vm_compute.
  - by vm_compute.
  - by vm_compute.
Defined.

(** A file copied onto itself, the destination spelled differently. *)
Lemma copy_onto_itself_example :
  stat example_env (world_with (py "/home/u/a.py") (Data None)) (py "a.py")
  = Some (File (Data None))
  /\ recursive_overwrite example_env (py "a.py") (py "/home/u/a.py")
       (world_with (py "/home/u/a.py") (Data None))
     = (Raise (Exn "TypeError"
                 (py "replace expected at least 2 arguments, got 1")),
        world_with (py "/home/u/a.py") (Data None)).
Proof.
  assert (H1 : stat example_env (world_with (py "/home/u/a.py") (Data None))
                 (py "a.py") = Some (File (Data None)))
    by (vm_compute; reflexivity).
  refine (conj H1 _).
  refine (recursive_overwrite_onto_itself_raises example_env _ _ _ _ _ H1 _ _).
  - done.
  - by vm_compute.
  - by vm_compute.
Defined.

(** The folders of a fresh installation. *)
Lemma initial_preparation_example :
  isdir example_env {| fs := list_to_map example_dirs; shown := [] |}
    (absolute WORKSPACE) = true
  /\ initial_preparation_folders example_env example_settings
       {| fs := list_to_map example_dirs; shown := [] |}
     = (Ok tt,
        {| fs := fold_left (fun m p => <[p := Dir]> m)
                   (required_folder_paths WORKSPACE)
                   (list_to_map example_dirs);
           shown := [] |}).
Proof.
  assert (H1 : isdir example_env
                 {| fs := list_to_map example_dirs; shown := [] |}
                 (absolute WORKSPACE) = true)
    by (vm_compute; reflexivity).
  refine (conj H1 _).
  refine (initial_preparation_creates_the_folders example_env example_settings
            WORKSPACE _ eq_refl workspace_clean _ H1 _).
  - done.
  - repeat (constructor; [by vm_compute|]). constructor.
Defined.

(** An example whose description names a start file with a path. *)
Lemma start_file_example :
  example_check_correctness example_env example_settings BLINK
    (blink_world (Some (File description_with_start_file)))
  = (Ok (Some (true, BLINK ++ py "/run.py")),
     blink_world (Some (File description_with_start_file)))
  /\ exists name,
       (SLASH ∉ name) /\ BLINK ++ py "/run.py" = os_path_join BLINK [name]
       /\ (true = true ->
           is_Some (stat example_env
                      (blink_world (Some (File description_with_start_file)))
                      (BLINK ++ py "/run.py"))).
Proof.
  assert (H1 : example_check_correctness example_env example_settings BLINK
                 (blink_world (Some (File description_with_start_file)))
               = (Ok (Some (true, BLINK ++ py "/run.py")),
                  blink_world (Some (File description_with_start_file))))
    by (vm_compute; reflexivity).
  refine (conj H1 _).
  exact (proj2 (example_start_file_is_in_the_folder example_env
                  example_settings BLINK _ _ _ _ H1)).
Defined.

(** An example whose description is not well-formed. *)
Lemma broken_description_example :
  isdir example_env (blink_world (Some (File (Data None)))) BLINK = true
  /\ example_check_correctness example_env example_settings BLINK
       (blink_world (Some (File (Data None))))
     = (Ok (Some (false,
                  os_path_join BLINK [snd (os_path_split BLINK) ++ py ".py"])),
        blink_world (Some (File (Data None)))).
Proof.
  assert (H1 : isdir example_env (blink_world (Some (File (Data None)))) BLINK
               = true) by (vm_compute; reflexivity).
  refine (conj H1 _).
  refine (proj1 (proj2 (example_description_edge_cases example_env
                          example_settings BLINK _ H1)) (Data None) _ _).
  - by vm_compute.
  - done.
Defined.

(** A user who declines the archive in the default place. *)
Lemma show_comparision_example :
  path_get example_env example_settings (py "zip install default file") []
  = Ok INBOX
  /\ fs (snd (show_comparision_of_zip_files example_env example_settings
                always_no [] (world_with INBOX archive_with_failures)))
     = fs (world_with INBOX archive_with_failures).
Proof.
  assert (H1 : path_get example_env example_settings
                 (py "zip install default file") [] = Ok INBOX)
    by (vm_compute; reflexivity).
  refine (conj H1 _).
  exact (proj1 (show_comparision_asks_before_it_agrees example_env
                  example_settings always_no []
                  (world_with INBOX archive_with_failures) INBOX H1)).
Defined.

(** The declined archive is gone. *)
Lemma declined_update_example :
  SUBPATH_MU_CODE example_settings = absolute WORKSPACE
  /\ fst (zip_check_content example_env example_settings []
            (world_with INBOX archive_with_failures)) = Ok true
  /\ workspace_dir_update example_env example_settings always_no
       (world_with INBOX archive_with_failures)
     = (Ok tt,
        with_fs (world_with INBOX archive_with_failures)
          (delete (absolute (WORKSPACE ++ [py "codeinpython_env"; ZIP_FILENAME]))
             (fs (world_with INBOX archive_with_failures)))).
Proof.
  assert (H1 : SUBPATH_MU_CODE example_settings = absolute WORKSPACE)
    by reflexivity.
  assert (H2 : fst (zip_check_content example_env example_settings []
                      (world_with INBOX archive_with_failures)) = Ok true)
    by (vm_compute; reflexivity).
  refine (conj H1 (conj H2 _)).
  refine (proj1 (proj2 (declined_update_is_deleted example_env
                          example_settings always_no WORKSPACE
                          (world_with INBOX archive_with_failures)
                          H1 workspace_clean)) H2 _ _).
  - eexists. by vm_compute.
  - done.
Defined.

(** The archive slot after an installation from a file of the home
    directory. *)
Lemma archived_example :
  stat example_env
    (world_with_archive_folder (py "/home/u/update.zip") archive_with_failures)
    (py "/home/u/update.zip") = Some (File archive_with_failures)
  /\ report_or_archive example_env example_settings (py "/home/u/update.zip") []
       (world_with_archive_folder (py "/home/u/update.zip")
          archive_with_failures)
     = (Ok tt,
        with_fs
          (world_with_archive_folder (py "/home/u/update.zip")
             archive_with_failures)
          (<[absolute (WORKSPACE ++ [py "codeinpython_env"; py "archive";
                                     ZIP_FILENAME])
             := File archive_with_failures]>
             (fs (world_with_archive_folder (py "/home/u/update.zip")
                    archive_with_failures)))).
Proof.
  assert (H1 : stat example_env
                 (world_with_archive_folder (py "/home/u/update.zip")
                    archive_with_failures)
                 (py "/home/u/update.zip") = Some (File archive_with_failures))
    by (vm_compute; reflexivity).
  refine (conj H1 _).
  refine (proj1 (faultless_install_is_archived example_env example_settings
                   WORKSPACE _ _ _ eq_refl workspace_clean H1 _ _)).
  - by vm_compute.
  - by vm_compute.
Defined.

(** A member named [../codeinpython_update.zip] does not reach the file
    of that name beside the scratch directory. *)
Lemma climbing_member_example :
  fs (world_with INBOX archive_with_failures) !! INBOX
  = Some (File archive_with_failures)
  /\ under (absolute (WORKSPACE ++ [py "codeinpython_env"; py "temp"])) INBOX
     = false
  /\ fs (snd (extractall example_env climbing_members
                (absolute (WORKSPACE ++ [py "codeinpython_env"; py "temp"]))
                (world_with INBOX archive_with_failures))) !! INBOX
     = Some (File archive_with_failures).
Proof.
  assert (H1 : fs (world_with INBOX archive_with_failures) !! INBOX
               = Some (File archive_with_failures))
    by (vm_compute; reflexivity).
  assert (H2 : under (absolute (WORKSPACE ++ [py "codeinpython_env"; py "temp"]))
                 INBOX = false) by (vm_compute; reflexivity).
  refine (conj H1 (conj H2 _)).
  refine (extractall_keeps_what_is_outside example_env climbing_members
            (WORKSPACE ++ [py "codeinpython_env"; py "temp"]) _ _ _ _ H1 H2).
  repeat (constructor; [by apply clean_literal|]). constructor.
Defined.

(** The file of the lesson [lesson 1] of the user [ann]. *)
Lemma student_file_example :
  SUBPATH_MU_CODE example_settings = absolute WORKSPACE
  /\ exists init stem,
       WORKSPACE ++ [py "codeinpython_env"; py "workspace"; py "my_school";
                     py "ann"] ++ [] ++ [py "lesson_1"]
       = init ++ [stem]
       /\ path_get example_env example_settings (py "student file")
            [Some (py "lesson 1")]
          = Ok (absolute
                  ((WORKSPACE ++ [py "codeinpython_env"; py "workspace";
                                  py "my_school"; py "ann"] ++ []
                    ++ [py "lesson_1"])
                   ++ [stem ++ py ".py"])).
Proof.
  assert (H1 : SUBPATH_MU_CODE example_settings = absolute WORKSPACE)
    by reflexivity.
  refine (conj H1 _).
  refine (student_file_is_named_after_its_folder example_env example_settings
            WORKSPACE (py "student file") [Some (py "lesson 1")]
            H1 workspace_clean _ _ _ _ _ _).
  - by apply clean_literal.
  - done.
  - by apply clean_literal.
  - done.
  - repeat (constructor; [by apply clean_literal|]). constructor.
  - by left.
Defined.

(** A path that starts at the home directory and climbs. *)
Lemma path_clean_example :
  getcwd example_env = absolute [py "home"; py "u"]
  /\ fs_encodable (py "~/../x/./y")
  /\ path_clean example_env (path_clean example_env (py "~/../x/./y"))
     = path_clean example_env (py "~/../x/./y").
Proof.
  assert (H1 : getcwd example_env = absolute [py "home"; py "u"])
    by reflexivity.
  assert (H2 : Forall clean_component [py "home"; py "u"])
    by (repeat (constructor; [by apply clean_literal|]); constructor).
  assert (H3 : fs_encodable (py "~/../x/./y"))
    by (apply (bool_decide_unpack _); by vm_compute).
  refine (conj H1 (conj H3 _)).
  exact (proj2 (proj2 (path_clean_is_canonical_and_idempotent example_env
                         [py "home"; py "u"] (py "~/../x/./y") H1 H2 H3))).
Defined.

(** The module search path of a program that adds the same folder twice,
    in two spellings. *)
Lemma path_for_codeinpython_add_example :
  fs_encodable (py "lessons/../lessons/")
  /\ path_for_codeinpython_add example_env example_settings
       (py "lessons/../lessons/")
       (path_for_codeinpython_add example_env example_settings
          (py "lessons") [py "/usr/lib/python3"])
     = [py "/usr/lib/python3"; py "/home/u/lessons"].
Proof.
  assert (H1 : fs_encodable (py "lessons/../lessons/"))
    by (apply (bool_decide_unpack _); by vm_compute).
  refine (conj H1 _).
  refine (eq_trans
            (proj1 (proj2 (proj2
               (path_for_codeinpython_add_adds_once example_env
                  example_settings (py "lessons/../lessons/")
                  [py "/usr/lib/python3"] H1)))) _).
  by vm_compute.
Defined.

(** The entry that copies [examples/a.py]. *)
Lemma copy_entry_example :
  stat example_env unpacked_world
    (absolute (WORKSPACE ++ [py "codeinpython_env"; py "temp"]
               ++ [py "examples"; py "a.py"]))
  = Some (File (Data None))
  /\ copy_element example_env example_settings []
       (entry "copy" "examples/a.py") [] unpacked_world
     = (Ok [],
        with_fs unpacked_world
          (<[absolute (WORKSPACE ++ [py "codeinpython_env"]
                       ++ [py "examples"; py "a.py"])
             := File (Data None)]> (fs unpacked_world))).
Proof.
  assert (H1 : stat example_env unpacked_world
                 (absolute (WORKSPACE ++ [py "codeinpython_env"; py "temp"]
                            ++ [py "examples"; py "a.py"]))
               = Some (File (Data None))) by (vm_compute; reflexivity).
  refine (conj H1 _).
  refine (copy_entry_installs_the_file example_env example_settings WORKSPACE
            (entry "copy" "examples/a.py") (py "examples/a.py")
            [py "examples"; py "a.py"] (Data None) [] unpacked_world
            eq_refl workspace_clean _ eq_refl eq_refl _ _ _ H1 _ _).
  - done.
  - by vm_compute.
  - repeat (constructor; [by apply clean_literal|]). constructor.
  - done.
  - by vm_compute.
  - by vm_compute.
Defined.

(** The entry that removes the folder [examples]. *)
Lemma remove_entry_example :
  fs unpacked_world
    !! absolute (WORKSPACE ++ [py "codeinpython_env"] ++ [py "examples"])
  = Some Dir
  /\ remove_element example_env example_settings []
       (entry "remove" "examples") [] unpacked_world
     = (Ok [],
        match fs unpacked_world
                !! absolute (WORKSPACE ++ [py "codeinpython_env"]
                             ++ [py "examples"]) with
        | Some Dir =>
            with_fs unpacked_world
              (filter
                 (fun kv =>
                    under (absolute (WORKSPACE ++ [py "codeinpython_env"]
                                     ++ [py "examples"])) (fst kv) = false)
                 (fs unpacked_world))
        | Some (File _) =>
            with_fs unpacked_world
              (delete (absolute (WORKSPACE ++ [py "codeinpython_env"]
                                 ++ [py "examples"])) (fs unpacked_world))
        | None => unpacked_world
        end).
Proof.
  assert (H1 : fs unpacked_world
                 !! absolute (WORKSPACE ++ [py "codeinpython_env"]
                              ++ [py "examples"]) = Some Dir)
    by (vm_compute; reflexivity).
  refine (conj H1 _).
  refine (remove_entry_deletes_below_main example_env example_settings
            WORKSPACE (entry "remove" "examples") (py "examples")
            [py "examples"] [] unpacked_world
            eq_refl workspace_clean eq_refl eq_refl _ _ _).
  - by vm_compute.
  - repeat (constructor; [by apply clean_literal|]). constructor.
  - done.
Defined.

(** A lesson folder that holds nothing but a directory with the name of
    the description file: the program in that directory goes with it. *)
Lemma folder_named_like_a_file_example :
  os_listdir example_env LESSON lesson_with_a_folder_named_like_a_file
  = (Ok [EXAMPLE_DESC_FILENAME], lesson_with_a_folder_named_like_a_file)
  /\ fs lesson_with_a_folder_named_like_a_file
       !! (LESSON ++ py "/description.xml/run.py")
     = Some (File (Data None))
  /\ fst (remove_empty_folders example_env LESSON [EXAMPLE_DESC_FILENAME]
            lesson_with_a_folder_named_like_a_file) = Ok tt
  /\ fs (snd (remove_empty_folders example_env LESSON [EXAMPLE_DESC_FILENAME]
                lesson_with_a_folder_named_like_a_file))
       !! (LESSON ++ py "/description.xml/run.py")
     = None.
Proof.
  assert (H1 : os_listdir example_env LESSON
                 lesson_with_a_folder_named_like_a_file
               = (Ok [EXAMPLE_DESC_FILENAME],
                  lesson_with_a_folder_named_like_a_file))
    by (apply injective_projections;
          [by vm_compute|apply os_listdir_world]).
  assert (H2 : fs lesson_with_a_folder_named_like_a_file
                 !! (LESSON ++ py "/description.xml/run.py")
               = Some (File (Data None))) by (vm_compute; reflexivity).
  assert (H3 : fst (remove_empty_folders example_env LESSON
                      [EXAMPLE_DESC_FILENAME]
                      lesson_with_a_folder_named_like_a_file) = Ok tt)
    by (vm_compute; reflexivity).
  refine (conj H1 (conj H2 (conj H3 _))).
  refine (proj2 (remove_empty_folders_goes_by_names example_env LESSON
                   [EXAMPLE_DESC_FILENAME]
                   lesson_with_a_folder_named_like_a_file)
            [EXAMPLE_DESC_FILENAME] LESSON H1 _ _ H3 _ _).
  - repeat constructor.
  - by vm_compute.
  - by vm_compute.
Defined.

(** An archive in the default place whose manifest is not XML. *)
Lemma malformed_manifest_example :
  checked_path example_env example_settings [] = Ok INBOX
  /\ zip_check_content example_env example_settings []
       (world_with INBOX (Zip [(CONFIG_FILENAME, Data None)]))
     = (Raise (Exn "ParseError" (py "not well-formed")),
        world_with INBOX (Zip [(CONFIG_FILENAME, Data None)])).
Proof.
  assert (H1 : checked_path example_env example_settings [] = Ok INBOX)
    by (vm_compute; reflexivity).
  refine (conj H1 _).
  refine (proj1 (malformed_manifest_raises example_env example_settings
                   always_no [] _ INBOX [(CONFIG_FILENAME, Data None)]
                   (Data None) H1 _ _ eq_refl _)).
  - by vm_compute.
  - by vm_compute.
  - done.
Defined.

(** * The resolver and the installer from end to end *)

(** ** Joining segments, whatever they are *)

Lemma climb_normpath_step stack c :
  Forall clean_component stack -> normpath_step 1 stack c = climb stack c.
Proof.
  intros Hstack. unfold normpath_step, climb.
  destruct (str_eqb c [] || str_eqb c curdir); [done|].
  destruct (str_eqb c pardir) eqn:Hc; cbn [negb orb andb Nat.eqb].
  - destruct stack as [|l stack]; [done|].
    apply Forall_inv in Hstack. destruct Hstack as (_ & _ & Hl & _).
    by rewrite (proj2 (str_eqb_false _ _) Hl).
  - done.
Qed.

Lemma climb_clean stack c :
  Forall clean_component stack -> SLASH ∉ c ->
  Forall clean_component (climb stack c).
Proof.
  intros Hstack Hc. rewrite <- climb_normpath_step by done.
  by apply normpath_step_clean.
Qed.

Lemma climb_fold_clean segments stack :
  Forall clean_component stack -> Forall (fun c => SLASH ∉ c) segments ->
  Forall clean_component (fold_left climb segments stack).
Proof.
  intros Hstack Hsegs. revert stack Hstack.
  induction Hsegs as [|c cs Hc Hcs IH]; intros stack Hstack; [done|].
  cbn [fold_left]. apply IH. by apply climb_clean.
Qed.

Lemma resolved_clean segments :
  Forall (fun c => SLASH ∉ c) segments -> Forall clean_component (resolved segments).
Proof.
  intros Hsegs. unfold resolved. apply Forall_rev.
  by apply climb_fold_clean.
Qed.

Lemma climb_step_clean stack c : clean_component c -> climb stack c = c :: stack.
Proof.
  intros (H1 & H2 & H3 & _). unfold climb.
  by rewrite (proj2 (str_eqb_false _ _) H1), (proj2 (str_eqb_false _ _) H2),
    (proj2 (str_eqb_false _ _) H3).
Qed.

Lemma climb_fold_push comps stack :
  Forall clean_component comps ->
  fold_left climb comps stack = rev comps ++ stack.
Proof.
  intros Hcomps. revert stack.
  induction Hcomps as [|c cs Hc Hcs IH]; intros stack; [done|].
  cbn [fold_left rev]. rewrite climb_step_clean by done.
  rewrite IH. by rewrite <- app_assoc.
Qed.

(** Proper names are components as they stand. *)
Lemma resolved_of_clean comps :
  Forall clean_component comps -> resolved comps = comps.
Proof.
  intros Hcomps. unfold resolved. rewrite climb_fold_push by done.
  by rewrite app_nil_r, rev_involutive.
Qed.

Lemma resolved_app comps segments :
  Forall clean_component comps ->
  resolved (comps ++ segments) = rev (fold_left climb segments (rev comps)).
Proof.
  intros Hcomps. unfold resolved. rewrite fold_left_app.
  rewrite (climb_fold_push comps) by done. by rewrite app_nil_r.
Qed.

Lemma normpath_fold_climb segments stack :
  Forall clean_component stack -> Forall (fun c => SLASH ∉ c) segments ->
  fold_left (normpath_step 1) segments stack = fold_left climb segments stack.
Proof.
  intros Hstack Hsegs. revert stack Hstack.
  induction Hsegs as [|c cs Hc Hcs IH]; intros stack Hstack; [done|].
  cbn [fold_left]. rewrite climb_normpath_step by done.
  apply IH. by apply climb_clean.
Qed.

(** Cutting at a slash cuts the two sides. *)
Lemma str_split_at_slash a b :
  str_split SLASH (a ++ SLASH :: b) = str_split SLASH a ++ str_split SLASH b.
Proof.
  induction a as [|c a IH]; cbn [app str_split].
  - by rewrite N.eqb_refl.
  - destruct (N.eqb c SLASH); [by rewrite IH|].
    rewrite IH. pose proof (str_split_nonempty a) as Hne.
    by destruct (str_split SLASH a).
Qed.

Lemma endswith_slash q :
  endswith q [SLASH] = true -> exists q', q = q' ++ [SLASH].
Proof.
  unfold endswith. cbn [rev app]. intros H.
  destruct (rev q) as [|x r] eqn:Hr; [done|].
  cbn [startswith] in H. apply andb_true_iff in H as [Hx _].
  apply N.eqb_eq in Hx. subst x. exists (rev r).
  apply (f_equal (@rev _)) in Hr. rewrite rev_involutive in Hr.
  by rewrite Hr.
Qed.

Lemma joined_absolute comps :
  Forall clean_component comps -> joined (absolute comps) (rev comps).
Proof.
  intros Hcomps. unfold joined. split; [exact (isabs_absolute comps)|]. split.
  { destruct comps as [|c cs]; [done|].
    apply Forall_inv in Hcomps.
    destruct (clean_component_head c Hcomps) as (x & t & -> & Hx).
    destruct cs; cbn [absolute str_join app startswith];
      rewrite N.eqb_refl; cbn [andb];
      by rewrite (proj2 (N.eqb_neq SLASH x)). }
  split; [by apply Forall_rev|].
  unfold absolute. change (SLASH :: str_join [SLASH] comps)
    with ([] ++ SLASH :: str_join [SLASH] comps).
  rewrite str_split_at_slash. cbn [str_split app fold_left].
  change (normpath_step 1 [] []) with (@nil (list N)).
  destruct comps as [|c cs]; [done|].
  rewrite str_split_join; [|done|].
  - rewrite normpath_fold_push by done. by rewrite app_nil_r.
  - eapply Forall_impl; [exact Hcomps|]. apply clean_component_no_slash.
Qed.

Lemma startswith_nil_slash (s : list N) :
  SLASH ∉ s -> startswith s [SLASH] = false.
Proof.
  intros Hs. destruct s as [|x t]; [done|]. cbn [startswith].
  rewrite (proj2 (N.eqb_neq SLASH x)); [done|].
  intros <-. apply Hs, list_elem_of_here.
Qed.

Lemma joined_join2 q stack s :
  joined q stack -> SLASH ∉ s ->
  joined (join2 q s) (climb stack s).
Proof.
  intros (Habs & Hone & Hstack & Hfold) Hs.
  pose proof (startswith_nil_slash s Hs) as Hrel.
  destruct q as [|x q]; [done|].
  cbn [startswith] in Habs. rewrite andb_true_r in Habs.
  apply N.eqb_eq in Habs. subst x.
  unfold join2. rewrite Hrel.
  rewrite (proj2 (str_eqb_false (SLASH :: q) [])) by done. cbn [orb].
  destruct (endswith (SLASH :: q) [SLASH]) eqn:Hend.
  - apply endswith_slash in Hend as (q' & Hq').
    unfold joined. split; [done|]. split.
    { destruct q as [|y q].
      - cbn [app startswith]. rewrite N.eqb_refl. cbn [andb].
        destruct s as [|z s]; [done|]. cbn [startswith].
        rewrite (proj2 (N.eqb_neq SLASH z)); [done|].
        intros <-. apply Hs, list_elem_of_here.
      - cbn [app startswith] in *. exact Hone. }
    split; [by apply climb_clean|].
    rewrite Hq' in Hfold |- *. rewrite <- app_assoc. cbn [app].
    rewrite str_split_at_slash in Hfold |- *.
    rewrite fold_left_app in Hfold |- *.
    cbn [str_split fold_left] in Hfold.
    change (normpath_step 1 ?st []) with st in Hfold.
    rewrite Hfold. rewrite (str_split_whole s Hs). cbn [fold_left].
    by apply climb_normpath_step.
  - unfold joined. split; [done|]. split.
    { destruct q as [|y q]; [by vm_compute in Hend|].
      cbn [app startswith] in *. exact Hone. }
    split; [by apply climb_clean|].
    change ((SLASH :: q) ++ [SLASH] ++ s) with ((SLASH :: q) ++ SLASH :: s).
    rewrite str_split_at_slash, fold_left_app, Hfold.
    rewrite (str_split_whole s Hs). cbn [fold_left].
    by apply climb_normpath_step.
Qed.

Lemma joined_normpath q stack :
  joined q stack -> normpath q = absolute (rev stack).
Proof.
  intros (Habs & Hone & Hstack & Hfold). unfold normpath.
  destruct q as [|x q]; [done|].
  rewrite (proj2 (str_eqb_false (x :: q) [])) by done.
  rewrite Habs, Hone. cbn [andb]. cbv zeta. rewrite Hfold. done.
Qed.

Lemma joined_path_clean env q stack :
  joined q stack -> path_clean env q = absolute (rev stack).
Proof.
  intros Hq. apply path_clean_normal.
  - destruct Hq as (Habs & _). by destruct q.
  - apply Forall_rev. by destruct Hq as (_ & _ & Hstack & _).
  - by apply joined_normpath.
Qed.

(** The file name [os.path.split] finds after joining a segment is that
    segment. *)
Lemma os_path_split_join2 q s :
  SLASH ∉ s -> snd (os_path_split (join2 q s)) = s.
Proof.
  intros Hs. unfold join2. rewrite (startswith_nil_slash s Hs).
  destruct (str_eqb q []) eqn:Hq.
  { apply str_eqb_true in Hq. subst q. cbn [orb app].
    by rewrite os_path_split_no_slash. }
  cbn [orb]. destruct (endswith q [SLASH]) eqn:Hend.
  - apply endswith_slash in Hend as (q' & ->).
    rewrite <- app_assoc. cbn [app]. by rewrite os_path_split_app.
  - change (q ++ [SLASH] ++ s) with (q ++ SLASH :: s).
    by rewrite os_path_split_app.
Qed.

Lemma assemble_step_joined q stack s :
  joined q stack -> SLASH ∉ s -> s <> APPEND_PY_FILE ->
  joined (assemble_step q s) (climb stack s).
Proof.
  intros Hq Hs Hne. unfold assemble_step.
  rewrite (proj2 (str_eqb_false _ _) Hne). cbn [os_path_join fold_left].
  by apply joined_join2.
Qed.

Lemma assemble_fold_joined segments q stack :
  joined q stack -> Forall (fun c => SLASH ∉ c) segments ->
  Forall (fun c => c <> APPEND_PY_FILE) segments ->
  joined (fold_left assemble_step segments q) (fold_left climb segments stack).
Proof.
  intros Hq Hsegs. revert q stack Hq.
  induction Hsegs as [|s l Hs Hl IH]; intros q stack Hq Happ; [done|].
  cbn [fold_left]. apply IH.
  - apply assemble_step_joined; [done|done|]. by apply Forall_inv in Happ.
  - by apply Forall_inv_tail in Happ.
Qed.

(** After the last segment the file name [os.path.split] finds is that
    segment. *)
Lemma assemble_fold_tail segments q :
  segments <> [] -> Forall (fun c => SLASH ∉ c) segments ->
  Forall (fun c => c <> APPEND_PY_FILE) segments ->
  snd (os_path_split (fold_left assemble_step segments q))
  = default [] (last segments).
Proof.
  intros Hne Hsegs Happ.
  destruct (exists_last Hne) as (init & s & ->).
  rewrite fold_left_app, last_snoc. cbn [fold_left default].
  apply Forall_app in Hsegs as [_ Hs]. apply Forall_inv in Hs.
  apply Forall_app in Happ as [_ Ha]. apply Forall_inv in Ha.
  unfold assemble_step. rewrite (proj2 (str_eqb_false _ _) Ha).
  cbn [os_path_join fold_left]. by apply os_path_split_join2.
Qed.

Lemma py_file_no_slash s : SLASH ∉ s -> SLASH ∉ s ++ py ".py".
Proof.
  intros Hs Hin. apply elem_of_app in Hin as [Hin|Hin]; [done|].
  revert Hin. apply (bool_decide_unpack _). by vm_compute.
Qed.

Lemma assemble_fold_pseudo segments after q stack :
  joined q stack -> segments <> [] ->
  Forall (fun c => SLASH ∉ c) segments ->
  Forall (fun c => c <> APPEND_PY_FILE) segments ->
  Forall (fun c => c = APPEND_PY_FILE) after ->
  (length after <= 1)%nat ->
  joined (fold_left assemble_step (segments ++ after) q)
    (fold_left climb
       (segments ++ map (fun _ => default [] (last segments) ++ py ".py") after)
       stack).
Proof.
  intros Hq Hne Hsegs Happ Hafter Hlen.
  rewrite !fold_left_app.
  pose proof (assemble_fold_joined segments q stack Hq Hsegs Happ) as Hj.
  destruct after as [|a after]; [done|].
  destruct after; [|simpl in Hlen; lia].
  apply Forall_inv in Hafter. subst a. cbn [map fold_left].
  unfold assemble_step at 1. rewrite str_eqb_refl.
  rewrite assemble_fold_tail by done.
  cbn [os_path_join fold_left]. apply joined_join2; [done|].
  apply py_file_no_slash.
  destruct (exists_last Hne) as (init & s & ->). rewrite last_snoc.
  apply Forall_app in Hsegs as [_ Hs]. by apply Forall_inv in Hs.
Qed.

Lemma spec_segments_no_slash env parameters :
  Forall (fun c => SLASH ∉ c) (spec_segments env parameters).
Proof.
  rewrite <- clean_segments_spec. apply Forall_forall. intros c Hc.
  apply list_elem_of_fmap in Hc as (s & -> & _). intros Hin.
  apply clean_name_kept in Hin. by vm_compute in Hin.
Qed.

Lemma spec_segments_not_pseudo env parameters :
  Forall (fun c => c <> APPEND_PY_FILE) (spec_segments env parameters).
Proof.
  rewrite <- clean_segments_spec. apply Forall_forall. intros c Hc.
  apply list_elem_of_fmap in Hc as (s & -> & _).
  apply clean_name_not_append_py_file.
Qed.

Lemma template_after self place before takes after :
  dict_get (template_table self) place = Some (before, takes, after) ->
  Forall (fun c => c = APPEND_PY_FILE) after /\ (length after <= 1)%nat.
Proof.
  unfold template_table. cbn [dict_get].
  repeat (match goal with
          | |- context [str_eqb ?k place] => destruct (str_eqb k place)
          end;
          [intros [= <- <- <-]; split; [by repeat constructor|simpl; lia]|]).
  done.
Qed.

(** The path of a place, for a canonical workspace and literal segments
    without a slash: its components are those the segments of the place
    lead to from the workspace. *)
Lemma path_create_resolved env self ws place before takes after parameters :
  SUBPATH_MU_CODE self = absolute ws -> Forall clean_component ws ->
  dict_get (template_table self) place
  = Some (SUBPATH_MU_CODE self :: before, takes, after) ->
  before <> [] ->
  Forall (fun c => SLASH ∉ c) before ->
  Forall (fun c => c <> APPEND_PY_FILE) before ->
  path_create env self place parameters
  = Ok (absolute
          (resolved (ws ++ place_segments env before takes after parameters))).
Proof.
  intros HMU Hws Hplace Hne Hslash Happ.
  destruct (template_after self place _ _ _ Hplace) as [Hafter Hlen].
  unfold path_create. rewrite path_struct_template, Hplace. cbv iota beta.
  rewrite clean_segments_spec. f_equal.
  cbn [app fold_left]. rewrite (assemble_workspace self ws HMU).
  set (segments := before ++ (if takes then spec_segments env parameters else [])).
  assert (Hsegs : Forall (fun c => SLASH ∉ c) segments).
  { apply Forall_app. split; [done|].
    destruct takes; [apply spec_segments_no_slash|done]. }
  assert (Hpseudo : Forall (fun c => c <> APPEND_PY_FILE) segments).
  { apply Forall_app. split; [done|].
    destruct takes; [apply spec_segments_not_pseudo|done]. }
  assert (Hsne : segments <> []).
  { unfold segments. by destruct before. }
  replace (before ++ (if takes then spec_segments env parameters else [])
           ++ after) with (segments ++ after)
    by (unfold segments; by rewrite <- app_assoc).
  pose proof (assemble_fold_pseudo segments after (absolute ws) (rev ws)
                (joined_absolute ws Hws) Hsne Hsegs Hpseudo Hafter Hlen) as Hj.
  rewrite (joined_path_clean env _ _ Hj).
  unfold place_segments. fold segments. by rewrite resolved_app.
Qed.

Lemma template_before self place before takes after :
  dict_get (template_table self) place
  = Some (SUBPATH_MU_CODE self :: before, takes, after) ->
  before <> [].
Proof.
  unfold template_table. cbn [dict_get].
  repeat (match goal with
          | |- context [str_eqb ?k place] => destruct (str_eqb k place)
          end; [by intros [= <- <- <-]|]).
  done.
Qed.

(** C3 (as amended). For every place and parameter list, [__path_create]
    cuts each parameter that is not [None] at the slashes of its normal
    form, sanitizes each piece (strip; a space becomes an underscore; a
    hyphen, a dot or a word character is kept; anything else, other white
    space included, is dropped) and joins the literal segments of the
    place's template with those pieces in template order, for the two file
    places followed by the last of them with [.py] appended; the joined path
    goes through [path_clean]; a name that is no place raises [ValueError].
    What is left of a piece holds only hyphens, dots and word characters.
    For a canonical workspace and literal segments without a slash the
    result is the absolute path whose components are those the segments lead
    to from the workspace (an empty segment and [.] give none, [..] takes
    the last one back), and when the segments are proper names it is the
    workspace followed by the segments as they stand. *)
Theorem path_create_joins_sanitized_segments env self place parameters :
  path_create env self place parameters
  = match spec_template_segments env self place parameters with
    | Some segments =>
        Ok (path_clean env (fold_left assemble_step segments []))
    | None =>
        Raise (Exn "ValueError"
                 (py "Can't find method to assembly path for command: "
                  ++ place))
    end
  /\ map (clean_name env) (params_separate parameters)
     = spec_segments env parameters
  /\ (forall s c, c ∈ spec_sanitize env s -> keeps env c = true)
  /\ (forall ws before takes after,
        SUBPATH_MU_CODE self = absolute ws -> Forall clean_component ws ->
        dict_get (template_table self) place
        = Some (SUBPATH_MU_CODE self :: before, takes, after) ->
        Forall (fun c => SLASH ∉ c) before ->
        Forall (fun c => c <> APPEND_PY_FILE) before ->
        let segments := place_segments env before takes after parameters in
        path_create env self place parameters
        = Ok (absolute (resolved (ws ++ segments)))
        /\ (Forall clean_component segments ->
            path_create env self place parameters
            = Ok (absolute (ws ++ segments)))).
Proof.
  split; [|split; [|split]].
  - unfold path_create, spec_template_segments.
    rewrite path_struct_template, clean_segments_spec.
    by destruct (dict_get (template_table self) place)
      as [[[before takes] after]|].
  - apply clean_segments_spec.
  - intros s c. rewrite <- clean_name_spec. apply clean_name_kept.
  - intros ws before takes after HMU Hws Hplace Hslash Happ segments.
    pose proof (template_before self place before takes after Hplace) as Hne.
    pose proof (path_create_resolved env self ws place before takes after
                  parameters HMU Hws Hplace Hne Hslash Happ) as Hcreate.
    fold segments in Hcreate. split; [exact Hcreate|].
    intros Hclean. rewrite Hcreate. do 2 f_equal.
    apply resolved_of_clean. by apply Forall_app.
Qed.

(** The amended C3 at work: the file of a lesson of the student [ann],
    from a name with spaces and a tab and a second parameter that steps
    back. *)
Lemma path_create_example :
  path_create example_env example_settings (py "student file")
    [Some ([32; 109; 121; TAB] ++ py "first lesson")%N; Some (py "../blink")]
  = Ok (py "/home/u/mu_code/codeinpython_env/workspace/my_school/ann/blink/blink.py").
Proof.
  refine (eq_trans
            (proj1 (proj2 (proj2 (proj2
               (path_create_joins_sanitized_segments example_env
                  example_settings (py "student file")
                  [Some ([32; 109; 121; TAB] ++ py "first lesson")%N; Some (py "../blink")])))
               WORKSPACE
               [py "codeinpython_env"; py "workspace"; py "my_school"; py "ann"]
               true [py "append py file"] eq_refl workspace_clean eq_refl _ _))
            _).
  - repeat (constructor; [apply (bool_decide_unpack _); by vm_compute|]).
    constructor.
  - repeat (constructor; [apply (bool_decide_unpack _); by vm_compute|]).
    constructor.
  - by vm_compute.
Defined.

(** ** Inside and outside the main folder *)







Lemma main_components_clean ws :
  Forall clean_component ws -> Forall clean_component (main_components ws).
Proof.
  intros Hws. apply Forall_app. split; [done|].
  constructor; [apply main_folder_clean|done].
Qed.


(** ** The paths of the entries *)

Lemma path_get_resolved env self ws place before takes after parameters :
  SUBPATH_MU_CODE self = absolute ws -> Forall clean_component ws ->
  dict_get (template_table self) place
  = Some (SUBPATH_MU_CODE self :: before, takes, after) ->
  Forall (fun c => SLASH ∉ c) before ->
  Forall (fun c => c <> APPEND_PY_FILE) before ->
  let cs := resolved (ws ++ place_segments env before takes after parameters) in
  Forall clean_component cs
  /\ path_get env self place parameters
     = Ok (if startswith (absolute cs) (absolute (main_components ws))
           then absolute cs else []).
Proof.
  intros HMU Hws Hplace Hslash Happ cs.
  pose proof (template_before self place before takes after Hplace) as Hne.
  assert (Hcs : Forall clean_component cs).
  { apply resolved_clean. apply Forall_app. split.
    - eapply Forall_impl; [exact Hws|]. apply clean_component_no_slash.
    - unfold place_segments.
      destruct (template_after self place _ _ _ Hplace) as [Hafter Hlen].
      set (segments := before ++ (if takes then spec_segments env parameters
                                  else [])).
      assert (Hsegs : Forall (fun c => SLASH ∉ c) segments).
      { apply Forall_app. split; [done|].
        destruct takes; [apply spec_segments_no_slash|done]. }
      apply Forall_app. split; [done|].
      apply Forall_forall. intros c Hc.
      apply list_elem_of_fmap in Hc as (a & -> & _).
      apply py_file_no_slash.
      assert (Hsne : segments <> []) by (unfold segments; by destruct before).
      destruct (exists_last Hsne) as (init & s & ->). rewrite last_snoc.
      apply Forall_app in Hsegs as [_ Hs]. by apply Forall_inv in Hs. }
  split; [exact Hcs|].
  apply path_get_exact.
  - rewrite HMU. apply isabs_absolute.
  - by apply path_create_resolved.
  - by apply path_create_main.
Qed.

Lemma resolved_curdir a b : resolved (a ++ curdir :: b) = resolved (a ++ b).
Proof. unfold resolved. by rewrite !fold_left_app. Qed.




(** ** What is done for an entry *)









(** ** The run of the installer *)

Lemma change_list_loop env self root errs w :
  for_acc (children root) (update_element env self []) errs w
  = for_acc (change_list root) (apply_entry env self []) errs w.
Proof.
  unfold change_list. revert errs w.
  induction (children root) as [|child rest IH]; intros errs w; [done|].
  cbn [for_acc flat_map]. rewrite for_acc_app. unfold bind.
  rewrite update_element_two_passes.
  destruct (str_eqb (tag child) (py "update")).
  - destruct (for_acc (two_pass_order child) _ errs w) as [[errs'|x] w'];
      [apply IH|done].
  - cbn [for_acc]. unfold ret. apply IH.
Qed.

Lemma change_list_one_section root section :
  filter (fun c => tag c = py "update") (children root) = [section] ->
  change_list root = two_pass_order section.
Proof.
  unfold change_list.
  induction (children root) as [|child rest IH]; [done|].
  rewrite filter_cons. cbn [flat_map].
  destruct (str_eqb (tag child) (py "update")) eqn:Htag.
  - apply str_eqb_true in Htag. rewrite decide_True by done.
    intros [= -> Hrest].
    assert (Hnone : flat_map
              (fun child =>
                 if str_eqb (tag child) (py "update")
                 then two_pass_order child else []) rest = []).
    { clear IH. induction rest as [|c rest IH]; [done|].
      rewrite filter_cons in Hrest. cbn [flat_map].
      destruct (str_eqb (tag c) (py "update")) eqn:Hc.
      - apply str_eqb_true in Hc. by rewrite decide_True in Hrest.
      - apply str_eqb_false in Hc. rewrite decide_False in Hrest by done.
        by apply IH. }
    by rewrite Hnone, app_nil_r.
  - apply str_eqb_false in Htag. rewrite decide_False by done. apply IH.
Qed.

Lemma path_get_main_folder env self ws :
  SUBPATH_MU_CODE self = absolute ws -> Forall clean_component ws ->
  path_get env self (py "main") [Some []] = Ok (absolute (main_components ws)).
Proof.
  intros HMU Hws.
  destruct (path_get_resolved env self ws (py "main") [py "codeinpython_env"]
              true [] [Some []] HMU Hws eq_refl) as [_ Hget].
  { constructor; [|done]. apply clean_component_no_slash, main_folder_clean. }
  { by repeat constructor. }
  rewrite Hget. unfold place_segments. cbn [map].
  change (spec_segments env [Some []]) with [curdir].
  rewrite app_nil_r, (app_assoc ws), resolved_curdir, app_nil_r.
  fold (main_components ws).
  rewrite resolved_of_clean by (by apply main_components_clean).
  rewrite <- (app_nil_r (main_components ws)) at 1.
  by rewrite absolute_prefix.
Qed.

Lemma path_get_temp_folder env self ws :
  SUBPATH_MU_CODE self = absolute ws -> Forall clean_component ws ->
  path_get env self (py "temp") []
  = Ok (absolute (main_components ws ++ [py "temp"])).
Proof.
  intros HMU Hws.
  rewrite (path_get_place env self ws (py "temp") [py "temp"] true [] []
             HMU Hws eq_refl eq_refl).
  - unfold main_components. by rewrite <- !app_assoc.
  - constructor; [by apply clean_literal|done].
  - by repeat constructor.
Qed.


(** The content check of an archive with a manifest. *)
Lemma zip_check_content_archive env self zs members root w :
  Forall clean_component zs ->
  stat env w (absolute zs) = Some (File (Zip members)) ->
  snd (splitext (absolute zs)) = py ".zip" ->
  getinfo members CONFIG_FILENAME = Ok (Data (Some root)) ->
  zip_check_content env self (absolute zs) w = (Ok true, w).
Proof.
  intros Hzs Hstat Hext Hinfo. unfold zip_check_content.
  rewrite (proj2 (str_eqb_false (absolute zs) [])) by done. cbn [negb].
  unfold bind at 1, ret at 1. rewrite path_clean_absolute by done.
  unfold bind at 1, os_path_isfile at 1. rewrite Hstat. cbn [negb].
  unfold bind at 1, zipfile_is_zipfile at 1. rewrite Hstat.
  unfold bind at 1. unfold zip_get_version.
  unfold bind at 1, os_path_isfile at 1. rewrite Hstat.
  rewrite Hext, str_eqb_refl.
  unfold bind at 1, zipfile_ZipFile at 1. rewrite Hstat.
  rewrite bool_decide_eq_true_2 by (by eapply getinfo_namelist).
  unfold bind at 1, lift at 1. rewrite Hinfo.
  unfold xml_get_version, ET_parse. done.
Qed.

(** The run on an archive that passes the check, with the main folder in
    place: the archive is unpacked, the change-list is gone through once, in
    the order of [change_list], and the report or the copy to the archive
    slot follows. *)
Lemma update_data_from_zip_run env self ws source zs members root w :
  SUBPATH_MU_CODE self = absolute ws -> Forall clean_component ws ->
  Forall clean_component zs ->
  checked_path env self source = Ok (absolute zs) ->
  let temp := absolute (main_components ws ++ [py "temp"]) in
  let w1 := snd (shutil_rmtree_ignore_errors env temp w) in
  isdir env w1 (absolute (main_components ws)) = true ->
  stat env w1 (absolute zs) = Some (File (Zip members)) ->
  snd (splitext (absolute zs)) = py ".zip" ->
  getinfo members CONFIG_FILENAME = Ok (Data (Some root)) ->
  update_data_from_zip env self source w
  = try_finally
      (try_except
         (extractall env members temp ;;
          list_of_errors <-
            for_acc (change_list root) (apply_entry env self []) [] ;;
          report_or_archive env self (absolute zs) list_of_errors ;;
          ret (Some true))
         (install_failed env))
      (cleanup env self (absolute zs) temp) w1.
Proof.
  intros HMU Hws Hzs Hsource temp w1 Hmain Hstat Hext Hinfo.
  unfold update_data_from_zip.
  unfold bind at 1, lift at 1.
  rewrite (path_get_main_folder env self ws) by done.
  assert (Hzip :
    (if str_eqb source []
     then lift (path_get env self (py "zip install default file") [])
     else ret (path_clean env source)) = lift (Ok (absolute zs))).
  { unfold checked_path in Hsource.
    destruct (str_eqb source []); cbn [negb] in Hsource.
    - by rewrite Hsource.
    - by injection Hsource as ->. }
  rewrite Hzip. unfold bind at 1, lift at 1.
  unfold bind at 1, lift at 1.
  rewrite (path_get_temp_folder env self ws) by done. fold temp.
  unfold bind at 1.
  pose proof (rmtree_never_raises env temp w) as Hrm.
  destruct (shutil_rmtree_ignore_errors env temp w) as [o w0] eqn:Hrmtree.
  cbn [fst] in Hrm. subst o. cbn [snd] in w1. subst w1.
  unfold bind at 1.
  rewrite (zip_check_content_archive env self zs members root w0) by done.
  cbn [negb]. unfold bind at 1, os_path_exists at 1.
  unfold isdir in Hmain.
  destruct (stat env w0 (absolute (main_components ws))) as [[|?]|] eqn:Hm;
    try done.
  rewrite bool_decide_eq_true_2 by done. cbn [negb].
  unfold bind at 1, ret at 1.
  unfold try_finally, try_except.
  assert (Hinstall :
    install env self [] (absolute zs) temp w0
    = (extractall env members temp ;;
       list_of_errors <-
         for_acc (change_list root) (apply_entry env self []) [] ;;
       report_or_archive env self (absolute zs) list_of_errors ;;
       ret (Some true)) w0).
  { unfold install. unfold bind, lift, zipfile_ZipFile. rewrite Hstat.
    destruct (extractall env members temp w0) as [[[]|x] wx]; [|done].
    rewrite Hinfo. unfold ET_parse, ret. by rewrite change_list_loop. }
  by rewrite Hinstall.
Qed.

(** ** No dialog while files are moved *)





















(** ** The order of the change-list *)

Lemma two_pass_order_entries child :
  two_pass_order child
  ≡ₚ filter (fun e => tag e = py "remove" \/ tag e = py "copy") (children child).
Proof.
  unfold two_pass_order.
  induction (children child) as [|e l IH]; [done|].
  rewrite !filter_cons.
  destruct (decide (tag e = py "remove")) as [Hr|Hr].
  - rewrite decide_False by (rewrite Hr; by vm_compute).
    rewrite decide_True by (by left). cbn [app]. by rewrite IH.
  - destruct (decide (tag e = py "copy")) as [Hc|Hc].
    + rewrite decide_True by (by right).
      rewrite <- Permutation_middle. by rewrite IH.
    + rewrite decide_False by tauto. exact IH.
Qed.

Lemma two_pass_order_removes_first child i j e1 e2 :
  two_pass_order child !! i = Some e1 ->
  two_pass_order child !! j = Some e2 ->
  tag e1 = py "copy" -> tag e2 = py "remove" -> (j < i)%nat.
Proof.
  unfold two_pass_order. intros H1 H2 Hc Hr.
  apply lookup_app_Some in H1 as [H1|[Hi H1]].
  { apply list_elem_of_lookup_2, list_elem_of_filter in H1 as [H1 _].
    rewrite Hc in H1. by destruct tag_copy_not_remove. }
  apply lookup_app_Some in H2 as [H2|[Hj H2]].
  { apply lookup_lt_Some in H2. lia. }
  apply list_elem_of_lookup_2, list_elem_of_filter in H2 as [H2 _].
  rewrite Hr in H2. by destruct tag_copy_not_remove.
Qed.

(** C6. On an archive that passes the check, [update_data_from_zip]
    unpacks it and then goes through the change-list once, entry by entry,
    in the order of [change_list]: for each [update] element of the manifest
    all its [remove] entries, then all its [copy] entries; the report or the
    copy to the archive slot and the clean-up follow.  For a manifest with
    one [update] element that order holds every [remove] and every [copy]
    entry of the element once, and every [remove] entry stands before every
    [copy] entry, wherever the manifest lists them. *)
Theorem update_applies_removes_before_copies env self ws source zs members
    root w :
  SUBPATH_MU_CODE self = absolute ws -> Forall clean_component ws ->
  Forall clean_component zs ->
  checked_path env self source = Ok (absolute zs) ->
  let temp := absolute (main_components ws ++ [py "temp"]) in
  let w1 := snd (shutil_rmtree_ignore_errors env temp w) in
  isdir env w1 (absolute (main_components ws)) = true ->
  stat env w1 (absolute zs) = Some (File (Zip members)) ->
  snd (splitext (absolute zs)) = py ".zip" ->
  getinfo members CONFIG_FILENAME = Ok (Data (Some root)) ->
  update_data_from_zip env self source w
  = try_finally
      (try_except
         (extractall env members temp ;;
          list_of_errors <-
            for_acc (change_list root) (apply_entry env self []) [] ;;
          report_or_archive env self (absolute zs) list_of_errors ;;
          ret (Some true))
         (install_failed env))
      (cleanup env self (absolute zs) temp) w1
  /\ (forall section,
        filter (fun c => tag c = py "update") (children root) = [section] ->
        change_list root
        ≡ₚ filter (fun e => tag e = py "remove" \/ tag e = py "copy")
             (children section)
        /\ (forall i j e1 e2,
              change_list root !! i = Some e1 ->
              change_list root !! j = Some e2 ->
              tag e1 = py "copy" -> tag e2 = py "remove" -> (j < i)%nat)).
Proof.
  intros HMU Hws Hzs Hsource temp w1 Hmain Hstat Hext Hinfo. split.
  - by apply (update_data_from_zip_run env self ws source zs members root w).
  - intros section Hone.
    rewrite (change_list_one_section root section Hone). split.
    + apply two_pass_order_entries.
    + apply two_pass_order_removes_first.
Qed.

(** ** Entries that fail *)





(** ** The installer at work *)

Lemma inbox_components_clean : Forall clean_component INBOX_COMPONENTS.
Proof.
  repeat (constructor; [by apply clean_literal|]). constructor.
Qed.


(** C6 at work: the manifest lists the copy of [examples/a.py] before the
    removal of the folder [examples]; the folder is removed first, with the
    file [old.py] in it, and the copy then puts the new file there. *)
Lemma removes_before_copies_example :
  let w := installed_world archive_copy_listed_first in
  let r := update_data_from_zip example_env example_settings [] w in
  checked_path example_env example_settings [] = Ok (absolute INBOX_COMPONENTS)
  /\ fst r = Ok (Some true)
  /\ fs (snd r) !! py "/home/u/mu_code/codeinpython_env/examples/a.py"
     = Some (File (Data None))
  /\ fs (snd r) !! py "/home/u/mu_code/codeinpython_env/examples/old.py" = None.
Proof.
  intros w r.
  assert (H1 : checked_path example_env example_settings []
               = Ok (absolute INBOX_COMPONENTS))
    by (vm_compute; reflexivity).
  refine (conj H1 _).
  destruct (update_applies_removes_before_copies example_env example_settings
              WORKSPACE [] INBOX_COMPONENTS
              [ (CONFIG_FILENAME,
                 manifest [entry "copy" "examples/a.py";
                           entry "remove" "examples"]);
                (py "examples/a.py", Data None) ]
              (Elem (py "config") [] None
                 [ Elem (py "release") [] (Some (py "1.0")) [];
                   Elem (py "update") [] None
                     [entry "copy" "examples/a.py"; entry "remove" "examples"] ])
              w eq_refl workspace_clean inbox_components_clean H1)
    as [Hrun _].
  - vm_compute; reflexivity.
  - vm_compute; reflexivity.
  - vm_compute; reflexivity.
  - reflexivity.
  - unfold r. rewrite Hrun. repeat split; by vm_compute.
Defined.


